(** * studip-client: the local metadata store (studip/database.py)

    A shallow embedding of the [Database] class and of the record classes
    next to it.  The SQLite file is a record of tables, each table a list
    of rows in rowid order; every method is a function in a state and
    exception monad over that record; every SQL statement is a function
    from the tables to either the new tables and the result rows, or the
    exception SQLite raises.

    What lies outside studip/database.py is named where it is used:
    the abbreviation functions of studip/util.py and the two migration
    scripts are parameters, the schema of sql/setup.sql is taken from the
    layout of the specification.

    The tables the methods work on are the ones the connection sees,
    its uncommitted rows included; [__init__] and [commit] tell them from
    the file on disk.  What [__init__] prints is left out.  Integers are
    unbounded: the sum [version + 1] of [update_file] is SQLite's as long
    as the counter is a 64-bit INTEGER, and what is proved of several
    updates in a row says so. *)

From Stdlib Require Import ZArith List String Ascii Bool Lia DecimalString.
From Stdlib Require Import Sorted Permutation.
From stdpp Require Import gmap strings.
Import ListNotations.

Local Open Scope string_scope.
Local Open Scope list_scope.
Local Open Scope Z_scope.

(** ** Python values *)

(** [SyncMode = IntEnum("SyncMode", "NoSync Metadata Full")]: the functional
    API of [enum] numbers the members from 1. *)
Inductive SyncMode := NoSync | Metadata | Full.

Definition int_of_SyncMode (m : SyncMode) : Z :=
  match m with NoSync => 1 | Metadata => 2 | Full => 3 end.

(** [SyncMode(n)]: the member with value [n], [ValueError] (here [None])
    when there is none. *)
Definition SyncMode_of_int (n : Z) : option SyncMode :=
  if n =? 1 then Some NoSync
  else if n =? 2 then Some Metadata
  else if n =? 3 then Some Full
  else None.

(** Modelled from the spec: [EscapeMode] and [Charset] are defined in
    studip/util.py, which is not among the sources embedded here.  Section 4.4
    names three escaping policies (reject, transliterate to a similar safe
    character, pass through) and two character-set policies (plain ASCII,
    full Unicode); database.py itself only names [EscapeMode.Similar] and
    [Charset.Unicode]. *)
Inductive EscapeMode := Reject | Similar | PassThrough.
Inductive Charset := AsciiOnly | Unicode.

(** Truth value of an optional string in [x if x else y]: [None] and the
    empty string are both false. *)
Definition truthy (o : option string) : bool :=
  match o with
  | None => false
  | Some s => negb (String.eqb s "")
  end.

(** [x if x else y] for an optional string [x]. *)
Definition if_else (x : option string) (y : string) : string :=
  match x with
  | Some a => if truthy x then a else y
  | None => y
  end.

(** [class Course].  [semester] holds the semester's name, as [add_course]
    and [get_course_details] use it. *)
Record Course := mkCourse {
  course_id : string;
  course_semester : string;
  course_number : string;
  course_name : string;
  course_type : string;
  course_sync : SyncMode;
  course__abbrev : option string;
  course__type_abbrev : option string
}.

(** [class File]. *)
Record File := mkFile {
  file_id : string;
  file_course : string;
  file_course_semester : string;
  file_course_name : string;
  file__course_abbrev : option string;
  file_course_type : string;
  file__course_type_abbrev : option string;
  file_path : list string;
  file_name : string;
  file_extension : string;
  file_author : string;
  file_description : string;
  file_description_url : option string;
  file_remote_date : Z;
  file_copyrighted : bool;
  file_local_date : option Z;
  file_version : option Z
}.

(** [class View]. *)
Record View := mkView {
  view_id : Z;
  view_name : string;
  view_format : string;
  view_base : option string;
  view_escape : EscapeMode;
  view_charset : Charset
}.

(** [View(id, name)] with the defaults of [View.__init__]. *)
Definition View_default (id : Z) (name : string) : View :=
  {| view_id := id; view_name := name;
     view_format := "{course}/{type}/{short-path}/{name}{ext}";
     view_base := None; view_escape := Similar; view_charset := Unicode |}.

(** ** The persisted tables *)

(** Modelled from the spec: the table definitions live in sql/setup.sql,
    which is not among the sources embedded here.  The columns, the columns
    that may be NULL (an [option] here) and the keys follow section 6:
    [id] is the key of semesters, courses, folders, files and views,
    [views.name] is UNIQUE, [(view, file)] is the composite key of
    checkouts.  [courses.root] is left NULL by the INSERT of [add_course],
    so it is nullable; [folders.name] is nullable for the folders that
    are not created from a path segment.  [courses.sync] holds the integer
    of a [SyncMode]: [add_course] and [update_course] write
    [int(course.sync)], [list_courses] reads [SyncMode(sync)] and compares
    the integer; the column is typed by the enumeration and compared
    through [int_of_SyncMode]. *)
Record SemesterRow := mkSemesterRow {
  sem_id : string;
  sem_name : string;
  sem_ord : Z
}.

Record CourseRow := mkCourseRow {
  c_id : string;
  c_semester : string;
  c_number : string;
  c_name : string;
  c_abbrev : option string;
  c_type : string;
  c_type_abbrev : option string;
  c_sync : SyncMode;
  c_root : option Z
}.

Record FolderRow := mkFolderRow {
  fo_id : Z;
  fo_name : option string;
  fo_parent : option Z;
  fo_course : option string
}.

Record FileRow := mkFileRow {
  f_id : string;
  f_folder : Z;
  f_name : string;
  f_extension : string;
  f_author : string;
  f_description : string;
  f_remote_date : Z;
  f_copyrighted : bool;
  f_local_date : option Z;
  f_version : Z
}.

Record ViewRow := mkViewRow {
  v_id : Z;
  v_name : string;
  v_format : string;
  v_base : option string;
  v_esc_mode : EscapeMode;
  v_charset : Charset
}.

Record CheckoutRow := mkCheckoutRow {
  co_view : Z;
  co_file : string
}.

Record Store := mkStore {
  semesters : list SemesterRow;
  courses : list CourseRow;
  folders : list FolderRow;
  files : list FileRow;
  views : list ViewRow;
  checkouts : list CheckoutRow
}.

Definition empty_store : Store :=
  {| semesters := []; courses := []; folders := []; files := [];
     views := []; checkouts := [] |}.

Definition set_courses (l : list CourseRow) (s : Store) : Store :=
  {| semesters := semesters s; courses := l; folders := folders s;
     files := files s; views := views s; checkouts := checkouts s |}.

Definition set_folders (l : list FolderRow) (s : Store) : Store :=
  {| semesters := semesters s; courses := courses s; folders := l;
     files := files s; views := views s; checkouts := checkouts s |}.

Definition set_files (l : list FileRow) (s : Store) : Store :=
  {| semesters := semesters s; courses := courses s; folders := folders s;
     files := l; views := views s; checkouts := checkouts s |}.

Definition set_views (l : list ViewRow) (s : Store) : Store :=
  {| semesters := semesters s; courses := courses s; folders := folders s;
     files := files s; views := l; checkouts := checkouts s |}.

Definition set_checkouts (l : list CheckoutRow) (s : Store) : Store :=
  {| semesters := semesters s; courses := courses s; folders := folders s;
     files := files s; views := views s; checkouts := l |}.

(** ** Exceptions and the method monad *)

Inductive exn :=
  | IndexError
  | ValueError
  | OSError
  | QueryError
  | IntegrityError
  | OperationalError
  | DatabaseVersionError.

Inductive outcome (A : Type) :=
  | Val (a : A)
  | Exc (e : exn).
Arguments Val {A} a.
Arguments Exc {A} e.

(** A method of a state of type [S]: the value returned or the exception
    raised, and the state left behind. *)
Definition M (S A : Type) : Type := S -> outcome A * S.

Definition ret {S A} (a : A) : M S A := fun s => (Val a, s).
Definition raise {S A} (e : exn) : M S A := fun s => (Exc e, s).
Definition bind {S A B} (m : M S A) (k : A -> M S B) : M S B :=
  fun s =>
    match m s with
    | (Val a, s') => k a s'
    | (Exc e, s') => (Exc e, s')
    end.

Notation "x <- m ;; k" := (bind m (fun x => k))
  (at level 100, m at next level, right associativity).
Notation "m ;;; k" := (bind m (fun _ => k))
  (at level 100, right associativity).

(** ** SQL statements *)

(** One statement run by [cursor.execute] on a database of type [S]: the
    rows of its result set and the database after it, or the exception
    raised.  SQLite undoes a statement that fails, so a failure carries no
    new database. *)
Inductive exec (S R : Type) :=
  | Done (rows : list R) (s : S)
  | Abort (e : exn).
Arguments Done {S R} rows s.
Arguments Abort {S R} e.

Definition update_where {A} (p : A -> bool) (f : A -> A) (l : list A) : list A :=
  map (fun r => if p r then f r else r) l.

Definition delete_where {A} (p : A -> bool) (l : list A) : list A :=
  List.filter (fun r => negb (p r)) l.

Definition select_where {A} (p : A -> bool) (l : list A) : list A :=
  List.filter p l.

(** [col = :param] for a nullable column and a parameter that may be
    [None]: a comparison with NULL is never true. *)
Definition eq_nullable_Z (col par : option Z) : bool :=
  match col, par with
  | Some a, Some b => a =? b
  | _, _ => false
  end.

Definition eq_nullable_string (col : option string) (par : string) : bool :=
  match col with
  | Some a => (a =? par)%string
  | None => false
  end.

(** How [query] was given the statement's parameters. *)
Inductive params := NoParams | Positional | Keyword | PositionalAndKeyword.

(** [cursor.fetchmany(size)]: the loop of the sqlite3 module stops when its
    counter reaches [size], which a size of zero or less never lets happen. *)
Definition fetchmany {R} (size : Z) (rows : list R) : list R :=
  if size <=? 0 then rows else firstn (Z.to_nat size) rows.

(** [Database.query].  [None] is Python's [None], returned when
    [expected_rows] is 0. *)
Definition query {S R} (sql : S -> exec S R) (p : params) (expected_rows : Z)
  : M S (option (list R)) :=
  fun s =>
    let executed :=
      match p with
      | PositionalAndKeyword => (Exc ValueError, s)
      | Positional | NoParams =>
          match sql s with
          | Done rows s' => (Val rows, s')
          | Abort e => (Exc e, s)
          end
      | Keyword =>
          match sql s with
          | Done rows s' => (Val rows, s')
          | Abort IntegrityError => (Val [], s)
          | Abort e => (Exc e, s)
          end
      end in
    match executed with
    | (Exc e, s') => (Exc e, s')
    | (Val cursor, s') =>
        if expected_rows =? 0 then (Val None, s')
        else
          let rows := fetchmany expected_rows cursor in
          if Z.of_nat (length rows) <? expected_rows
          then (Exc QueryError, s')
          else (Val (Some rows), s')
    end.

(** [rows = self.query(...)] with the default [expected_rows=-1]. *)
Definition query_rows {S R} (sql : S -> exec S R) (p : params) : M S (list R) :=
  r <- query sql p (-1) ;;
  ret (match r with Some rows => rows | None => [] end).

(** [self.query(..., expected_rows=0)]: the result is discarded. *)
Definition query_exec {S R} (sql : S -> exec S R) (p : params) : M S unit :=
  query sql p 0 ;;; ret tt.

(** [x, = rows[0]] *)
Definition first_row {S R} (rows : list R) : M S R :=
  match rows with
  | [] => raise IndexError
  | r :: _ => ret r
  end.

(** ORDER BY: a stable insertion sort for the order [le]. *)
Fixpoint insert_sorted {A} (le : A -> A -> bool) (x : A) (l : list A) : list A :=
  match l with
  | [] => [x]
  | y :: l' => if le x y then x :: l else y :: insert_sorted le x l'
  end.

Definition order_by {A} (le : A -> A -> bool) (l : list A) : list A :=
  fold_right (insert_sorted le) [] l.

(** The rowid SQLite gives a row inserted without one: 1 in an empty
    table, else one more than the largest rowid in use. *)
Definition next_rowid (ids : list Z) : Z :=
  match ids with
  | [] => 1
  | x :: xs => fold_left Z.max xs x + 1
  end.

(** ** The methods of [Database] *)

Section DatabaseMethods.

(** [abbreviate_course_name] and [abbreviate_course_type] are imported
    from studip/util.py, which is not among the sources embedded here. *)
Variable abbreviate_course_name : string -> string.
Variable abbreviate_course_type : string -> string.

(** [Course.abbrev] and [Course.type_abbrev] (the properties). *)
Definition Course_abbrev (c : Course) : string :=
  if_else (course__abbrev c) (abbreviate_course_name (course_name c)).

Definition Course_type_abbrev (c : Course) : string :=
  if_else (course__type_abbrev c) (abbreviate_course_type (course_type c)).

(** [File.course_abbrev] and [File.course_type_abbrev] (the properties).
    The first reads [self.name], which in [File] is the name of the file. *)
Definition File_course_abbrev (f : File) : string :=
  if_else (file__course_abbrev f) (abbreviate_course_name (file_name f)).

Definition File_course_type_abbrev (f : File) : string :=
  if_else (file__course_type_abbrev f) (abbreviate_course_type (file_course_type f)).

(** *** Courses *)

(** The list [sync_modes] built at the head of [list_courses] and
    [list_files]. *)
Definition sync_modes (select_sync_yes select_sync_metadata_only select_sync_no : bool)
  : list Z :=
  map (fun p => int_of_SyncMode (snd p))
    (List.filter fst
       [(select_sync_yes, Full); (select_sync_metadata_only, Metadata);
        (select_sync_no, NoSync)]).

(** [sync IN (...)] *)
Definition sync_in (modes : list Z) (r : CourseRow) : bool :=
  existsb (Z.eqb (int_of_SyncMode (c_sync r))) modes.

Definition le_name (a b : CourseRow) : bool := String.leb (c_name a) (c_name b).

Definition le_name_type (a b : CourseRow * SemesterRow) : bool :=
  String.ltb (c_name (fst a)) (c_name (fst b))
  || (String.eqb (c_name (fst a)) (c_name (fst b))
      && String.leb (c_type (fst a)) (c_type (fst b))).

(** SELECT id FROM courses WHERE sync IN (...) ORDER BY name *)
Definition sql_select_course_ids (modes : list Z) : Store -> exec Store string :=
  fun s => Done (map c_id (order_by le_name (select_where (sync_in modes) (courses s)))) s.

(** FROM courses AS c INNER JOIN semesters AS s ON s.id = c.semester *)
Definition join_semesters (s : Store) : list (CourseRow * SemesterRow) :=
  flat_map
    (fun c => map (fun sem => (c, sem))
                (select_where (fun sem => String.eqb (sem_id sem) (c_semester c))
                   (semesters s)))
    (courses s).

(** The row [(c.id, s.name, c.number, c.name, c.abbrev, c.type,
    c.type_abbrev, c.sync)] read into [Course(i, s, n, a, b, t, u,
    SyncMode(sync))]. *)
Definition Course_of_row (p : CourseRow * SemesterRow) : Course :=
  {| course_id := c_id (fst p); course_semester := sem_name (snd p);
     course_number := c_number (fst p); course_name := c_name (fst p);
     course_type := c_type (fst p); course_sync := c_sync (fst p);
     course__abbrev := c_abbrev (fst p);
     course__type_abbrev := c_type_abbrev (fst p) |}.

(** SELECT ... FROM courses AS c INNER JOIN semesters AS s ...
    WHERE c.sync IN (...) ORDER BY c.name, c.type *)
Definition sql_select_courses (modes : list Z) : Store -> exec Store (CourseRow * SemesterRow) :=
  fun s =>
    Done (order_by le_name_type
            (select_where (fun p => sync_in modes (fst p)) (join_semesters s))) s.

(** [Database.list_courses]: the full projection on the left, the ids
    on the right. *)
Definition list_courses (full select_sync_yes select_sync_metadata_only select_sync_no : bool)
  : M Store (list Course + list string) :=
  let modes := sync_modes select_sync_yes select_sync_metadata_only select_sync_no in
  if full then
    rows <- query_rows (sql_select_courses modes) NoParams ;;
    ret (inl (map Course_of_row rows))
  else
    rows <- query_rows (sql_select_course_ids modes) NoParams ;;
    ret (inr rows).

(** INSERT INTO courses (id, semester, ...) VALUES (:id, (SELECT id FROM
    semesters WHERE name = :sem), ...).  The scalar subquery is NULL when
    no semester has that name, which the semester column refuses; a
    second row with the same id is refused by the key. *)
Definition sql_insert_course (c : Course) : Store -> exec Store unit :=
  fun s =>
    match select_where (fun r => String.eqb (sem_name r) (course_semester c)) (semesters s) with
    | [] => Abort IntegrityError
    | sem :: _ =>
        if existsb (fun r => String.eqb (c_id r) (course_id c)) (courses s)
        then Abort IntegrityError
        else Done []
               (set_courses
                  (courses s ++
                   [{| c_id := course_id c; c_semester := sem_id sem;
                       c_number := course_number c; c_name := course_name c;
                       c_abbrev := course__abbrev c; c_type := course_type c;
                       c_type_abbrev := course__type_abbrev c;
                       c_sync := course_sync c; c_root := None |}]) s)
    end.

Definition add_course (c : Course) : M Store unit :=
  query_exec (sql_insert_course c) Keyword.

(** UPDATE courses SET number=:num, name=:name, abbrev=:abbrev,
    type=:type, type_abbrev=:type_abbrev, sync=:sync WHERE id=:id,
    with [abbrev=course.abbrev] and [type_abbrev=course.type_abbrev]. *)
Definition sql_update_course (c : Course) : Store -> exec Store unit :=
  fun s =>
    Done []
      (set_courses
         (update_where (fun r => String.eqb (c_id r) (course_id c))
            (fun r =>
               {| c_id := c_id r; c_semester := c_semester r;
                  c_number := course_number c; c_name := course_name c;
                  c_abbrev := Some (Course_abbrev c); c_type := course_type c;
                  c_type_abbrev := Some (Course_type_abbrev c);
                  c_sync := course_sync c; c_root := c_root r |})
            (courses s)) s).

Definition update_course (c : Course) : M Store unit :=
  query_exec (sql_update_course c) Keyword.

(** DELETE FROM courses WHERE id = :id *)
Definition sql_delete_course (id : string) : Store -> exec Store unit :=
  fun s =>
    Done [] (set_courses (delete_where (fun r => String.eqb (c_id r) id) (courses s)) s).

Definition delete_course (c : Course) : M Store unit :=
  query_exec (sql_delete_course (course_id c)) Keyword.

(** *** Folders *)

(** SELECT root FROM courses WHERE id = :course *)
Definition sql_select_root (course : string) : Store -> exec Store (option Z) :=
  fun s =>
    Done (map c_root (select_where (fun r => String.eqb (c_id r) course) (courses s))) s.

(** SELECT id FROM folders WHERE parent = :par AND name = :name *)
Definition subdirectories (par : option Z) (name : string) (l : list FolderRow) : list Z :=
  map fo_id
    (select_where
       (fun r => eq_nullable_Z (fo_parent r) par && eq_nullable_string (fo_name r) name) l).

Definition sql_select_subdirectory (par : option Z) (name : string)
  : Store -> exec Store Z :=
  fun s => Done (subdirectories par name (folders s)) s.

(** INSERT INTO folders (name, parent) VALUES (:name, :par): the new row
    takes the next rowid as its id. *)
Definition with_new_folder (name : string) (par : option Z) (s : Store) : Store :=
  set_folders
    (folders s ++
     [{| fo_id := next_rowid (map fo_id (folders s)); fo_name := Some name;
         fo_parent := par; fo_course := None |}]) s.

Definition sql_insert_folder (name : string) (par : option Z) : Store -> exec Store unit :=
  fun s => Done [] (with_new_folder name par s).

Definition query_subdirectory (parent : option Z) (folder : string) : M Store (list Z) :=
  query_rows (sql_select_subdirectory parent folder) Keyword.

(** The loop [for folder in file.path] of [create_parent_for_file]. *)
Fixpoint walk_path (path : list string) (parent : option Z) : M Store (option Z) :=
  match path with
  | [] => ret parent
  | folder :: rest =>
      rows <- query_subdirectory parent folder ;;
      rows <- (match rows with
               | [] =>
                   query_exec (sql_insert_folder folder parent) Keyword ;;;
                   query_subdirectory parent folder
               | _ :: _ => ret rows
               end) ;;
      id <- first_row rows ;;
      walk_path rest (Some id)
  end.

Definition create_parent_for_file (file : File) : M Store (option Z) :=
  rows <- query_rows (sql_select_root (file_course file)) Keyword ;;
  parent <- first_row rows ;;
  walk_path (file_path file) parent.

(** *** Files *)

(** INSERT INTO files (id, folder, name, ..., version) VALUES (:id, :par,
    :name, ..., 0).  A NULL folder is refused by the folder column, a
    second row with the same id by the key. *)
Definition sql_insert_file (file : File) (par : option Z) : Store -> exec Store unit :=
  fun s =>
    match par with
    | None => Abort IntegrityError
    | Some p =>
        if existsb (fun r => String.eqb (f_id r) (file_id file)) (files s)
        then Abort IntegrityError
        else Done []
               (set_files
                  (files s ++
                   [{| f_id := file_id file; f_folder := p; f_name := file_name file;
                       f_extension := file_extension file; f_author := file_author file;
                       f_description := file_description file;
                       f_remote_date := file_remote_date file;
                       f_copyrighted := file_copyrighted file;
                       f_local_date := file_local_date file; f_version := 0 |}]) s)
    end.

Definition add_file (file : File) : M Store unit :=
  parent <- create_parent_for_file file ;;
  query_exec (sql_insert_file file parent) Keyword.

(** The range of an SQLite INTEGER: 64 bits, signed. *)
Definition sqlite_min_integer : Z := -9223372036854775808.
Definition sqlite_max_integer : Z := 9223372036854775807.

(** UPDATE files SET folder = :par, name = :name, ..., local_date =
    :local, version = version + 1 WHERE id = :id.  A NULL folder is
    refused when a row is to be updated.  The sum is SQLite's for a
    version that is an INTEGER, from [sqlite_min_integer] to
    [sqlite_max_integer]: at [sqlite_max_integer] SQLite stores the sum as
    the REAL 2^63, which a further [+ 1] leaves as it is, so the sums of
    updates in a row are SQLite's as long as they stay in that range. *)
Definition sql_update_file (file : File) (par : option Z) : Store -> exec Store unit :=
  fun s =>
    match par with
    | None =>
        if existsb (fun r => String.eqb (f_id r) (file_id file)) (files s)
        then Abort IntegrityError
        else Done [] s
    | Some p =>
        Done []
          (set_files
             (update_where (fun r => String.eqb (f_id r) (file_id file))
                (fun r =>
                   {| f_id := f_id r; f_folder := p; f_name := file_name file;
                      f_extension := file_extension file; f_author := file_author file;
                      f_description := file_description file;
                      f_remote_date := file_remote_date file;
                      f_copyrighted := file_copyrighted file;
                      f_local_date := file_local_date file;
                      f_version := f_version r + 1 |})
                (files s)) s)
    end.

(** DELETE FROM checkouts WHERE file=:id *)
Definition sql_delete_checkouts_of_file (id : string) : Store -> exec Store unit :=
  fun s =>
    Done [] (set_checkouts
               (delete_where (fun r => String.eqb (co_file r) id) (checkouts s)) s).

Definition update_file (file : File) : M Store unit :=
  parent <- create_parent_for_file file ;;
  query_exec (sql_update_file file parent) Keyword ;;;
  query_exec (sql_delete_checkouts_of_file (file_id file)) Keyword.

(** UPDATE files SET local_date = :local WHERE id = :id *)
Definition set_local_date (local : option Z) (r : FileRow) : FileRow :=
  {| f_id := f_id r; f_folder := f_folder r; f_name := f_name r;
     f_extension := f_extension r; f_author := f_author r;
     f_description := f_description r; f_remote_date := f_remote_date r;
     f_copyrighted := f_copyrighted r; f_local_date := local;
     f_version := f_version r |}.

Definition sql_update_file_local_date (id : string) (local : option Z)
  : Store -> exec Store unit :=
  fun s =>
    Done []
      (set_files
         (update_where (fun r => String.eqb (f_id r) id) (set_local_date local) (files s))
         s).

Definition update_file_local_date (file : File) : M Store unit :=
  query_exec (sql_update_file_local_date (file_id file) (file_local_date file)) Keyword.

(** *** Views and checkouts *)

(** INSERT INTO views (id, name, format, base, esc_mode, charset)
    VALUES (...): refused when the id or the name is taken. *)
Definition sql_insert_view (view : View) : Store -> exec Store unit :=
  fun s =>
    if existsb (fun r => (v_id r =? view_id view)
                         || String.eqb (v_name r) (view_name view)) (views s)
    then Abort IntegrityError
    else Done []
           (set_views
              (views s ++
               [{| v_id := view_id view; v_name := view_name view;
                   v_format := view_format view; v_base := view_base view;
                   v_esc_mode := view_escape view; v_charset := view_charset view |}]) s).

Definition add_view (view : View) : M Store unit :=
  query_exec (sql_insert_view view) Keyword.

(** DELETE FROM views WHERE id=:id *)
Definition sql_delete_view (id : Z) : Store -> exec Store unit :=
  fun s => Done [] (set_views (delete_where (fun r => v_id r =? id) (views s)) s).

Definition remove_view (id : Z) : M Store unit :=
  query_exec (sql_delete_view id) Keyword.

(** SELECT file FROM checkouts WHERE view=:view *)
Definition sql_select_checkouts (view : Z) : Store -> exec Store string :=
  fun s => Done (map co_file (select_where (fun r => co_view r =? view) (checkouts s))) s.

Definition list_checkouts (view_id : Z) : M Store (list string) :=
  query_rows (sql_select_checkouts view_id) Keyword.

(** INSERT INTO checkouts (view, file) VALUES (:view, :file): refused
    when the pair is there already.  The references to views and files
    are not checked: SQLite enforces foreign keys only on a connection
    that switched them on, and [connect] does not. *)
Definition sql_insert_checkout (view : Z) (file : string) : Store -> exec Store unit :=
  fun s =>
    if existsb (fun r => (co_view r =? view) && String.eqb (co_file r) file) (checkouts s)
    then Abort IntegrityError
    else Done [] (set_checkouts
                    (checkouts s ++ [{| co_view := view; co_file := file |}]) s).

Definition add_checkout (view_id : Z) (file_id : string) : M Store unit :=
  query_exec (sql_insert_checkout view_id file_id) Keyword.

(** DELETE FROM checkouts WHERE view=:view *)
Definition sql_reset_checkouts (view : Z) : Store -> exec Store unit :=
  fun s =>
    Done [] (set_checkouts (delete_where (fun r => co_view r =? view) (checkouts s)) s).

Definition reset_checkouts (view_id : Z) : M Store unit :=
  query_exec (sql_reset_checkouts view_id) Keyword.

End DatabaseMethods.

(** ** Opening the database file *)

(** The contents of one SQLite file: the integer [user_version] of its
    header and its tables, [None] while no table has been created. *)
Record DbFile := mkDbFile {
  user_version : Z;
  tables : option Store
}.

(** What [sqlite3.connect] finds under a name that holds no file yet. *)
Definition fresh_file : DbFile := {| user_version := 0; tables := None |}.

(** The files on disk, by name. *)
Abbreviation World := (gmap string DbFile).

(** A method of the connection run on the file [file_name]. *)
Definition on_file {A} (file_name : string) (m : M DbFile A) : M World A :=
  fun fs =>
    let '(r, d) := m (default fresh_file (fs !! file_name)) in
    (r, <[file_name := d]> fs).

(** A method that writes rows, run on the file [file_name]: the sqlite3
    module begins a transaction before an INSERT, UPDATE or DELETE, and
    nothing here ends it.  The file on disk stays as it is; the tables
    the method leaves are the connection's own, returned here as the
    tables of its open transaction, until [commit].  The first statement
    raises "no such table" while the tables are missing. *)
Definition on_file_uncommitted {A} (file_name : string) (m : M Store A)
  : M World (option Store) :=
  fun fs =>
    match tables (default fresh_file (fs !! file_name)) with
    | None => (Exc OperationalError, fs)
    | Some t =>
        match m t with
        | (Val _, t') => (Val (Some t'), fs)
        | (Exc e, _) => (Exc e, fs)
        end
    end.

(** [Database.commit] on the connection to [file_name]: the tables of the
    open transaction, if there is one, become the tables of the file. *)
Definition Database_commit (file_name : string) (uncommitted : option Store)
  : M World unit :=
  fun fs =>
    match uncommitted with
    | None => (Val tt, fs)
    | Some t =>
        (Val tt,
         <[file_name :=
             {| user_version := user_version (default fresh_file (fs !! file_name));
                tables := Some t |}]> fs)
    end.

(** PRAGMA user_version *)
Definition sql_pragma_user_version : DbFile -> exec DbFile Z :=
  fun d => Done [user_version d] d.

(** PRAGMA user_version = n *)
Definition sql_pragma_set_user_version (n : Z) : DbFile -> exec DbFile unit :=
  fun d => Done [] {| user_version := n; tables := tables d |}.

(** [shutil.copyfile(src, dst)] *)
Definition copyfile (src dst : string) : M World unit :=
  fun fs =>
    match fs !! src with
    | Some d => (Val tt, <[dst := d]> fs)
    | None => (Exc OSError, fs)
    end.

(** [os.path.splitext] of posixpath: the extension starts at the last dot
    of the last path component, leading dots of that component apart. *)
Fixpoint rfind_from (c : ascii) (p : string) (i last : Z) : Z :=
  match p with
  | EmptyString => last
  | String a p' => rfind_from c p' (i + 1) (if Ascii.eqb a c then i else last)
  end.

Definition rfind (c : ascii) (p : string) : Z := rfind_from c p 0 (-1).

Fixpoint str_take (n : nat) (p : string) : string :=
  match n, p with
  | S k, String a p' => String a (str_take k p')
  | _, _ => EmptyString
  end.

Fixpoint str_drop (n : nat) (p : string) : string :=
  match n, p with
  | S k, String _ p' => str_drop k p'
  | _, _ => p
  end.

(** The loop [while filenameIndex < dotIndex]: is there a character other
    than a dot among the [count] characters from [filenameIndex] on? *)
Fixpoint has_non_dot (p : string) (filenameIndex count : nat) : bool :=
  match count with
  | O => false
  | S k =>
      match String.get filenameIndex p with
      | Some a => if Ascii.eqb a "." then has_non_dot p (S filenameIndex) k else true
      | None => true
      end
  end.

Definition splitext (p : string) : string * string :=
  let sepIndex := rfind "/" p in
  let dotIndex := rfind "." p in
  if (sepIndex <? dotIndex)
     && has_non_dot p (Z.to_nat (sepIndex + 1)) (Z.to_nat (dotIndex - (sepIndex + 1)))
  then (str_take (Z.to_nat dotIndex) p, str_drop (Z.to_nat dotIndex) p)
  else (p, EmptyString).

(** [str(n)] for an integer. *)
Definition str (n : Z) : string := NilZero.string_of_int (Z.to_int n).

(** ["{}.backup-schema{}{}".format(base_name, db_version, ext)] *)
Definition backup_file_name (file_name : string) (db_version : Z) : string :=
  let '(base_name, ext) := splitext file_name in
  (base_name ++ ".backup-schema" ++ str db_version ++ ext)%string.

Inductive script := Setup | Migrate_9_11 | Migrate_11_12.

(** Modelled from the spec: sql/setup.sql is not among the sources
    embedded here.  After section 4.1 it initializes the full schema, the tables
    for semesters, courses, folders, files, views and checkouts, on a
    fresh file; a file that has its tables is left as it is. *)
Definition setup_sql : M DbFile unit :=
  fun d =>
    match tables d with
    | None => (Val tt, {| user_version := user_version d; tables := Some empty_store |})
    | Some _ => (Val tt, d)
    end.

Definition schema_version : Z := 12.

Section Open.

(** sql/migrate-9-11.sql and sql/migrate-11-12.sql are not among the
    sources embedded here: whatever they do to a file, or raise. *)
Variable migrate_9_11 : M DbFile unit.
Variable migrate_11_12 : M DbFile unit.

(** [Database.query_script_file] *)
Definition query_script_file (name : script) : M DbFile unit :=
  match name with
  | Setup => setup_sql
  | Migrate_9_11 => migrate_9_11
  | Migrate_11_12 => migrate_11_12
  end.

(** [Database.__init__], with the transaction it leaves open on the
    connection: the PRAGMA and the scripts are written to the file as they
    run ([executescript] commits before it starts), the INSERT of
    [add_view] is not, [__init__] never calling [commit].  The value is
    the tables of the open transaction, [None] when no statement began
    one. *)
Definition Database_open (file_name : string) : M World (option Store) :=
  rows <- on_file file_name (query sql_pragma_user_version NoParams 1) ;;
  db_version <- first_row (match rows with Some r => r | None => [] end) ;;
  if db_version <? schema_version then
    (if (db_version =? 9) || (db_version =? 11) then
       copyfile file_name (backup_file_name file_name db_version) ;;;
       (if db_version <? 11
        then on_file file_name (query_script_file Migrate_9_11) else ret tt) ;;;
       (if db_version <? 12
        then on_file file_name (query_script_file Migrate_11_12) else ret tt)
     else if negb (db_version =? 0) then raise DatabaseVersionError
     else ret tt) ;;;
    on_file file_name
      (query_exec (sql_pragma_set_user_version schema_version) NoParams) ;;;
    (if db_version =? 0 then
       on_file file_name (query_script_file Setup) ;;;
       on_file_uncommitted file_name (add_view (View_default 0 "default"))
     else ret None)
  else if schema_version <? db_version then raise DatabaseVersionError
  else ret None.

(** [Database.__init__] as the files on disk see it: what it raises and
    what it has written, the open transaction left aside. *)
Definition Database_init (file_name : string) : M World unit :=
  Database_open file_name ;;; ret tt.

End Open.

(** ** Reading the tables *)

(** The row the store holds for a file id, a course id: the first in
    table order, the one [rows[0]] picks. *)
Definition stored_file (s : Store) (id : string) : option FileRow :=
  find (fun r => String.eqb (f_id r) id) (files s).

Definition stored_course (s : Store) (id : string) : option CourseRow :=
  find (fun r => String.eqb (c_id r) id) (courses s).

(** Nothing but rows appended to folders. *)
Definition folders_appended (s s' : Store) : Prop :=
  exists ext, s' = set_folders (folders s ++ ext) s.

(** [Database.__init__] after it has read the version of the file. *)
Definition open_after_version (migrate_9_11 migrate_11_12 : M DbFile unit)
    (file_name : string) (db_version : Z) : M World (option Store) :=
  if db_version <? schema_version then
    (if (db_version =? 9) || (db_version =? 11) then
       copyfile file_name (backup_file_name file_name db_version) ;;;
       (if db_version <? 11
        then on_file file_name (query_script_file migrate_9_11 migrate_11_12 Migrate_9_11)
        else ret tt) ;;;
       (if db_version <? 12
        then on_file file_name (query_script_file migrate_9_11 migrate_11_12 Migrate_11_12)
        else ret tt)
     else if negb (db_version =? 0) then raise DatabaseVersionError
     else ret tt) ;;;
    on_file file_name
      (query_exec (sql_pragma_set_user_version schema_version) NoParams) ;;;
    (if db_version =? 0 then
       on_file file_name (query_script_file migrate_9_11 migrate_11_12 Setup) ;;;
       on_file_uncommitted file_name (add_view (View_default 0 "default"))
     else ret None)
  else if schema_version <? db_version then raise DatabaseVersionError
  else ret None.

Definition init_after_version (migrate_9_11 migrate_11_12 : M DbFile unit)
    (file_name : string) (db_version : Z) : M World unit :=
  open_after_version migrate_9_11 migrate_11_12 file_name db_version ;;; ret tt.

(** The file a fresh store has become once [Database.__init__] has run
    and the connection has committed. *)
Definition initial_file (v : ViewRow) : DbFile :=
  {| user_version := 12; tables := Some (set_views [v] empty_store) |}.

(** Does [pat] occur in [s]? *)
Definition occurs_in (pat s : string) : bool :=
  match String.index 0 pat s with
  | Some _ => true
  | None => false
  end.

(** ** Further methods of [Database] *)

Definition set_semesters (l : list SemesterRow) (s : Store) : Store :=
  {| semesters := l; courses := courses s; folders := folders s;
     files := files s; views := views s; checkouts := checkouts s |}.

(** [class Semester]. *)
Record Semester := mkSemester {
  semester_id : string;
  semester_name : string;
  semester_order : Z
}.

(** [Database.query_multiple]: [cursor.executemany] runs the statement
    once per element of [args] and stops at the first that fails; nothing
    here catches the exception. *)
Fixpoint query_multiple {S A R} (sql : A -> S -> exec S R) (args : list A) : M S unit :=
  match args with
  | [] => ret tt
  | a :: rest =>
      fun s =>
        match sql a s with
        | Done _ s' => query_multiple sql rest s'
        | Abort e => (Exc e, s)
        end
  end.

(** INSERT OR REPLACE INTO semesters (id, name, ord) VALUES (:id, :name,
    :order): the rows that hold the id are deleted, then the new row is
    inserted, at a new rowid. *)
Definition sql_replace_semester (sem : Semester) : Store -> exec Store unit :=
  fun s =>
    Done []
      (set_semesters
         (delete_where (fun r => String.eqb (sem_id r) (semester_id sem)) (semesters s)
          ++ [{| sem_id := semester_id sem; sem_name := semester_name sem;
                 sem_ord := semester_order sem |}]) s).

Definition update_semester_list (sems : list Semester) : M Store unit :=
  query_multiple sql_replace_semester sems.

(** [Course.auto_abbrev] and [Course.auto_type_abbrev] (the properties):
    [self._abbrev is None]. *)
Definition Course_auto_abbrev (c : Course) : bool :=
  match course__abbrev c with None => true | Some _ => false end.

Definition Course_auto_type_abbrev (c : Course) : bool :=
  match course__type_abbrev c with None => true | Some _ => false end.

(** SELECT s.name, c.number, c.name, c.abbrev, c.type, c.type_abbrev,
    c.sync FROM courses AS c INNER JOIN semesters AS s ON s.id =
    c.semester WHERE c.id = :id *)
Definition sql_select_course_details (id : string)
  : Store -> exec Store (CourseRow * SemesterRow) :=
  fun s =>
    Done (select_where (fun p => String.eqb (c_id (fst p)) id) (join_semesters s)) s.

(** [Database.get_course_details] *)
Definition get_course_details (id : string) : M Store Course :=
  rows <- query (sql_select_course_details id) Keyword 1 ;;
  row <- first_row (match rows with Some r => r | None => [] end) ;;
  ret {| course_id := id; course_semester := sem_name (snd row);
         course_number := c_number (fst row); course_name := c_name (fst row);
         course_type := c_type (fst row); course_sync := c_sync (fst row);
         course__abbrev := c_abbrev (fst row);
         course__type_abbrev := c_type_abbrev (fst row) |}.

(** What an attribute of a [View] instance holds.  [View.__init__] stores
    what it is given: [get_view_details] passes four positional arguments
    after the id where the constructor takes five. *)
Inductive attribute :=
  | NoneValue
  | StrValue (s : string)
  | EscapeModeValue (e : EscapeMode)
  | CharsetValue (c : Charset).

Record ViewInstance := mkViewInstance {
  vi_id : Z;
  vi_name : string;
  vi_format : string;
  vi_base : attribute;
  vi_escape : attribute;
  vi_charset : attribute
}.

(** The instance whose attributes hold what their names say. *)
Definition View_instance (v : View) : ViewInstance :=
  {| vi_id := view_id v; vi_name := view_name v; vi_format := view_format v;
     vi_base := match view_base v with Some b => StrValue b | None => NoneValue end;
     vi_escape := EscapeModeValue (view_escape v);
     vi_charset := CharsetValue (view_charset v) |}.

Definition View_of_row (r : ViewRow) : View :=
  {| view_id := v_id r; view_name := v_name r; view_format := v_format r;
     view_base := v_base r; view_escape := v_esc_mode r; view_charset := v_charset r |}.

Definition le_view_name (a b : ViewRow) : bool := String.leb (v_name a) (v_name b).

(** SELECT id, name, format, base, esc_mode, charset FROM views ORDER BY
    name, and SELECT id FROM views ORDER BY name *)
Definition sql_select_views : Store -> exec Store ViewRow :=
  fun s => Done (order_by le_view_name (views s)) s.

(** [Database.list_views]: the views on the left, the ids on the right.
    [View(i, n, f, b, EscapeMode(e), Charset(c))] fills the six
    parameters of the constructor in their order. *)
Definition list_views (full : bool) : M Store (list View + list Z) :=
  rows <- query_rows sql_select_views NoParams ;;
  if full then ret (inl (map View_of_row rows)) else ret (inr (map v_id rows)).

(** SELECT name, format, esc_mode, charset FROM views WHERE id = :id *)
Definition sql_select_view_details (id : Z) : Store -> exec Store ViewRow :=
  fun s => Done (select_where (fun r => v_id r =? id) (views s)) s.

(** [Database.get_view_details]: [View(id, n, f, EscapeMode(e),
    Charset(c))] binds the fourth argument to [base] and the fifth to
    [escape]; [charset] keeps its default. *)
Definition get_view_details (id : Z) : M Store ViewInstance :=
  rows <- query (sql_select_view_details id) Keyword 1 ;;
  row <- first_row (match rows with Some r => r | None => [] end) ;;
  ret {| vi_id := id; vi_name := v_name row; vi_format := v_format row;
         vi_base := EscapeModeValue (v_esc_mode row);
         vi_escape := CharsetValue (v_charset row);
         vi_charset := CharsetValue Unicode |}.

(** The row [update_course] leaves for the course [c] in place of [r]. *)
Definition updated_course_row
    (abbreviate_course_name abbreviate_course_type : string -> string)
    (c : Course) (r : CourseRow) : CourseRow :=
  {| c_id := c_id r; c_semester := c_semester r;
     c_number := course_number c; c_name := course_name c;
     c_abbrev := Some (Course_abbrev abbreviate_course_name c);
     c_type := course_type c;
     c_type_abbrev := Some (Course_type_abbrev abbreviate_course_type c);
     c_sync := course_sync c; c_root := c_root r |}.

(** The semesters table after one INSERT OR REPLACE, and after one per
    element of a list. *)
Definition semester_row (sem : Semester) : SemesterRow :=
  {| sem_id := semester_id sem; sem_name := semester_name sem;
     sem_ord := semester_order sem |}.

Definition replace_row (t : list SemesterRow) (sem : Semester) : list SemesterRow :=
  delete_where (fun r => String.eqb (sem_id r) (semester_id sem)) t ++ [semester_row sem].

Definition replaced (l : list Semester) (t : list SemesterRow) : list SemesterRow :=
  fold_left replace_row l t.

(** The id of a row is none of the ids of the list. *)
Definition not_listed (l : list Semester) (r : SemesterRow) : bool :=
  negb (existsb (String.eqb (sem_id r)) (map semester_id l)).

(** The row [update_file] leaves in place of [r], and the row [add_file]
    inserts, for a file whose path leads to the folder [p]. *)
Definition updated_file_row (file : File) (p : Z) (r : FileRow) : FileRow :=
  {| f_id := f_id r; f_folder := p; f_name := file_name file;
     f_extension := file_extension file; f_author := file_author file;
     f_description := file_description file;
     f_remote_date := file_remote_date file;
     f_copyrighted := file_copyrighted file;
     f_local_date := file_local_date file;
     f_version := f_version r + 1 |}.

Definition new_file_row (file : File) (p : Z) : FileRow :=
  {| f_id := file_id file; f_folder := p; f_name := file_name file;
     f_extension := file_extension file; f_author := file_author file;
     f_description := file_description file;
     f_remote_date := file_remote_date file;
     f_copyrighted := file_copyrighted file;
     f_local_date := file_local_date file; f_version := 0 |}.

(** ** Store invariants *)

(** The keys of the schema: no two rows of a table share the key. *)
Definition keys_unique (s : Store) : Prop :=
  List.NoDup (map sem_id (semesters s)) /\
  List.NoDup (map c_id (courses s)) /\
  List.NoDup (map fo_id (folders s)) /\
  List.NoDup (map f_id (files s)) /\
  List.NoDup (map v_id (views s)) /\
  List.NoDup (map v_name (views s)) /\
  List.NoDup (map (fun r => (co_view r, co_file r)) (checkouts s)).

(** Every course's semester is a stored semester. *)
Definition semesters_known (s : Store) : Prop :=
  forall c, In c (courses s) -> In (c_semester c) (map sem_id (semesters s)).

(** The folder [p] lies at [path] below the folder [start]. *)
Fixpoint resolves (l : list FolderRow) (start : Z) (path : list string) (p : Z) : Prop :=
  match path with
  | [] => p = start
  | name :: rest =>
      exists r, In r l /\ fo_parent r = Some start /\ fo_name r = Some name /\
                resolves l (fo_id r) rest p
  end.

(** [n] calls of a method in a row, stopping at the first exception. *)
Fixpoint repeat_method {S} (n : nat) (m : M S unit) : M S unit :=
  match n with
  | O => ret tt
  | S k => m ;;; repeat_method k m
  end.

(** ** studip/application.py *)

(** [Application.parse_command_line] on [sys.argv]: the value returned
    and the attribute [command_line] it leaves, [None] while the
    attribute has not been assigned. *)
Definition parse_command_line (argv : list string)
  : bool * option (gmap string string) :=
  if (length argv <? 2)%nat || (3 <? length argv)%nat then (false, None)
  else
    let op := nth 1 argv "" in
    let accepted (op : string) :=
      let command_line : gmap string string := <["operation" := op]> ∅ in
      (true,
       Some (if (3 <=? length argv)%nat
             then <["sync_dir" := nth 2 argv ""]> command_line
             else command_line)) in
    if String.eqb op "help" || String.eqb op "--help" || String.eqb op "-h"
    then accepted "help"
    else if negb (existsb (String.eqb op) ["update"; "download"; "sync"; "clear-cache"])
    then (false, Some ∅)
    else accepted op.

(** [list.remove(x)]: the list without the first [x]. *)
Fixpoint list_remove (x : string) (l : list string) : list string :=
  match l with
  | [] => []
  | y :: l' => if String.eqb y x then l' else y :: list_remove x l'
  end.

(** [while x in history: history.remove(x)], run for at most [fuel]
    turns. *)
Fixpoint remove_while_in (fuel : nat) (x : string) (history : list string)
  : list string :=
  match fuel with
  | O => history
  | S k =>
      if existsb (String.eqb x) history
      then remove_while_in k x (list_remove x history)
      else history
  end.

(** The history [setup_sync_dir] writes back, with [fuel] turns for its
    loop. *)
Definition new_history (fuel : nat) (sync_dir : string) (history : list string)
  : list string :=
  sync_dir :: remove_while_in fuel sync_dir history.

(** [self.db_file_name] *)
Definition db_file_name (sync_dir : string) : string :=
  ((sync_dir ++ "/.studip") ++ "/cache.sqlite")%string.

(** What leaves [Application.open_database]. *)
Inductive application_error := ApplicationExit | AttributeError.

(** [print_io_error] reads [e.strerror], an attribute of [OSError] and
    its subclasses alone. *)
Definition has_strerror (e : exn) : bool :=
  match e with
  | OSError => true
  | _ => false
  end.

(** [Application.open_database]: [None] when the database is open.  What
    [print_io_error] writes to stderr is left out. *)
Definition open_database (migrate_9_11 migrate_11_12 : M DbFile unit)
    (db_file_name : string) (fs : World) : option application_error * World :=
  match Database_init migrate_9_11 migrate_11_12 db_file_name fs with
  | (Val _, fs') => (None, fs')
  | (Exc e, fs') =>
      if has_strerror e then (Some ApplicationExit, fs')
      else (Some AttributeError, fs')
  end.

(** ** Sequences of calls *)

(** A call of one of the methods of [Database] that write. *)
Inductive operation :=
  | UpdateSemesterList (sems : list Semester)
  | AddCourse (c : Course)
  | UpdateCourse (c : Course)
  | DeleteCourse (c : Course)
  | AddFile (file : File)
  | UpdateFile (file : File)
  | UpdateFileLocalDate (file : File)
  | AddView (view : View)
  | RemoveView (id : Z)
  | AddCheckout (view_id : Z) (file_id : string)
  | ResetCheckouts (view_id : Z).

(** The store a call leaves, whether it returned or raised. *)
Definition run_operation
    (abbreviate_course_name abbreviate_course_type : string -> string)
    (op : operation) (s : Store) : Store :=
  match op with
  | UpdateSemesterList sems => snd (update_semester_list sems s)
  | AddCourse c => snd (add_course c s)
  | UpdateCourse c =>
      snd (update_course abbreviate_course_name abbreviate_course_type c s)
  | DeleteCourse c => snd (delete_course c s)
  | AddFile file => snd (add_file file s)
  | UpdateFile file => snd (update_file file s)
  | UpdateFileLocalDate file => snd (update_file_local_date file s)
  | AddView view => snd (add_view view s)
  | RemoveView id => snd (remove_view id s)
  | AddCheckout view_id file_id => snd (add_checkout view_id file_id s)
  | ResetCheckouts view_id => snd (reset_checkouts view_id s)
  end.

(** The store after the calls of a list, in their order. *)
Definition run_operations
    (abbreviate_course_name abbreviate_course_type : string -> string)
    (ops : list operation) (s : Store) : Store :=
  fold_left
    (fun s op => run_operation abbreviate_course_name abbreviate_course_type op s)
    ops s.

(** The operation [parse_command_line] records for a first argument. *)
Definition recorded_operation (arg : string) : string :=
  if String.eqb arg "help" || String.eqb arg "--help" || String.eqb arg "-h"
  then "help" else arg.

(** ** Sample data *)

Module Samples.

(** A stand-in for the abbreviation functions: the first three
    characters. *)
Definition abbreviate (name : string) : string := String.substring 0 3 name.

(** A stand-in for a migration script that changes nothing. *)
Definition no_migration : M DbFile unit := fun d => (Val tt, d).

Definition analysis : Course :=
  {| course_id := "c1"; course_semester := "WS 15/16"; course_number := "5301";
     course_name := "Analysis"; course_type := "Vorlesung"; course_sync := Full;
     course__abbrev := None; course__type_abbrev := None |}.

Definition sheet1 : File :=
  {| file_id := "f1"; file_course := "c1"; file_course_semester := "WS 15/16";
     file_course_name := "Analysis"; file__course_abbrev := None;
     file_course_type := "Vorlesung"; file__course_type_abbrev := None;
     file_path := ["Exercises"; "Week 1"]; file_name := "sheet1";
     file_extension := ".pdf"; file_author := "Euler"; file_description := "";
     file_description_url := None; file_remote_date := 1446000000;
     file_copyrighted := false; file_local_date := Some 1446500000;
     file_version := None |}.

(** One semester, two courses, the root folder of each, one file in the
    first course, two views, the file checked out in both. *)
Definition store1 : Store :=
  {| semesters := [{| sem_id := "s1"; sem_name := "WS 15/16"; sem_ord := 1 |}];
     courses :=
       [{| c_id := "c1"; c_semester := "s1"; c_number := "5301"; c_name := "Analysis";
           c_abbrev := None; c_type := "Vorlesung"; c_type_abbrev := None;
           c_sync := Full; c_root := Some 1 |};
        {| c_id := "c2"; c_semester := "s1"; c_number := "5302"; c_name := "Algebra";
           c_abbrev := None; c_type := "Seminar"; c_type_abbrev := None;
           c_sync := NoSync; c_root := Some 2 |}];
     folders :=
       [{| fo_id := 1; fo_name := None; fo_parent := None; fo_course := Some "c1" |};
        {| fo_id := 2; fo_name := None; fo_parent := None; fo_course := Some "c2" |}];
     files :=
       [{| f_id := "f1"; f_folder := 1; f_name := "sheet1"; f_extension := ".pdf";
           f_author := "Euler"; f_description := ""; f_remote_date := 1445000000;
           f_copyrighted := false; f_local_date := None; f_version := 4 |}];
     views :=
       [{| v_id := 0; v_name := "default";
           v_format := "{course}/{type}/{short-path}/{name}{ext}"; v_base := None;
           v_esc_mode := Similar; v_charset := Unicode |};
        {| v_id := 1; v_name := "flat"; v_format := "{name}{ext}"; v_base := None;
           v_esc_mode := Similar; v_charset := Unicode |}];
     checkouts :=
       [{| co_view := 0; co_file := "f1" |}; {| co_view := 1; co_file := "f1" |}] |}.

(** A cache directory with one database file written under schema 9. *)
Definition disk9 : World :=
  {[ "cache.sqlite" := {| user_version := 9; tables := Some store1 |} ]}.

(** A cache directory with one database file of a later schema. *)
Definition disk13 : World :=
  {[ "cache.sqlite" := {| user_version := 13; tables := Some store1 |} ]}.

End Samples.

(** ** More sample data *)

Module MoreSamples.

(** A stand-in for a migration script that fails at once. *)
Definition failing_script : M DbFile unit := fun d => (Exc OperationalError, d).

(** A cache directory with one database file written under schema 11. *)
Definition disk11 : World :=
  {[ "cache.sqlite" := {| user_version := 11; tables := Some Samples.store1 |} ]}.

(** [Samples.store1] with no root folder recorded for its courses, as
    [add_course] leaves them. *)
Definition rootless_store : Store :=
  set_courses
    (map (fun c =>
            {| c_id := c_id c; c_semester := c_semester c; c_number := c_number c;
               c_name := c_name c; c_abbrev := c_abbrev c; c_type := c_type c;
               c_type_abbrev := c_type_abbrev c; c_sync := c_sync c; c_root := None |})
       (courses Samples.store1))
    Samples.store1.

(** The file "f1" as the server lists it when it lies in no folder of its
    course. *)
Definition top_sheet : File :=
  {| file_id := "f1"; file_course := "c1"; file_course_semester := "WS 15/16";
     file_course_name := "Analysis"; file__course_abbrev := None;
     file_course_type := "Vorlesung"; file__course_type_abbrev := None;
     file_path := []; file_name := "sheet1";
     file_extension := ".pdf"; file_author := "Euler"; file_description := "";
     file_description_url := None; file_remote_date := 1446000000;
     file_copyrighted := false; file_local_date := Some 1446500000;
     file_version := None |}.

(** The file "f1" given with a course the store does not hold. *)
Definition stray_sheet : File :=
  {| file_id := "f1"; file_course := "c9"; file_course_semester := "WS 15/16";
     file_course_name := "Topology"; file__course_abbrev := None;
     file_course_type := "Vorlesung"; file__course_type_abbrev := None;
     file_path := ["Exercises"; "Week 1"]; file_name := "sheet1";
     file_extension := ".pdf"; file_author := "Euler"; file_description := "";
     file_description_url := None; file_remote_date := 1446000000;
     file_copyrighted := false; file_local_date := Some 1446500000;
     file_version := None |}.

End MoreSamples.

(** * Properties *)

(** ** [query] *)

Lemma length_not_below_minus_one {R} (rows : list R) :
  (Z.of_nat (length rows) <? -1) = false.
Proof. apply Z.ltb_ge. lia. Qed.

Lemma query_exec_done {S R} (sql : S -> exec S R) (s s' : S) rows :
  sql s = Done rows s' -> query_exec sql Keyword s = (Val tt, s').
Proof. intros H. unfold query_exec, bind, query. rewrite H. reflexivity. Qed.

Lemma query_exec_swallows {S R} (sql : S -> exec S R) (s : S) :
  sql s = Abort IntegrityError -> query_exec sql Keyword s = (Val tt, s).
Proof. intros H. unfold query_exec, bind, query. rewrite H. reflexivity. Qed.

Lemma query_rows_done {S R} (sql : S -> exec S R) (s s' : S) rows :
  sql s = Done rows s' -> query_rows sql Keyword s = (Val rows, s').
Proof.
  intros H. unfold query_rows, bind, query. rewrite H. cbn.
  rewrite length_not_below_minus_one. reflexivity.
Qed.

Lemma query_rows_done_noparams {S R} (sql : S -> exec S R) (s s' : S) rows :
  sql s = Done rows s' -> query_rows sql NoParams s = (Val rows, s').
Proof.
  intros H. unfold query_rows, bind, query. rewrite H. cbn.
  rewrite length_not_below_minus_one. reflexivity.
Qed.

(** ** The tables as lists *)

Lemma update_where_none {A} (p : A -> bool) (f : A -> A) (l : list A) :
  (forall r, In r l -> p r = false) -> update_where p f l = l.
Proof.
  induction l as [|a l IH]; intros H; cbn; [reflexivity|].
  rewrite (H a (or_introl eq_refl)). f_equal. apply IH.
  intros r Hr. apply H. now right.
Qed.

Lemma delete_where_none {A} (p : A -> bool) (l : list A) :
  (forall r, In r l -> p r = false) -> delete_where p l = l.
Proof.
  induction l as [|a l IH]; intros H; cbn; [reflexivity|].
  rewrite (H a (or_introl eq_refl)). cbn. f_equal. apply IH.
  intros r Hr. apply H. now right.
Qed.

Lemma update_where_length {A} (p : A -> bool) (f : A -> A) (l : list A) :
  length (update_where p f l) = length l.
Proof. unfold update_where. apply length_map. Qed.

Lemma update_where_nth {A} (p : A -> bool) (f : A -> A) (l : list A) i r :
  nth_error l i = Some r ->
  nth_error (update_where p f l) i = Some (if p r then f r else r).
Proof. intros H. unfold update_where. rewrite nth_error_map, H. reflexivity. Qed.

Lemma set_courses_id (s : Store) : set_courses (courses s) s = s.
Proof. now destruct s. Qed.

Lemma set_folders_id (s : Store) : set_folders (folders s) s = s.
Proof. now destruct s. Qed.

Lemma set_files_id (s : Store) : set_files (files s) s = s.
Proof. now destruct s. Qed.

Lemma set_views_id (s : Store) : set_views (views s) s = s.
Proof. now destruct s. Qed.

Lemma set_checkouts_id (s : Store) : set_checkouts (checkouts s) s = s.
Proof. now destruct s. Qed.

(** ** [update_file_local_date] *)

(** C7.  [update_file_local_date] always returns, and touches nothing but
    the [local_date] of the rows of [files] whose id is the file's: the
    other five tables are the same, [files] has the same rows at the same
    places, each with the same id, folder, name, extension, author,
    description, remote date, copyright flag and version; a row with the
    file's id has the new local date, a row with another id is unchanged.
    No checkout is deleted. *)
Theorem update_file_local_date_frame (s : Store) (file : File) :
  exists s',
    update_file_local_date file s = (Val tt, s') /\
    semesters s' = semesters s /\ courses s' = courses s /\
    folders s' = folders s /\ views s' = views s /\
    checkouts s' = checkouts s /\
    length (files s') = length (files s) /\
    forall i r, nth_error (files s) i = Some r ->
      exists r',
        nth_error (files s') i = Some r' /\
        f_id r' = f_id r /\ f_folder r' = f_folder r /\ f_name r' = f_name r /\
        f_extension r' = f_extension r /\ f_author r' = f_author r /\
        f_description r' = f_description r /\ f_remote_date r' = f_remote_date r /\
        f_copyrighted r' = f_copyrighted r /\ f_version r' = f_version r /\
        (f_id r = file_id file -> f_local_date r' = file_local_date file) /\
        (f_id r <> file_id file -> r' = r).
Proof.
  eexists. split.
  { unfold update_file_local_date. eapply query_exec_done. reflexivity. }
  cbn. repeat split; try reflexivity.
  - apply update_where_length.
  - intros i r Hr. eexists. split.
    { apply update_where_nth. exact Hr. }
    destruct (String.eqb_spec (f_id r) (file_id file)) as [E|E];
      cbn; repeat split; try reflexivity; intros E'; congruence.
Qed.

Lemma update_file_local_date_frame_witness :
  exists s',
    update_file_local_date Samples.sheet1 Samples.store1 = (Val tt, s') /\
    checkouts s' = checkouts Samples.store1 /\
    option_map f_version (stored_file s' "f1") = Some 4 /\
    option_map f_local_date (stored_file s' "f1") = Some (Some 1446500000).
Proof.
  destruct (update_file_local_date_frame Samples.store1 Samples.sheet1)
    as (s' & Hrun & _ & _ & _ & _ & Hco & _ & _).
  exists s'. split; [exact Hrun|]. split; [exact Hco|].
  vm_compute in Hrun. injection Hrun as <-. split; reflexivity.
Defined.

(** ** Integrity errors under keyword arguments *)

Lemma existsb_In {A} (p : A -> bool) (l : list A) (r : A) :
  In r l -> p r = true -> existsb p l = true.
Proof. intros Hr Hp. apply existsb_exists. now exists r. Qed.

Lemma existsb_app_r {A} (p : A -> bool) (l : list A) (r : A) :
  p r = true -> existsb p (l ++ [r]) = true.
Proof.
  intros Hp. rewrite existsb_app. cbn. rewrite Hp. now rewrite orb_true_r.
Qed.

Lemma add_checkout_again (view : Z) (file : string) (s : Store) :
  existsb (fun r => (co_view r =? view) && String.eqb (co_file r) file) (checkouts s) = true ->
  add_checkout view file s = (Val tt, s).
Proof.
  intros H. unfold add_checkout. apply query_exec_swallows.
  unfold sql_insert_checkout. now rewrite H.
Qed.

(** C10.  A statement run with keyword arguments that SQLite refuses with
    an IntegrityError makes [query] return as if nothing had happened, the
    database as it was.  So [add_course] with a course id that is taken,
    [add_view] with a view name that is taken, and the second of two
    [add_checkout] for one pair of view and file all return without an
    exception and leave the store as they found it. *)
Theorem integrity_errors_are_swallowed :
  (forall (S R : Type) (sql : S -> exec S R) (s : S),
      sql s = Abort IntegrityError ->
      query sql Keyword 0 s = (Val None, s)) /\
  (forall (c : Course) (s : Store) (r : CourseRow),
      In r (courses s) -> c_id r = course_id c ->
      add_course c s = (Val tt, s)) /\
  (forall (view : View) (s : Store) (r : ViewRow),
      In r (views s) -> v_name r = view_name view ->
      add_view view s = (Val tt, s)) /\
  (forall (view : Z) (file : string) (s : Store),
      exists s1,
        add_checkout view file s = (Val tt, s1) /\
        add_checkout view file s1 = (Val tt, s1)).
Proof.
  split; [|split; [|split]].
  - intros S R sql s H. unfold query. now rewrite H.
  - intros c s r Hr Hid. unfold add_course. apply query_exec_swallows.
    unfold sql_insert_course.
    destruct (select_where _ (semesters s)); [reflexivity|].
    rewrite (existsb_In _ _ r Hr); [reflexivity|].
    rewrite Hid. apply String.eqb_refl.
  - intros view s r Hr Hname. unfold add_view. apply query_exec_swallows.
    unfold sql_insert_view.
    rewrite (existsb_In _ _ r Hr); [reflexivity|].
    rewrite Hname, String.eqb_refl. apply orb_true_r.
  - intros view file s.
    destruct (existsb (fun r => (co_view r =? view) && String.eqb (co_file r) file)
                (checkouts s)) eqn:E.
    + exists s. split; now apply add_checkout_again.
    + eexists. split.
      * unfold add_checkout. eapply query_exec_done.
        unfold sql_insert_checkout. rewrite E. reflexivity.
      * apply add_checkout_again. cbn. apply existsb_app_r.
        cbn. now rewrite Z.eqb_refl, String.eqb_refl.
Qed.

Lemma integrity_errors_are_swallowed_witness :
  query (sql_insert_course Samples.analysis) Keyword 0 Samples.store1
    = (Val None, Samples.store1) /\
  add_course Samples.analysis Samples.store1 = (Val tt, Samples.store1) /\
  add_view (View_default 7 "default") Samples.store1 = (Val tt, Samples.store1) /\
  add_checkout 1 "f1" Samples.store1 = (Val tt, Samples.store1).
Proof.
  destruct integrity_errors_are_swallowed as (Hq & Hc & Hv & Hco).
  split; [|split; [|split]].
  - apply Hq. reflexivity.
  - eapply Hc; [left; reflexivity | reflexivity].
  - eapply Hv; [left; reflexivity | reflexivity].
  - destruct (Hco 1 "f1" Samples.store1) as (s1 & H1 & _).
    rewrite H1. f_equal. vm_compute in H1. now injection H1.
Defined.

(** ** Folder resolution *)

Lemma query_subdirectory_eq (par : option Z) (name : string) (s : Store) :
  query_subdirectory par name s = (Val (subdirectories par name (folders s)), s).
Proof. unfold query_subdirectory. now apply query_rows_done. Qed.

(** One turn of the loop of [create_parent_for_file]. *)
Lemma walk_path_cons (folder : string) (rest : list string) (par : option Z) (s : Store) :
  walk_path (folder :: rest) par s =
    match subdirectories par folder (folders s) with
    | id :: _ => walk_path rest (Some id) s
    | [] =>
        let s1 := with_new_folder folder par s in
        match subdirectories par folder (folders s1) with
        | id :: _ => walk_path rest (Some id) s1
        | [] => (Exc IndexError, s1)
        end
    end.
Proof.
  cbn [walk_path]. unfold bind at 1. rewrite query_subdirectory_eq.
  destruct (subdirectories par folder (folders s)) as [|id ids] eqn:E.
  - unfold bind at 1. unfold bind at 1.
    rewrite (query_exec_done (sql_insert_folder folder par) s
               (with_new_folder folder par s) []) by reflexivity.
    rewrite query_subdirectory_eq. cbn zeta.
    destruct (subdirectories par folder (folders (with_new_folder folder par s)));
      reflexivity.
  - reflexivity.
Qed.

Lemma subdirectories_app (par : option Z) (name : string) (l ext : list FolderRow) :
  subdirectories par name (l ++ ext)
  = subdirectories par name l ++ subdirectories par name ext.
Proof. unfold subdirectories, select_where. now rewrite List.filter_app, map_app. Qed.

Lemma folders_appended_refl (s : Store) : folders_appended s s.
Proof. exists []. now rewrite app_nil_r, set_folders_id. Qed.

Lemma folders_appended_trans (s1 s2 s3 : Store) :
  folders_appended s1 s2 -> folders_appended s2 s3 -> folders_appended s1 s3.
Proof.
  intros [e1 ->] [e2 ->]. exists (e1 ++ e2). cbn. now rewrite app_assoc.
Qed.

Lemma folders_appended_new (name : string) (par : option Z) (s : Store) :
  folders_appended s (with_new_folder name par s).
Proof. eexists. reflexivity. Qed.

Lemma subdirectories_head (par : option Z) (name : string) (s s2 : Store) id ids :
  subdirectories par name (folders s) = id :: ids ->
  folders_appended s s2 ->
  exists ids', subdirectories par name (folders s2) = id :: ids'.
Proof.
  intros H [ext ->]. cbn [folders set_folders].
  rewrite subdirectories_app, H. eexists. reflexivity.
Qed.

(** A walk that returns has only appended folders, and walks again to the
    same folder, inserting nothing, in every store that has only more
    folders appended. *)
Lemma walk_path_stable (path : list string) :
  forall (par : option Z) (s s' : Store) (p : option Z),
    walk_path path par s = (Val p, s') ->
    folders_appended s s' /\
    forall s2, folders_appended s' s2 -> walk_path path par s2 = (Val p, s2).
Proof.
  induction path as [|folder rest IH]; intros par s s' p H.
  - cbn in H. injection H as <- <-. split; [apply folders_appended_refl|].
    reflexivity.
  - rewrite walk_path_cons in H.
    destruct (subdirectories par folder (folders s)) as [|id ids] eqn:E.
    + cbn zeta in H.
      destruct (subdirectories par folder (folders (with_new_folder folder par s)))
        as [|id ids] eqn:E1; [discriminate|].
      destruct (IH _ _ _ _ H) as [Happ Hagain]. split.
      * eapply folders_appended_trans; [apply folders_appended_new | exact Happ].
      * intros s2 H2. rewrite walk_path_cons.
        destruct (subdirectories_head _ _ _ s2 _ _ E1) as [ids' ->].
        { eapply folders_appended_trans; eassumption. }
        now apply Hagain.
    + destruct (IH _ _ _ _ H) as [Happ Hagain]. split; [exact Happ|].
      intros s2 H2. rewrite walk_path_cons.
      destruct (subdirectories_head _ _ _ s2 _ _ E) as [ids' ->].
      { eapply folders_appended_trans; eassumption. }
      now apply Hagain.
Qed.

(** Below a folder that exists the walk always returns, with a folder. *)
Lemma walk_path_total (path : list string) :
  forall (par : Z) (s : Store),
    exists (p : Z) (s' : Store),
      walk_path path (Some par) s = (Val (Some p), s') /\ folders_appended s s'.
Proof.
  induction path as [|folder rest IH]; intros par s.
  - exists par, s. split; [reflexivity | apply folders_appended_refl].
  - rewrite walk_path_cons.
    destruct (subdirectories (Some par) folder (folders s)) as [|id ids] eqn:E.
    + cbn zeta.
      assert (E1 : exists ids',
                 subdirectories (Some par) folder
                   (folders (with_new_folder folder (Some par) s))
                 = next_rowid (map fo_id (folders s)) :: ids').
      { unfold with_new_folder. cbn [folders set_folders].
        rewrite subdirectories_app, E. cbn.
        rewrite Z.eqb_refl, String.eqb_refl. cbn. eexists. reflexivity. }
      destruct E1 as [ids' ->].
      destruct (IH (next_rowid (map fo_id (folders s)))
                  (with_new_folder folder (Some par) s)) as (p & s' & Hw & Happ).
      exists p, s'. split; [exact Hw|].
      eapply folders_appended_trans; [apply folders_appended_new | exact Happ].
    + destruct (IH id s) as (p & s' & Hw & Happ). now exists p, s'.
Qed.

Lemma select_root_eq (course : string) (s : Store) :
  query_rows (sql_select_root course) Keyword s
  = (Val (map c_root (select_where (fun r => String.eqb (c_id r) course) (courses s))), s).
Proof. now apply query_rows_done. Qed.

Lemma create_parent_for_file_eq (file : File) (s : Store) :
  create_parent_for_file file s =
    match map c_root (select_where (fun r => String.eqb (c_id r) (file_course file))
                        (courses s)) with
    | [] => (Exc IndexError, s)
    | root :: _ => walk_path (file_path file) root s
    end.
Proof.
  unfold create_parent_for_file. unfold bind at 1. rewrite select_root_eq.
  destruct (map c_root _); reflexivity.
Qed.

Lemma find_select_where {A} (p : A -> bool) (l : list A) :
  find p l = hd_error (select_where p l).
Proof.
  induction l as [|a l IH]; cbn; [reflexivity|]. destruct (p a); [reflexivity|exact IH].
Qed.

Lemma select_root_of_stored (s : Store) (course : string) (r : CourseRow) :
  stored_course s course = Some r ->
  exists roots,
    map c_root (select_where (fun r => String.eqb (c_id r) course) (courses s))
    = c_root r :: roots.
Proof.
  unfold stored_course. rewrite find_select_where.
  destruct (select_where _ (courses s)) as [|r0 rows]; cbn; [discriminate|].
  intros [= ->]. eexists. reflexivity.
Qed.

(** With the file's course stored and its root folder set, folder
    resolution returns a folder and has only appended folders. *)
Lemma create_parent_for_file_total (file : File) (s : Store) (r : CourseRow) (root : Z) :
  stored_course s (file_course file) = Some r -> c_root r = Some root ->
  exists (p : Z) (s' : Store),
    create_parent_for_file file s = (Val (Some p), s') /\ folders_appended s s'.
Proof.
  intros Hc Hroot. rewrite create_parent_for_file_eq.
  destruct (select_root_of_stored _ _ _ Hc) as [roots ->]. rewrite Hroot.
  apply walk_path_total.
Qed.

Lemma folders_appended_frame (s s' : Store) :
  folders_appended s s' ->
  semesters s' = semesters s /\ courses s' = courses s /\ files s' = files s /\
  views s' = views s /\ checkouts s' = checkouts s.
Proof. intros [ext ->]. repeat split. Qed.

(** C3.  When [create_parent_for_file] has returned a folder for a file's
    course and path, a second call in the store the first one left
    returns the same folder and leaves that store as it is: no folder row
    is inserted.  The same holds in every later store that differs only
    by folders appended. *)
Theorem create_parent_for_file_idempotent
    (file : File) (s s1 : Store) (p : option Z) :
  create_parent_for_file file s = (Val p, s1) ->
  create_parent_for_file file s1 = (Val p, s1) /\
  forall s2, folders_appended s1 s2 ->
    create_parent_for_file file s2 = (Val p, s2).
Proof.
  intros H.
  assert (Hlater : forall s2, folders_appended s1 s2 ->
                     create_parent_for_file file s2 = (Val p, s2)).
  { rewrite create_parent_for_file_eq in H.
    destruct (map c_root _) as [|root roots] eqn:E; [discriminate|].
    destruct (walk_path_stable _ _ _ _ _ H) as [Happ Hagain].
    intros s2 H2. rewrite create_parent_for_file_eq.
    destruct (folders_appended_frame _ _ (folders_appended_trans _ _ _ Happ H2))
      as (_ & -> & _).
    rewrite E. now apply Hagain. }
  split; [apply Hlater, folders_appended_refl | exact Hlater].
Qed.

Lemma create_parent_for_file_idempotent_witness :
  exists s1,
    create_parent_for_file Samples.sheet1 Samples.store1 = (Val (Some 4), s1) /\
    length (folders s1) = 4%nat /\
    create_parent_for_file Samples.sheet1 s1 = (Val (Some 4), s1).
Proof.
  exists (snd (create_parent_for_file Samples.sheet1 Samples.store1)).
  assert (H : create_parent_for_file Samples.sheet1 Samples.store1
              = (Val (Some 4),
                 snd (create_parent_for_file Samples.sheet1 Samples.store1)))
    by (vm_compute; reflexivity).
  split; [exact H|]. split; [reflexivity|].
  exact (proj1 (create_parent_for_file_idempotent _ _ _ _ H)).
Defined.

(** ** [update_file] *)

Lemma find_update_where {A} (p : A -> bool) (f : A -> A) (l : list A) :
  (forall r, p r = true -> p (f r) = true) ->
  find p (update_where p f l) = option_map f (find p l).
Proof.
  intros Hp. induction l as [|a l IH]; cbn; [reflexivity|].
  destruct (p a) eqn:E.
  - now rewrite (Hp a E).
  - now rewrite E.
Qed.

Lemma In_delete_where {A} (p : A -> bool) (l : list A) (r : A) :
  In r (delete_where p l) <-> In r l /\ p r = false.
Proof.
  unfold delete_where. rewrite List.filter_In, negb_true_iff. reflexivity.
Qed.

(** The store [update_file] leaves once the parent folder [p] is found in
    [s0]. *)
Lemma update_file_run (file : File) (s s0 : Store) (p : Z) :
  create_parent_for_file file s = (Val (Some p), s0) ->
  exists fs',
    update_file file s
    = (Val tt,
       set_checkouts
         (delete_where (fun r => String.eqb (co_file r) (file_id file)) (checkouts s0))
         (set_files fs' s0)) /\
    sql_update_file file (Some p) s0 = Done [] (set_files fs' s0).
Proof.
  intros Hcp. eexists. split; [|reflexivity].
  unfold update_file. unfold bind at 1. rewrite Hcp.
  unfold bind at 1.
  rewrite (query_exec_done (sql_update_file file (Some p)) s0 _ []) by reflexivity.
  eapply query_exec_done. reflexivity.
Qed.

(** A stored file whose version [update_file] does not raise.  The store
    holds "f1" at version 4, checked out in two views.  Given with its
    course, which has no root folder recorded, and with an empty path,
    [update_file] has NULL for the folder: the UPDATE is refused, [query]
    passes over the refusal, the DELETE runs, and [update_file] returns
    with the version still 4 and the checkouts gone.  Given with a course
    the store does not hold, [update_file] raises [IndexError] at
    [rows[0]] and leaves version and checkouts as they were. *)
Lemma update_file_without_a_parent_folder :
  option_map f_version (stored_file MoreSamples.rootless_store "f1") = Some 4 /\
  map co_file (checkouts MoreSamples.rootless_store) = ["f1"; "f1"] /\
  fst (update_file MoreSamples.top_sheet MoreSamples.rootless_store) = Val tt /\
  option_map f_version
    (stored_file (snd (update_file MoreSamples.top_sheet MoreSamples.rootless_store)) "f1")
    = Some 4 /\
  checkouts (snd (update_file MoreSamples.top_sheet MoreSamples.rootless_store)) = [] /\
  option_map f_version (stored_file Samples.store1 "f1") = Some 4 /\
  update_file MoreSamples.stray_sheet Samples.store1 = (Exc IndexError, Samples.store1).
Proof. repeat split; vm_compute; reflexivity. Qed.

(** C1, for a file given with a stored course that has its root folder.
    Take a file the store holds, given to [update_file] with a course
    that is stored and has its root folder.  [update_file] returns; the
    stored version of the file is then exactly one more than before; the
    checkouts left are those of the other files, none has the file's id;
    and [list_checkouts] lists the file for no view. *)
Theorem update_file_bumps_version_and_clears_checkouts
    (file : File) (s : Store) (c : CourseRow) (root : Z) (r : FileRow) :
  stored_course s (file_course file) = Some c -> c_root c = Some root ->
  stored_file s (file_id file) = Some r ->
  exists s' r',
    update_file file s = (Val tt, s') /\
    stored_file s' (file_id file) = Some r' /\
    f_version r' = f_version r + 1 /\
    (forall co, In co (checkouts s') <->
                In co (checkouts s) /\ co_file co <> file_id file) /\
    (forall view, exists ids,
        list_checkouts view s' = (Val ids, s') /\ ~ In (file_id file) ids).
Proof.
  intros Hc Hroot Hr.
  destruct (create_parent_for_file_total file s c root Hc Hroot)
    as (p & s0 & Hcp & Happ).
  destruct (update_file_run file s s0 p Hcp) as (fs' & Hrun & Hupd).
  destruct (folders_appended_frame _ _ Happ) as (_ & _ & Hfiles & _ & Hco).
  cbn in Hupd. injection Hupd as Hfs'.
  eexists. eexists. split; [exact Hrun|]. split; [|split; [|split]].
  - unfold stored_file. cbn [files set_files set_checkouts].
    rewrite <- Hfs', Hfiles. rewrite find_update_where.
    + unfold stored_file in Hr. rewrite Hr. reflexivity.
    + intros r0 E. exact E.
  - reflexivity.
  - intros co. cbn [checkouts set_checkouts]. rewrite In_delete_where, Hco.
    split; intros [Hin E]; (split; [exact Hin|]).
    + now apply String.eqb_neq.
    + now apply String.eqb_neq.
  - intros view. eexists. split.
    { unfold list_checkouts. eapply query_rows_done. reflexivity. }
    cbn [checkouts set_checkouts]. intros Hin.
    apply in_map_iff in Hin. destruct Hin as (co & Hfile & Hin).
    apply List.filter_In in Hin. destruct Hin as [Hin _].
    apply In_delete_where in Hin. destruct Hin as [_ E].
    apply String.eqb_neq in E. contradiction.
Qed.

Lemma update_file_bumps_version_and_clears_checkouts_witness :
  exists s',
    update_file Samples.sheet1 Samples.store1 = (Val tt, s') /\
    option_map f_version (stored_file Samples.store1 "f1") = Some 4 /\
    option_map f_version (stored_file s' "f1") = Some 5 /\
    checkouts s' = [].
Proof.
  destruct (update_file_bumps_version_and_clears_checkouts
              Samples.sheet1 Samples.store1 _ 1 _ eq_refl eq_refl eq_refl)
    as (s' & r' & Hrun & _).
  exists s'. split; [exact Hrun|]. split; [reflexivity|].
  vm_compute in Hrun. injection Hrun as <-. split; reflexivity.
Defined.

(** ** Operations on an id the store does not hold *)

Lemma no_row_with (A : Type) (key : A -> string) (id : string) (l : list A) :
  (forall r, In r l -> key r <> id) ->
  forall r, In r l -> String.eqb (key r) id = false.
Proof. intros H r Hr. apply String.eqb_neq. now apply H. Qed.

(** [update_course] on the empty store, for a course it cannot hold:
    no exception of any kind, the store as it was. *)
Lemma update_course_of_unknown_id_returns :
  courses empty_store = [] /\
  update_course Samples.abbreviate Samples.abbreviate Samples.analysis empty_store
    = (Val tt, empty_store) /\
  ~ exists e,
      fst (update_course Samples.abbreviate Samples.abbreviate Samples.analysis empty_store)
      = Exc e.
Proof.
  split; [reflexivity|]. split; [reflexivity|]. intros [e He]. discriminate He.
Qed.

(** C2, as the code has it.  No operation on an id the store does not hold
    raises: [update_course] returns and leaves the store as it was;
    [update_file], given a course that is stored with its root folder,
    returns, having at most appended folders and deleted the checkouts
    that name the id, the other tables as they were; [delete_course] and
    [remove_view] return and leave the store as it was. *)
Theorem operations_on_unknown_id_return
    (abbreviate_course_name abbreviate_course_type : string -> string) (s : Store) :
  (forall c : Course,
      (forall r, In r (courses s) -> c_id r <> course_id c) ->
      update_course abbreviate_course_name abbreviate_course_type c s = (Val tt, s)) /\
  (forall (file : File) (c : CourseRow) (root : Z),
      (forall r, In r (files s) -> f_id r <> file_id file) ->
      stored_course s (file_course file) = Some c -> c_root c = Some root ->
      exists s' ext,
        update_file file s = (Val tt, s') /\
        semesters s' = semesters s /\ courses s' = courses s /\
        files s' = files s /\ views s' = views s /\
        folders s' = folders s ++ ext /\
        checkouts s'
        = delete_where (fun co => String.eqb (co_file co) (file_id file)) (checkouts s)) /\
  (forall c : Course,
      (forall r, In r (courses s) -> c_id r <> course_id c) ->
      delete_course c s = (Val tt, s)) /\
  (forall id : Z,
      (forall r, In r (views s) -> v_id r <> id) ->
      remove_view id s = (Val tt, s)).
Proof.
  split; [|split; [|split]].
  - intros c H. unfold update_course. erewrite query_exec_done by reflexivity.
    rewrite update_where_none, set_courses_id; [reflexivity|].
    now apply no_row_with.
  - intros file c root Hf Hc Hroot.
    destruct (create_parent_for_file_total file s c root Hc Hroot)
      as (p & s0 & Hcp & [ext ->]).
    destruct (update_file_run file _ _ p Hcp) as (fs' & Hrun & Hupd).
    unfold sql_update_file in Hupd. injection Hupd as Hfs'.
    cbn [files set_folders] in Hfs'.
    rewrite update_where_none in Hfs' by now apply no_row_with.
    exists (set_checkouts
              (delete_where (fun co => String.eqb (co_file co) (file_id file))
                 (checkouts s))
              (set_files fs' (set_folders (folders s ++ ext) s))), ext.
    split; [exact Hrun|]. rewrite <- Hfs'. repeat split.
  - intros c H. unfold delete_course. erewrite query_exec_done by reflexivity.
    rewrite delete_where_none, set_courses_id; [reflexivity|].
    now apply no_row_with.
  - intros id H. unfold remove_view. erewrite query_exec_done by reflexivity.
    rewrite delete_where_none, set_views_id; [reflexivity|].
    intros r Hr. apply Z.eqb_neq. now apply H.
Qed.

Lemma operations_on_unknown_id_return_witness :
  let ghost_course :=
    {| course_id := "c9"; course_semester := "WS 15/16"; course_number := "";
       course_name := "Topology"; course_type := "Seminar"; course_sync := Metadata;
       course__abbrev := None; course__type_abbrev := None |} in
  let ghost_file :=
    {| file_id := "f9"; file_course := "c1"; file_course_semester := "WS 15/16";
       file_course_name := "Analysis"; file__course_abbrev := None;
       file_course_type := "Vorlesung"; file__course_type_abbrev := None;
       file_path := []; file_name := "notes"; file_extension := ".txt";
       file_author := ""; file_description := ""; file_description_url := None;
       file_remote_date := 0; file_copyrighted := false; file_local_date := None;
       file_version := None |} in
  update_course Samples.abbreviate Samples.abbreviate ghost_course Samples.store1
    = (Val tt, Samples.store1) /\
  update_file ghost_file Samples.store1 = (Val tt, Samples.store1) /\
  delete_course ghost_course Samples.store1 = (Val tt, Samples.store1) /\
  remove_view 5 Samples.store1 = (Val tt, Samples.store1).
Proof.
  intros ghost_course ghost_file.
  destruct (operations_on_unknown_id_return Samples.abbreviate Samples.abbreviate
              Samples.store1) as (Hu & Hf & Hd & Hv).
  split; [|split; [|split]].
  - apply Hu. intros r Hr. cbn in Hr.
    destruct Hr as [<-|[<-|[]]]; discriminate.
  - edestruct (Hf ghost_file) with (root := 1) as (s' & ext & Hrun & _).
    + intros r Hr. cbn in Hr. destruct Hr as [<-|[]]. discriminate.
    + reflexivity.
    + reflexivity.
    + rewrite Hrun. f_equal. vm_compute in Hrun. now injection Hrun.
  - apply Hd. intros r Hr. cbn in Hr.
    destruct Hr as [<-|[<-|[]]]; discriminate.
  - apply Hv. intros r Hr. cbn in Hr.
    destruct Hr as [<-|[<-|[]]]; discriminate.
Defined.

(** ** [list_courses] *)

Lemma In_insert_sorted {A} (le : A -> A -> bool) (a x : A) (l : list A) :
  In x (insert_sorted le a l) <-> x = a \/ In x l.
Proof.
  induction l as [|b l IH]; cbn.
  - intuition congruence.
  - destruct (le a b); cbn; [intuition congruence|]. rewrite IH. intuition congruence.
Qed.

Lemma In_order_by {A} (le : A -> A -> bool) (x : A) (l : list A) :
  In x (order_by le l) <-> In x l.
Proof.
  induction l as [|a l IH]; cbn; [reflexivity|].
  rewrite In_insert_sorted, IH. intuition congruence.
Qed.

Lemma list_courses_ids_eq (yes metadata_only no : bool) (s : Store) :
  list_courses false yes metadata_only no s
  = (Val (inr (map c_id
                 (order_by le_name
                    (select_where (sync_in (sync_modes yes metadata_only no))
                       (courses s))))), s).
Proof.
  unfold list_courses. unfold bind.
  erewrite query_rows_done_noparams by reflexivity. reflexivity.
Qed.

Lemma list_courses_full_eq (yes metadata_only no : bool) (s : Store) :
  list_courses true yes metadata_only no s
  = (Val (inl (map Course_of_row
                 (order_by le_name_type
                    (select_where
                       (fun p => sync_in (sync_modes yes metadata_only no) (fst p))
                       (join_semesters s))))), s).
Proof.
  unfold list_courses. unfold bind.
  erewrite query_rows_done_noparams by reflexivity. reflexivity.
Qed.

Lemma sync_in_full_only (r : CourseRow) :
  sync_in (sync_modes true false false) r = true <-> c_sync r = Full.
Proof. unfold sync_in. destruct (c_sync r); cbn; intuition congruence. Qed.

Lemma sync_in_all (r : CourseRow) : sync_in (sync_modes true true true) r = true.
Proof. unfold sync_in. destruct (c_sync r); reflexivity. Qed.

Lemma In_join_semesters (s : Store) (r : CourseRow) (sem : SemesterRow) :
  In (r, sem) (join_semesters s) <->
  In r (courses s) /\ In sem (semesters s) /\ sem_id sem = c_semester r.
Proof.
  unfold join_semesters, select_where. rewrite in_flat_map. split.
  - intros (c & Hc & Hin). apply in_map_iff in Hin.
    destruct Hin as (sem' & [= <- <-] & Hsem).
    apply List.filter_In in Hsem. destruct Hsem as [Hsem E].
    apply String.eqb_eq in E. auto.
  - intros (Hr & Hsem & E). exists r. split; [exact Hr|].
    apply in_map_iff. exists sem. split; [reflexivity|].
    apply List.filter_In. split; [exact Hsem|]. now apply String.eqb_eq.
Qed.

Lemma unique_key {A} (key : A -> string) (l : list A) (a b : A) :
  List.NoDup (map key l) -> In a l -> In b l -> key a = key b -> a = b.
Proof.
  induction l as [|x l IH]; cbn; [contradiction|].
  intros Hnd Ha Hb E. inversion Hnd as [|k ks Hx Hl]; subst.
  destruct Ha as [->|Ha], Hb as [->|Hb].
  - reflexivity.
  - exfalso. apply Hx. rewrite E. now apply in_map.
  - exfalso. apply Hx. rewrite <- E. now apply in_map.
  - now apply IH.
Qed.

(** C6.  [list_courses] never raises and leaves the store alone.
    Selecting only the Full mode, every id returned, and every course
    returned by the full projection, belongs to a stored course whose
    sync mode is Full; course ids being unique, the id of a stored course
    that is NoSync or Metadata is not returned.  Selecting all three
    modes, the id of every stored course is returned, and the full
    projection returns every stored course together with its semester,
    for the courses whose semester is stored. *)
Theorem list_courses_filters_by_sync_mode (s : Store) :
  (exists ids,
      list_courses false true false false s = (Val (inr ids), s) /\
      (forall id, In id ids ->
         exists r, In r (courses s) /\ c_id r = id /\ c_sync r = Full) /\
      (List.NoDup (map c_id (courses s)) ->
       forall r, In r (courses s) -> c_sync r <> Full -> ~ In (c_id r) ids)) /\
  (exists cs,
      list_courses true true false false s = (Val (inl cs), s) /\
      forall c, In c cs ->
        course_sync c = Full /\
        exists r, In r (courses s) /\ c_id r = course_id c /\ c_sync r = Full) /\
  (exists ids,
      list_courses false true true true s = (Val (inr ids), s) /\
      forall r, In r (courses s) -> In (c_id r) ids) /\
  (exists cs,
      list_courses true true true true s = (Val (inl cs), s) /\
      forall r sem,
        In r (courses s) -> In sem (semesters s) -> sem_id sem = c_semester r ->
        In (Course_of_row (r, sem)) cs).
Proof.
  assert (Hids : forall id,
             In id (map c_id (order_by le_name
                      (select_where (sync_in (sync_modes true false false)) (courses s)))) ->
             exists r, In r (courses s) /\ c_id r = id /\ c_sync r = Full).
  { intros id Hin. apply in_map_iff in Hin. destruct Hin as (r & <- & Hin).
    apply In_order_by, List.filter_In in Hin. destruct Hin as [Hin E].
    exists r. split; [exact Hin|]. split; [reflexivity|].
    now apply sync_in_full_only. }
  split; [|split; [|split]].
  - eexists. split; [apply list_courses_ids_eq|]. split; [exact Hids|].
    intros Hnd r Hr Hsync Hin.
    destruct (Hids _ Hin) as (r' & Hr' & Hid & Hfull).
    apply Hsync. now rewrite <- (unique_key c_id _ _ _ Hnd Hr' Hr Hid).
  - eexists. split; [apply list_courses_full_eq|].
    intros c Hin. apply in_map_iff in Hin. destruct Hin as ([r sem] & <- & Hin).
    apply In_order_by, List.filter_In in Hin. destruct Hin as [Hin E].
    apply In_join_semesters in Hin. destruct Hin as (Hr & _).
    apply sync_in_full_only in E. cbn in E. cbn. split; [exact E|].
    exists r. auto.
  - eexists. split; [apply list_courses_ids_eq|].
    intros r Hr. apply in_map, In_order_by, List.filter_In.
    split; [exact Hr | apply sync_in_all].
  - eexists. split; [apply list_courses_full_eq|].
    intros r sem Hr Hsem E. apply in_map, In_order_by, List.filter_In. split.
    + apply In_join_semesters. auto.
    + apply sync_in_all.
Qed.

Lemma list_courses_filters_by_sync_mode_witness :
  list_courses false true false false Samples.store1 = (Val (inr ["c1"]), Samples.store1) /\
  list_courses false true true true Samples.store1
    = (Val (inr ["c2"; "c1"]), Samples.store1) /\
  ~ In "c2" ["c1"] /\
  exists cs, list_courses true true true true Samples.store1 = (Val (inl cs), Samples.store1) /\
             In Samples.analysis cs.
Proof.
  destruct (list_courses_filters_by_sync_mode Samples.store1)
    as ((ids1 & H1 & _ & Hno) & _ & (ids3 & H3 & _) & (cs & H4 & Hall)).
  split; [|split; [|split]].
  - rewrite H1. vm_compute in H1. now injection H1 as <-.
  - rewrite H3. vm_compute in H3. now injection H3 as <-.
  - assert (E : ids1 = ["c1"]) by (vm_compute in H1; now injection H1 as <-).
    rewrite <- E.
    apply (Hno ltac:(repeat constructor; cbn; intuition discriminate)
             (nth 1 (courses Samples.store1) (nth 0 (courses Samples.store1)
                (mkCourseRow "" "" "" "" None "" None NoSync None)))).
    + right. left. reflexivity.
    + discriminate.
  - exists cs. split; [exact H4|].
    apply (Hall (nth 0 (courses Samples.store1)
                   (mkCourseRow "" "" "" "" None "" None NoSync None))
                (nth 0 (semesters Samples.store1) (mkSemesterRow "" "" 0))).
    + left. reflexivity.
    + left. reflexivity.
    + reflexivity.
Defined.

(** ** Opening the database file *)

Lemma str_take_drop (n : nat) (p : string) :
  (str_take n p ++ str_drop n p)%string = p.
Proof.
  revert p. induction n as [|n IH]; intros [|a p]; try reflexivity.
  change (String a (str_take n p ++ str_drop n p)%string = String a p).
  f_equal. apply IH.
Qed.

Lemma splitext_app (p : string) :
  (fst (splitext p) ++ snd (splitext p))%string = p.
Proof.
  unfold splitext. destruct (_ && _); cbn [fst snd].
  - apply str_take_drop.
  - induction p as [|a p IH]; [reflexivity|].
    change (String a (p ++ "")%string = String a p). f_equal. exact IH.
Qed.

Lemma string_length_app (a b : string) :
  String.length (a ++ b)%string = (String.length a + String.length b)%nat.
Proof.
  induction a as [|c a IH]; [reflexivity|].
  change (S (String.length (a ++ b)%string)
          = S (String.length a + String.length b)%nat).
  f_equal. exact IH.
Qed.

Lemma backup_file_name_eq (file_name : string) (db_version : Z) :
  backup_file_name file_name db_version
  = (fst (splitext file_name) ++ ".backup-schema" ++ str db_version
     ++ snd (splitext file_name))%string.
Proof. unfold backup_file_name. now destruct (splitext file_name). Qed.

(** The backup is never the database file itself. *)
Lemma backup_file_name_differs (file_name : string) (db_version : Z) :
  backup_file_name file_name db_version <> file_name.
Proof.
  intros E. apply (f_equal String.length) in E.
  rewrite backup_file_name_eq in E.
  rewrite <- (splitext_app file_name) in E at 3.
  rewrite !string_length_app in E. cbn in E. lia.
Qed.

Lemma on_file_run {A} (file_name : string) (m : M DbFile A) (fs : World)
    (d d' : DbFile) (r : outcome A) :
  default fresh_file (fs !! file_name) = d -> m d = (r, d') ->
  on_file file_name m fs = (r, <[file_name := d']> fs).
Proof. intros Hd Hm. unfold on_file. now rewrite Hd, Hm. Qed.

Lemma on_file_run_inserted {A} (file_name : string) (m : M DbFile A) (fs : World)
    (d d' : DbFile) (r : outcome A) :
  m d = (r, d') ->
  on_file file_name m (<[file_name := d]> fs) = (r, <[file_name := d']> fs).
Proof.
  intros Hm. erewrite on_file_run; [|now rewrite lookup_insert_eq|exact Hm].
  now rewrite insert_insert_eq.
Qed.

Lemma Database_open_eq (m1 m2 : M DbFile unit) (file_name : string) (fs : World) :
  let d := default fresh_file (fs !! file_name) in
  Database_open m1 m2 file_name fs
  = open_after_version m1 m2 file_name (user_version d) (<[file_name := d]> fs).
Proof.
  intros d. unfold Database_open. unfold bind at 1.
  rewrite (on_file_run file_name _ fs d d (Val (Some [user_version d])))
    by reflexivity.
  reflexivity.
Qed.

Lemma Database_open_existing (m1 m2 : M DbFile unit) (file_name : string)
    (fs : World) (d : DbFile) :
  fs !! file_name = Some d ->
  Database_open m1 m2 file_name fs
  = open_after_version m1 m2 file_name (user_version d) fs.
Proof.
  intros H. rewrite Database_open_eq, H. cbn [default from_option].
  now rewrite insert_id.
Qed.

Lemma Database_init_eq (m1 m2 : M DbFile unit) (file_name : string) (fs : World) :
  let d := default fresh_file (fs !! file_name) in
  Database_init m1 m2 file_name fs
  = init_after_version m1 m2 file_name (user_version d) (<[file_name := d]> fs).
Proof.
  intros d. unfold Database_init, init_after_version, bind.
  now rewrite Database_open_eq.
Qed.

Lemma Database_init_existing (m1 m2 : M DbFile unit) (file_name : string)
    (fs : World) (d : DbFile) :
  fs !! file_name = Some d ->
  Database_init m1 m2 file_name fs
  = init_after_version m1 m2 file_name (user_version d) fs.
Proof.
  intros H. rewrite Database_init_eq, H. cbn [default from_option].
  now rewrite insert_id.
Qed.

(** C4.  A file whose [user_version] is greater than 12, or less than 12
    and none of 0, 9 and 11, is refused with [DatabaseVersionError], and
    nothing on disk has changed: neither the file nor any other, and no
    backup has been written. *)
Theorem open_refuses_unknown_versions
    (migrate_9_11 migrate_11_12 : M DbFile unit)
    (file_name : string) (fs : World) (d : DbFile) :
  fs !! file_name = Some d ->
  schema_version < user_version d \/
  (user_version d < schema_version /\ user_version d <> 0 /\
   user_version d <> 9 /\ user_version d <> 11) ->
  Database_init migrate_9_11 migrate_11_12 file_name fs
  = (Exc DatabaseVersionError, fs).
Proof.
  intros Hd Hv. rewrite (Database_init_existing _ _ _ _ _ Hd).
  unfold init_after_version, open_after_version, schema_version in *.
  destruct Hv as [Hgt | (Hlt & H0 & H9 & H11)].
  - destruct (Z.ltb_spec (user_version d) 12); [lia|].
    destruct (Z.ltb_spec 12 (user_version d)); [reflexivity | lia].
  - destruct (Z.ltb_spec (user_version d) 12); [|lia].
    destruct (Z.eqb_spec (user_version d) 9); [lia|].
    destruct (Z.eqb_spec (user_version d) 11); [lia|].
    destruct (Z.eqb_spec (user_version d) 0); [lia|].
    reflexivity.
Qed.

Lemma open_refuses_unknown_versions_witness :
  Database_init Samples.no_migration Samples.no_migration "cache.sqlite" Samples.disk13
  = (Exc DatabaseVersionError, Samples.disk13).
Proof.
  apply (open_refuses_unknown_versions _ _ _ _
           {| user_version := 13; tables := Some Samples.store1 |}).
  - reflexivity.
  - left. reflexivity.
Defined.

Lemma copyfile_existing (src dst : string) (fs : World) (d : DbFile) :
  fs !! src = Some d -> copyfile src dst fs = (Val tt, <[dst := d]> fs).
Proof. intros H. unfold copyfile. now rewrite H. Qed.

(** A file of schema 9 in the cache directory: after [Database.__init__]
    the directory holds the file and one backup, and neither name has
    "-backup-schema9" in it, at its end or anywhere else. *)
Lemma backup_file_name_has_no_hyphen :
  fst (Database_init Samples.no_migration Samples.no_migration "cache.sqlite" Samples.disk9)
    = Val tt /\
  map fst (map_to_list
             (snd (Database_init Samples.no_migration Samples.no_migration
                     "cache.sqlite" Samples.disk9)))
    = ["cache.sqlite"; "cache.backup-schema9.sqlite"] /\
  forallb (fun name => negb (occurs_in "-backup-schema9" name))
    ["cache.sqlite"; "cache.backup-schema9.sqlite"] = true.
Proof. split; [|split]; vm_compute; reflexivity. Qed.

(** C5, as the code has it.  A file of schema 9 is first copied, as it
    is, to a backup whose name is the file's name with ".backup-schema9"
    put in front of its extension; then migrate-9-11.sql runs on the file
    and migrate-11-12.sql on its result; when both return, the file ends
    with what the second script left and a [user_version] of 12. *)
Theorem open_migrates_schema_9
    (migrate_9_11 migrate_11_12 : M DbFile unit)
    (file_name : string) (fs : World) (d d1 d2 : DbFile) :
  fs !! file_name = Some d -> user_version d = 9 ->
  migrate_9_11 d = (Val tt, d1) ->
  migrate_11_12 d1 = (Val tt, d2) ->
  let backup_file :=
    (fst (splitext file_name) ++ ".backup-schema9" ++ snd (splitext file_name))%string in
  backup_file <> file_name /\
  Database_init migrate_9_11 migrate_11_12 file_name fs
  = (Val tt,
     <[file_name := {| user_version := 12; tables := tables d2 |}]>
       (<[backup_file := d]> fs)).
Proof.
  intros Hd Hv H1 H2 backup_file.
  assert (Hname : backup_file_name file_name 9 = backup_file)
    by apply backup_file_name_eq.
  assert (Hne : backup_file <> file_name).
  { rewrite <- Hname. apply backup_file_name_differs. }
  split; [exact Hne|].
  rewrite (Database_init_existing _ _ _ _ _ Hd), Hv.
  unfold init_after_version, open_after_version. cbn [Z.ltb Z.eqb Z.compare Pos.compare Pos.compare_cont
                                   schema_version orb negb Pos.eqb].
  rewrite Hname. unfold bind.
  rewrite (copyfile_existing _ _ _ _ Hd).
  rewrite (on_file_run file_name _ _ d d1 (Val tt));
    [|now rewrite lookup_insert_ne, Hd | exact H1].
  rewrite (on_file_run_inserted file_name _ _ d1 d2 (Val tt)) by exact H2.
  rewrite (on_file_run_inserted file_name _ _ d2
             {| user_version := 12; tables := tables d2 |} (Val tt)) by reflexivity.
  reflexivity.
Qed.

Lemma open_migrates_schema_9_witness :
  Database_init Samples.no_migration Samples.no_migration "cache.sqlite" Samples.disk9
  = (Val tt,
     <["cache.sqlite" := {| user_version := 12; tables := Some Samples.store1 |}]>
       (<["cache.backup-schema9.sqlite" :=
            {| user_version := 9; tables := Some Samples.store1 |}]> Samples.disk9)).
Proof.
  apply (open_migrates_schema_9 Samples.no_migration Samples.no_migration
           "cache.sqlite" Samples.disk9
           {| user_version := 9; tables := Some Samples.store1 |}
           {| user_version := 9; tables := Some Samples.store1 |}
           {| user_version := 9; tables := Some Samples.store1 |});
    reflexivity.
Defined.

(** C8.  Where the name holds no file, or a file without tables and
    version, [Database.__init__] returns; the file then has
    [user_version] 12 and the six tables, and the connection sees them all
    empty but views, which holds one row: the view 0 named "default",
    inserted in a transaction that is still open.  A second
    [Database.__init__] on the same file returns, runs no script, inserts
    nothing and changes nothing on disk, the version still 12: both when
    the first connection went away without [commit], the file holding no
    view, and after its [commit], the file holding the one view.  That no
    setup runs on a file at version 12 shows on one whose tables are
    missing: they are still missing after [__init__]. *)
Theorem open_fresh_store_twice
    (migrate_9_11 migrate_11_12 : M DbFile unit) (file_name : string) (fs : World) :
  default fresh_file (fs !! file_name) = fresh_file ->
  exists (v : ViewRow) (fs1 fs2 : World),
    Database_open migrate_9_11 migrate_11_12 file_name fs
      = (Val (Some (set_views [v] empty_store)), fs1) /\
    v_id v = 0 /\ v_name v = "default" /\
    fs1 = <[file_name := {| user_version := 12; tables := Some empty_store |}]> fs /\
    Database_open migrate_9_11 migrate_11_12 file_name fs1 = (Val None, fs1) /\
    Database_commit file_name (Some (set_views [v] empty_store)) fs1 = (Val tt, fs2) /\
    fs2 = <[file_name := initial_file v]> fs /\
    Database_open migrate_9_11 migrate_11_12 file_name fs2 = (Val None, fs2) /\
    (forall t : option Store,
       Database_open migrate_9_11 migrate_11_12 file_name
         (<[file_name := {| user_version := 12; tables := t |}]> fs)
       = (Val None, <[file_name := {| user_version := 12; tables := t |}]> fs)).
Proof.
  intros Hfresh.
  exists {| v_id := 0; v_name := "default";
            v_format := "{course}/{type}/{short-path}/{name}{ext}";
            v_base := None; v_esc_mode := Similar; v_charset := Unicode |}.
  eexists. eexists.
  assert (Hcurrent : forall t : option Store,
            Database_open migrate_9_11 migrate_11_12 file_name
              (<[file_name := {| user_version := 12; tables := t |}]> fs)
            = (Val None, <[file_name := {| user_version := 12; tables := t |}]> fs)).
  { intros t.
    rewrite (Database_open_existing _ _ _ _ {| user_version := 12; tables := t |})
      by apply lookup_insert_eq.
    reflexivity. }
  split; [|split; [reflexivity|split; [reflexivity|split; [reflexivity|]]]].
  - rewrite Database_open_eq. cbn zeta. rewrite Hfresh.
    unfold open_after_version.
    cbn [user_version fresh_file Z.ltb Z.eqb Z.compare schema_version orb negb].
    unfold bind, ret.
    rewrite (on_file_run_inserted file_name _ _ fresh_file
               {| user_version := 12; tables := None |} (Val tt)) by reflexivity.
    rewrite (on_file_run_inserted file_name _ _ _
               {| user_version := 12; tables := Some empty_store |} (Val tt))
      by reflexivity.
    unfold on_file_uncommitted. rewrite lookup_insert_eq. reflexivity.
  - split; [apply Hcurrent|]. split; [|split; [reflexivity|]].
    + unfold Database_commit. rewrite lookup_insert_eq.
      cbn [default from_option user_version]. now rewrite insert_insert_eq.
    + split; [apply Hcurrent | exact Hcurrent].
Qed.

Lemma open_fresh_store_twice_witness :
  exists (v : ViewRow) (fs1 fs2 : World),
    Database_open Samples.no_migration Samples.no_migration "cache.sqlite" ∅
      = (Val (Some (set_views [v] empty_store)), fs1) /\
    v_id v = 0 /\ v_name v = "default" /\
    fs1 !! "cache.sqlite" = Some {| user_version := 12; tables := Some empty_store |} /\
    Database_open Samples.no_migration Samples.no_migration "cache.sqlite" fs1
      = (Val None, fs1) /\
    fs2 !! "cache.sqlite" = Some (initial_file v) /\
    Database_open Samples.no_migration Samples.no_migration "cache.sqlite" fs2
      = (Val None, fs2).
Proof.
  assert (Hfresh : default fresh_file ((∅ : World) !! "cache.sqlite") = fresh_file)
    by (rewrite lookup_empty; reflexivity).
  destruct (open_fresh_store_twice Samples.no_migration Samples.no_migration
              "cache.sqlite" ∅ Hfresh)
    as (v & fs1 & fs2 & H1 & Hid & Hname & E1 & H2 & _ & E2 & H3 & _).
  exists v, fs1, fs2.
  split; [exact H1|]. split; [exact Hid|]. split; [exact Hname|].
  split; [rewrite E1; apply lookup_insert_eq|]. split; [exact H2|].
  split; [rewrite E2; apply lookup_insert_eq | exact H3].
Defined.

(** ** The abbreviation properties *)

Lemma SyncMode_of_int_of_SyncMode (m : SyncMode) :
  SyncMode_of_int (int_of_SyncMode m) = Some m.
Proof. now destruct m. Qed.

Lemma File_course_abbrev_override
    (abbreviate_course_name : string -> string) (f : File) (a : string) :
  file__course_abbrev f = Some a -> a <> "" ->
  File_course_abbrev abbreviate_course_name f = a.
Proof.
  intros E Ha. unfold File_course_abbrev, if_else. rewrite E. cbn.
  apply String.eqb_neq in Ha. now rewrite Ha.
Qed.

Lemma File_course_abbrev_computed
    (abbreviate_course_name : string -> string) (f : File) :
  truthy (file__course_abbrev f) = false ->
  File_course_abbrev abbreviate_course_name f = abbreviate_course_name (file_name f).
Proof.
  intros H. unfold File_course_abbrev, if_else.
  destruct (file__course_abbrev f); [now rewrite H | reflexivity].
Qed.

Lemma Course_abbrev_computed
    (abbreviate_course_name : string -> string) (c : Course) :
  truthy (course__abbrev c) = false ->
  Course_abbrev abbreviate_course_name c = abbreviate_course_name (course_name c).
Proof.
  intros H. unfold Course_abbrev, if_else.
  destruct (course__abbrev c); [now rewrite H | reflexivity].
Qed.

(** C9.  For the file "sheet1" of the course "Analysis", without an
    override, [File.course_abbrev] is the abbreviation of "sheet1", the
    name of the file, whatever the abbreviation function is; with an
    abbreviation that keeps the first three characters it is "she", not
    the "Ana" of the course's name, which [Course.abbrev] returns for the
    course itself. *)
Theorem File_course_abbrev_reads_the_file_name :
  (forall abbreviate_course_name : string -> string,
      File_course_abbrev abbreviate_course_name Samples.sheet1
      = abbreviate_course_name "sheet1") /\
  File_course_abbrev Samples.abbreviate Samples.sheet1 = "she" /\
  Samples.abbreviate (file_course_name Samples.sheet1) = "Ana" /\
  Course_abbrev Samples.abbreviate Samples.analysis = "Ana".
Proof. repeat split. Qed.

(** * Further properties *)

(** ** [query] and the number of rows *)

Lemma fetchmany_length {R} (n : Z) (rows : list R) :
  0 < n ->
  (Z.of_nat (length (fetchmany n rows)) <? n) = false ->
  Z.of_nat (length (fetchmany n rows)) = n.
Proof.
  intros Hn H. apply Z.ltb_ge in H. unfold fetchmany in *.
  destruct (Z.leb_spec n 0); [lia|]. rewrite length_firstn in *. lia.
Qed.

Lemma fetchmany_short {R} (n : Z) (rows : list R) :
  Z.of_nat (length rows) < n ->
  (Z.of_nat (length (fetchmany n rows)) <? n) = true.
Proof.
  intros H. apply Z.ltb_lt. unfold fetchmany.
  destruct (Z.leb_spec n 0); [lia|]. rewrite length_firstn. lia.
Qed.

(** X1.  With a positive [expected_rows], [query] returns exactly that
    many rows or raises: a statement that yields fewer rows ends in
    [QueryError], with what the statement did left in place; parameters
    given both by position and by keyword end in [ValueError] before the
    statement is run. *)
Theorem query_returns_expected_rows
    (S R : Type) (sql : S -> exec S R) (p : params) (n : Z) (s : S) :
  0 < n ->
  (forall result s',
      query sql p n s = (Val result, s') ->
      exists rows, result = Some rows /\ Z.of_nat (length rows) = n) /\
  (forall rows s',
      p <> PositionalAndKeyword -> sql s = Done rows s' ->
      Z.of_nat (length rows) < n ->
      query sql p n s = (Exc QueryError, s')) /\
  (p = PositionalAndKeyword -> query sql p n s = (Exc ValueError, s)).
Proof.
  intros Hn. assert (E0 : (n =? 0) = false) by (apply Z.eqb_neq; lia).
  split; [|split].
  - intros result s' H. unfold query in H.
    destruct p; [| | |discriminate];
      (destruct (sql s) as [rows s1|e]; [|try destruct e; try discriminate]);
      cbn in H; rewrite E0 in H;
      try (destruct (Z.of_nat (length (fetchmany n _)) <? n) eqn:E;
           [discriminate|]; injection H as <- <-; eexists; split; [reflexivity|];
           now apply fetchmany_length).
  - intros rows s' Hp Hsql Hshort. unfold query. rewrite Hsql.
    destruct p; try contradiction; cbn; rewrite E0, fetchmany_short; auto.
  - intros ->. reflexivity.
Qed.

Lemma query_returns_expected_rows_witness :
  query (sql_select_view_details 0) Keyword 1 Samples.store1
    = (Val (Some (firstn 1 (views Samples.store1))), Samples.store1) /\
  query (sql_select_view_details 9) Keyword 1 Samples.store1
    = (Exc QueryError, Samples.store1).
Proof.
  destruct (query_returns_expected_rows Store ViewRow (sql_select_view_details 9)
              Keyword 1 Samples.store1 eq_refl) as (_ & Hshort & _).
  split; [reflexivity|].
  apply (Hshort []); [discriminate | reflexivity | reflexivity].
Defined.

(** ** Courses: insert, update, delete and read back *)

Lemma head_of_all_equal {A} (x : A) (l : list A) :
  In x l -> (forall y, In y l -> y = x) -> exists rest, l = x :: rest.
Proof.
  destruct l as [|a l]; [contradiction|]. intros _ H.
  rewrite (H a (or_introl eq_refl)). eexists. reflexivity.
Qed.

Lemma query_one_row {S R} (sql : S -> exec S R) (s : S) (rows : list R) :
  sql s = Done rows s ->
  (rows <- query sql Keyword 1 ;;
   first_row (match rows with Some r => r | None => [] end)) s
  = match rows with
    | [] => (Exc QueryError, s)
    | row :: _ => (Val row, s)
    end.
Proof.
  intros H. unfold bind, query. rewrite H. destruct rows as [|row rows]; reflexivity.
Qed.

Lemma get_course_details_eq (id : string) (s : Store) :
  get_course_details id s =
    match select_where (fun p => String.eqb (c_id (fst p)) id) (join_semesters s) with
    | [] => (Exc QueryError, s)
    | row :: _ =>
        (Val {| course_id := id; course_semester := sem_name (snd row);
                course_number := c_number (fst row); course_name := c_name (fst row);
                course_type := c_type (fst row); course_sync := c_sync (fst row);
                course__abbrev := c_abbrev (fst row);
                course__type_abbrev := c_type_abbrev (fst row) |}, s)
    end.
Proof.
  unfold get_course_details, bind, query. cbn.
  destruct (select_where _ (join_semesters s)); reflexivity.
Qed.

(** The one row [get_course_details] can read when the keys are unique. *)
Lemma course_details_row (id : string) (s : Store) (r : CourseRow) (sem : SemesterRow) :
  List.NoDup (map c_id (courses s)) -> List.NoDup (map sem_id (semesters s)) ->
  In r (courses s) -> c_id r = id ->
  In sem (semesters s) -> sem_id sem = c_semester r ->
  exists rest,
    select_where (fun p => String.eqb (c_id (fst p)) id) (join_semesters s)
    = (r, sem) :: rest.
Proof.
  intros Hc Hs Hr Hid Hsem Hjoin. apply head_of_all_equal.
  - apply List.filter_In. split.
    + apply In_join_semesters. auto.
    + cbn. now apply String.eqb_eq.
  - intros [r' sem'] Hin. apply List.filter_In in Hin. destruct Hin as [Hin E].
    apply In_join_semesters in Hin. destruct Hin as (Hr' & Hsem' & Hjoin').
    cbn in E. apply String.eqb_eq in E.
    assert (r' = r) by (apply (unique_key c_id (courses s)); congruence).
    subst r'.
    assert (sem' = sem) by (apply (unique_key sem_id (semesters s)); congruence).
    now subst.
Qed.

Lemma NoDup_map_app_fresh {A B} (key : A -> B) (l : list A) (a : A) :
  List.NoDup (map key l) -> (forall r, In r l -> key r <> key a) ->
  List.NoDup (map key (l ++ [a])).
Proof.
  intros Hnd Hfresh. rewrite map_app. cbn.
  apply List.NoDup_app; [exact Hnd | repeat constructor; intros [] |].
  intros k Hk [<-|[]]. apply in_map_iff in Hk. destruct Hk as (r & E & Hr).
  now apply (Hfresh r Hr).
Qed.

Lemma existsb_none {A} (p : A -> bool) (l : list A) :
  (forall r, In r l -> p r = false) -> existsb p l = false.
Proof.
  intros H. destruct (existsb p l) eqn:E; [|reflexivity].
  apply existsb_exists in E. destruct E as (r & Hr & Hp).
  rewrite (H r Hr) in Hp. discriminate.
Qed.

(** What [add_course] does with a new id and a semester name that is
    stored: the row it appends. *)
Lemma add_course_run (c : Course) (s : Store) (sem : SemesterRow) :
  In sem (semesters s) -> sem_name sem = course_semester c ->
  (forall r, In r (courses s) -> c_id r <> course_id c) ->
  exists sem0,
    In sem0 (semesters s) /\ sem_name sem0 = course_semester c /\
    add_course c s
    = (Val tt,
       set_courses
         (courses s ++
          [{| c_id := course_id c; c_semester := sem_id sem0;
              c_number := course_number c; c_name := course_name c;
              c_abbrev := course__abbrev c; c_type := course_type c;
              c_type_abbrev := course__type_abbrev c;
              c_sync := course_sync c; c_root := None |}]) s).
Proof.
  intros Hsem Hname Hfresh.
  destruct (select_where (fun r => String.eqb (sem_name r) (course_semester c))
              (semesters s)) as [|sem0 sems] eqn:E.
  - exfalso. assert (Hin : In sem (select_where
                 (fun r => String.eqb (sem_name r) (course_semester c)) (semesters s))).
    { apply List.filter_In. split; [exact Hsem|]. now apply String.eqb_eq. }
    rewrite E in Hin. contradiction.
  - assert (Hin : In sem0 (select_where
                 (fun r => String.eqb (sem_name r) (course_semester c)) (semesters s)))
      by (rewrite E; now left).
    apply List.filter_In in Hin. destruct Hin as [Hin0 Hname0].
    apply String.eqb_eq in Hname0.
    exists sem0. split; [exact Hin0|]. split; [exact Hname0|].
    unfold add_course. eapply query_exec_done.
    unfold sql_insert_course. rewrite E.
    rewrite existsb_none; [reflexivity|].
    intros r Hr. apply String.eqb_neq. now apply Hfresh.
Qed.

(** X2.  A course added under a new id, with the name of a stored
    semester, is read back by [get_course_details] exactly as it was
    given: same semester name, number, name, type, sync mode and the same
    abbreviation overrides, absent ones included. *)
Theorem add_course_then_get_course_details
    (c : Course) (s : Store) (sem : SemesterRow) :
  List.NoDup (map c_id (courses s)) -> List.NoDup (map sem_id (semesters s)) ->
  In sem (semesters s) -> sem_name sem = course_semester c ->
  (forall r, In r (courses s) -> c_id r <> course_id c) ->
  exists s',
    add_course c s = (Val tt, s') /\
    get_course_details (course_id c) s' = (Val c, s').
Proof.
  intros Hc Hs Hsem Hname Hfresh.
  destruct (add_course_run c s sem Hsem Hname Hfresh) as (sem0 & Hin0 & Hname0 & Hrun).
  eexists. split; [exact Hrun|].
  rewrite get_course_details_eq.
  edestruct (course_details_row (course_id c)) as [rest ->].
  - cbn [courses set_courses]. apply NoDup_map_app_fresh; [exact Hc|].
    intros r Hr. cbn. now apply Hfresh.
  - exact Hs.
  - cbn [courses set_courses]. apply in_or_app. right. left. reflexivity.
  - reflexivity.
  - exact Hin0.
  - reflexivity.
  - cbn. rewrite Hname0. now destruct c.
Qed.

Lemma add_course_then_get_course_details_witness :
  let topology :=
    {| course_id := "c3"; course_semester := "WS 15/16"; course_number := "5303";
       course_name := "Topology"; course_type := "Seminar"; course_sync := Metadata;
       course__abbrev := Some "Top"; course__type_abbrev := None |} in
  exists s',
    add_course topology Samples.store1 = (Val tt, s') /\
    get_course_details "c3" s' = (Val topology, s').
Proof.
  intros topology.
  apply (add_course_then_get_course_details topology Samples.store1
           (nth 0 (semesters Samples.store1) (mkSemesterRow "" "" 0))).
  - repeat constructor; cbn; intuition discriminate.
  - repeat constructor; cbn; intuition discriminate.
  - left. reflexivity.
  - reflexivity.
  - intros r Hr. cbn in Hr. destruct Hr as [<-|[<-|[]]]; discriminate.
Defined.

(** X3.  [get_course_details] raises [QueryError], and leaves the store
    alone, for an id no course has, and also for a stored course whose
    semester is not in the semesters table: the INNER JOIN has no row for
    it. *)
Theorem get_course_details_without_row (id : string) (s : Store) :
  (forall r sem, In r (courses s) -> c_id r = id ->
                 In sem (semesters s) -> sem_id sem <> c_semester r) ->
  get_course_details id s = (Exc QueryError, s).
Proof.
  intros H. rewrite get_course_details_eq.
  destruct (select_where _ (join_semesters s)) as [|[r sem] rows] eqn:E; [reflexivity|].
  exfalso.
  assert (Hin : In (r, sem)
                  (select_where (fun p => String.eqb (c_id (fst p)) id) (join_semesters s)))
    by (rewrite E; now left).
  apply List.filter_In in Hin. destruct Hin as [Hin Hid].
  apply In_join_semesters in Hin. destruct Hin as (Hr & Hsem & Hjoin).
  cbn in Hid. apply String.eqb_eq in Hid. exact (H r sem Hr Hid Hsem Hjoin).
Qed.

Lemma get_course_details_without_row_witness :
  get_course_details "c9" Samples.store1 = (Exc QueryError, Samples.store1) /\
  get_course_details "c1" (set_semesters [] Samples.store1)
    = (Exc QueryError, set_semesters [] Samples.store1).
Proof.
  split; apply get_course_details_without_row.
  - intros r sem Hr Hid. cbn in Hr. destruct Hr as [<-|[<-|[]]]; discriminate.
  - intros r sem _ _ [].
Defined.

Lemma In_update_where {A} (p : A -> bool) (f : A -> A) (l : list A) (y : A) :
  In y (update_where p f l) <->
  exists r, In r l /\ y = (if p r then f r else r).
Proof.
  unfold update_where. rewrite in_map_iff. split; intros (r & H1 & H2).
  - exists r. split; [exact H2 | now symmetry].
  - exists r. split; [now symmetry | exact H1].
Qed.

Lemma map_update_where {A B} (key : A -> B) (p : A -> bool) (f : A -> A) (l : list A) :
  (forall r, key (f r) = key r) -> map key (update_where p f l) = map key l.
Proof.
  intros H. unfold update_where. rewrite map_map. apply map_ext.
  intros r. destruct (p r); [apply H | reflexivity].
Qed.

(** X4.  After [update_course], [get_course_details] returns the number,
    name, type and sync mode the update gave, but the semester the course
    had before, whatever semester the update named; and both abbreviations
    come back as explicit overrides holding what [Course.abbrev] and
    [Course.type_abbrev] computed, so an automatic abbreviation does not
    survive an update. *)
Theorem update_course_then_get_course_details
    (abbreviate_course_name abbreviate_course_type : string -> string)
    (c : Course) (s : Store) (r : CourseRow) (sem : SemesterRow) :
  List.NoDup (map c_id (courses s)) -> List.NoDup (map sem_id (semesters s)) ->
  In r (courses s) -> c_id r = course_id c ->
  In sem (semesters s) -> sem_id sem = c_semester r ->
  exists s' c',
    update_course abbreviate_course_name abbreviate_course_type c s = (Val tt, s') /\
    get_course_details (course_id c) s' = (Val c', s') /\
    course_semester c' = sem_name sem /\
    course_number c' = course_number c /\ course_name c' = course_name c /\
    course_type c' = course_type c /\ course_sync c' = course_sync c /\
    course__abbrev c' = Some (Course_abbrev abbreviate_course_name c) /\
    course__type_abbrev c' = Some (Course_type_abbrev abbreviate_course_type c) /\
    Course_auto_abbrev c' = false /\ Course_auto_type_abbrev c' = false.
Proof.
  intros Hc Hs Hr Hid Hsem Hjoin.
  pose (r' := updated_course_row abbreviate_course_name abbreviate_course_type c r).
  pose (s' := set_courses
                (update_where (fun r0 => String.eqb (c_id r0) (course_id c))
                   (updated_course_row abbreviate_course_name abbreviate_course_type c)
                   (courses s)) s).
  exists s'. eexists. split.
  { unfold update_course. eapply query_exec_done. reflexivity. }
  rewrite get_course_details_eq.
  destruct (course_details_row (course_id c) s' r' sem) as [rest ->].
  - subst s'. cbn [courses set_courses].
    rewrite map_update_where; [exact Hc | reflexivity].
  - exact Hs.
  - subst s'. cbn [courses set_courses]. apply In_update_where.
    exists r. split; [exact Hr|]. rewrite Hid, String.eqb_refl. reflexivity.
  - exact Hid.
  - exact Hsem.
  - exact Hjoin.
  - cbn. repeat split.
Qed.

Lemma update_course_then_get_course_details_witness :
  let renamed :=
    {| course_id := "c1"; course_semester := "SS 16"; course_number := "5301";
       course_name := "Analysis I"; course_type := "Vorlesung"; course_sync := Metadata;
       course__abbrev := None; course__type_abbrev := None |} in
  exists s' c',
    update_course Samples.abbreviate Samples.abbreviate renamed Samples.store1
      = (Val tt, s') /\
    get_course_details "c1" s' = (Val c', s') /\
    course_semester c' = "WS 15/16" /\ course_name c' = "Analysis I" /\
    course__abbrev c' = Some "Ana" /\ Course_auto_abbrev renamed = true /\
    Course_auto_abbrev c' = false.
Proof.
  intros renamed.
  destruct (update_course_then_get_course_details Samples.abbreviate Samples.abbreviate
              renamed Samples.store1
              (nth 0 (courses Samples.store1)
                 (mkCourseRow "" "" "" "" None "" None NoSync None))
              (nth 0 (semesters Samples.store1) (mkSemesterRow "" "" 0)))
    as (s' & c' & H1 & H2 & H3 & _ & H4 & _ & _ & H5 & _ & H6 & _).
  - repeat constructor; cbn; intuition discriminate.
  - repeat constructor; cbn; intuition discriminate.
  - left. reflexivity.
  - reflexivity.
  - left. reflexivity.
  - reflexivity.
  - exists s', c'. repeat split; assumption.
Defined.

(** X5.  [delete_course] removes the rows of the course's id and no
    other course: afterwards [get_course_details] of the id raises
    [QueryError], the id is no longer among the ids [list_courses]
    returns for all sync modes, and the id of every other stored course
    still is. *)
Theorem delete_course_then_read (c : Course) (s : Store) :
  exists s' ids,
    delete_course c s = (Val tt, s') /\
    get_course_details (course_id c) s' = (Exc QueryError, s') /\
    list_courses false true true true s' = (Val (inr ids), s') /\
    ~ In (course_id c) ids /\
    forall r, In r (courses s) -> c_id r <> course_id c -> In (c_id r) ids.
Proof.
  eexists. eexists. split.
  { unfold delete_course. eapply query_exec_done. reflexivity. }
  assert (Hgone : forall r,
             In r (delete_where (fun r => String.eqb (c_id r) (course_id c)) (courses s)) ->
             c_id r <> course_id c).
  { intros r Hr. apply In_delete_where in Hr. now apply String.eqb_neq. }
  split; [|split; [apply list_courses_ids_eq|split]].
  - apply get_course_details_without_row. intros r sem Hr Hid. cbn in Hr.
    now apply Hgone in Hr.
  - intros Hin. apply in_map_iff in Hin. destruct Hin as (r & Hid & Hin).
    apply In_order_by, List.filter_In in Hin. destruct Hin as [Hin _].
    cbn in Hin. now apply Hgone in Hin.
  - intros r Hr Hid. apply in_map, In_order_by, List.filter_In.
    split; [|apply sync_in_all]. cbn. apply In_delete_where.
    split; [exact Hr|]. now apply String.eqb_neq.
Qed.

(** ** Semesters *)

Lemma set_semesters_id (s : Store) : set_semesters (semesters s) s = s.
Proof. now destruct s. Qed.

Lemma update_semester_list_eq (l : list Semester) (s : Store) :
  update_semester_list l s = (Val tt, set_semesters (replaced l (semesters s)) s).
Proof.
  unfold update_semester_list. revert s.
  induction l as [|a l IH]; intros s.
  - cbn. now rewrite set_semesters_id.
  - cbn [query_multiple]. cbn [sql_replace_semester]. rewrite IH. reflexivity.
Qed.

Lemma filter_all {A} (p : A -> bool) (l : list A) :
  (forall r, In r l -> p r = true) -> List.filter p l = l.
Proof.
  induction l as [|a l IH]; intros H; cbn; [reflexivity|].
  rewrite (H a (or_introl eq_refl)). f_equal. apply IH. intros r Hr. apply H. now right.
Qed.

Lemma filter_nothing {A} (p : A -> bool) (l : list A) :
  (forall r, In r l -> p r = false) -> List.filter p l = [].
Proof.
  induction l as [|a l IH]; intros H; cbn; [reflexivity|].
  rewrite (H a (or_introl eq_refl)). apply IH. intros r Hr. apply H. now right.
Qed.

Lemma filter_filter {A} (p q : A -> bool) (l : list A) :
  List.filter p (List.filter q l) = List.filter (fun r => q r && p r) l.
Proof.
  induction l as [|a l IH]; cbn; [reflexivity|].
  destruct (q a); cbn; [destruct (p a); now rewrite IH | exact IH].
Qed.

(** The table after the list: the rows of the other ids, in their order,
    then what the list leaves on an empty table. *)
Lemma replaced_split (l : list Semester) :
  forall t, replaced l t = List.filter (not_listed l) t ++ replaced l [].
Proof.
  induction l as [|a l IH]; intros t.
  - cbn. rewrite app_nil_r. symmetry. now apply filter_all.
  - cbn [replaced fold_left]. fold (replaced l (replace_row t a)).
    fold (replaced l (replace_row [] a)).
    rewrite (IH (replace_row t a)), (IH (replace_row [] a)).
    unfold replace_row at 1. rewrite List.filter_app, <- app_assoc. f_equal.
    unfold delete_where. rewrite filter_filter. apply List.filter_ext.
    intros r. unfold not_listed. cbn. now rewrite negb_orb.
Qed.

Lemma In_replaced (l : list Semester) :
  forall t r, In r (replaced l t) -> In r t \/ In (sem_id r) (map semester_id l).
Proof.
  induction l as [|a l IH]; intros t r H; [now left|].
  cbn [replaced fold_left] in H. fold (replaced l (replace_row t a)) in H.
  apply IH in H. destruct H as [H|H]; [|right; now right].
  unfold replace_row in H. apply in_app_or in H. destruct H as [H|[<-|[]]].
  - apply In_delete_where in H. left. tauto.
  - right. left. reflexivity.
Qed.

Lemma not_listed_false (l : list Semester) (r : SemesterRow) :
  In (sem_id r) (map semester_id l) -> not_listed l r = false.
Proof.
  intros H. unfold not_listed. apply negb_false_iff, existsb_exists.
  exists (sem_id r). split; [exact H | apply String.eqb_refl].
Qed.

Lemma not_listed_true (l : list Semester) (r : SemesterRow) :
  ~ In (sem_id r) (map semester_id l) -> not_listed l r = true.
Proof.
  intros H. unfold not_listed. apply negb_true_iff, existsb_none.
  intros id Hid. apply String.eqb_neq. intros E. apply H. now rewrite E.
Qed.

Lemma replaced_idempotent (l : list Semester) (t : list SemesterRow) :
  replaced l (replaced l t) = replaced l t.
Proof.
  rewrite (replaced_split l (replaced l t)). rewrite (replaced_split l t) at 1.
  rewrite List.filter_app, filter_filter.
  rewrite (filter_nothing _ (replaced l [])).
  - rewrite app_nil_r, (replaced_split l t). f_equal.
    apply List.filter_ext. intros r. now destruct (not_listed l r).
  - intros r Hr. apply In_replaced in Hr. destruct Hr as [[]|Hr].
    now apply not_listed_false.
Qed.

Lemma NoDup_map_filter {A B} (key : A -> B) (p : A -> bool) (l : list A) :
  List.NoDup (map key l) -> List.NoDup (map key (List.filter p l)).
Proof.
  induction l as [|a l IH]; cbn; intros H; [constructor|].
  inversion H as [|k ks Hk Hl]; subst. destruct (p a); cbn; [|now apply IH].
  constructor; [|now apply IH]. intros Hin. apply Hk.
  apply in_map_iff in Hin. destruct Hin as (r & E & Hr).
  apply List.filter_In in Hr. rewrite <- E. apply in_map. tauto.
Qed.

Lemma replace_row_NoDup (t : list SemesterRow) (a : Semester) :
  List.NoDup (map sem_id t) -> List.NoDup (map sem_id (replace_row t a)).
Proof.
  intros H. unfold replace_row. apply NoDup_map_app_fresh.
  - now apply NoDup_map_filter.
  - intros r Hr. apply In_delete_where in Hr. cbn. apply String.eqb_neq. tauto.
Qed.

Lemma replaced_NoDup (l : list Semester) :
  forall t, List.NoDup (map sem_id t) -> List.NoDup (map sem_id (replaced l t)).
Proof.
  induction l as [|a l IH]; intros t H; [exact H|].
  cbn [replaced fold_left]. apply IH. now apply replace_row_NoDup.
Qed.

Lemma replace_row_keeps_ids (t : list SemesterRow) (a : Semester) (id : string) :
  In id (map sem_id t) -> In id (map sem_id (replace_row t a)).
Proof.
  intros H. apply in_map_iff in H. destruct H as (r & <- & Hr).
  unfold replace_row. rewrite map_app. apply in_or_app.
  destruct (String.eqb_spec (sem_id r) (semester_id a)) as [E|E].
  - right. left. now rewrite E.
  - left. apply in_map. apply In_delete_where. split; [exact Hr|].
    now apply String.eqb_neq.
Qed.

Lemma replaced_keeps_ids (l : list Semester) :
  forall t id, In id (map sem_id t) -> In id (map sem_id (replaced l t)).
Proof.
  induction l as [|a l IH]; intros t id H; [exact H|].
  cbn [replaced fold_left]. apply IH. now apply replace_row_keeps_ids.
Qed.

Lemma replaced_keeps_unlisted (l : list Semester) (t : list SemesterRow) (r : SemesterRow) :
  In r t -> ~ In (sem_id r) (map semester_id l) -> In r (replaced l t).
Proof.
  intros Hr Hid. rewrite replaced_split. apply in_or_app. left.
  apply List.filter_In. split; [exact Hr | now apply not_listed_true].
Qed.

Lemma replaced_holds_listed (l : list Semester) :
  List.NoDup (map semester_id l) ->
  forall t sem, In sem l -> In (semester_row sem) (replaced l t).
Proof.
  induction l as [|a l IH]; intros Hnd t sem Hin; [contradiction|].
  cbn in Hnd. inversion Hnd as [|k ks Hk Hl]; subst.
  cbn [replaced fold_left]. fold (replaced l (replace_row t a)).
  destruct Hin as [->|Hin].
  - apply replaced_keeps_unlisted; [|exact Hk].
    unfold replace_row. apply in_or_app. right. now left.
  - now apply IH.
Qed.

(** X6.  [update_semester_list] never raises and touches only the
    semesters table, and a second call with the same list changes
    nothing more.  No semester id is ever lost, so a course keeps its
    semester; ids that were unique stay unique; a row whose id is not in
    the list stays as it is; and when the list names each id once, every
    semester of the list is afterwards stored as given. *)
Theorem update_semester_list_upserts (l : list Semester) (s : Store) :
  exists s',
    update_semester_list l s = (Val tt, s') /\
    update_semester_list l s' = (Val tt, s') /\
    s' = set_semesters (semesters s') s /\
    (forall id, In id (map sem_id (semesters s)) -> In id (map sem_id (semesters s'))) /\
    (List.NoDup (map sem_id (semesters s)) -> List.NoDup (map sem_id (semesters s'))) /\
    (forall r, In r (semesters s) -> ~ In (sem_id r) (map semester_id l) ->
               In r (semesters s')) /\
    (List.NoDup (map semester_id l) ->
     forall sem, In sem l -> In (semester_row sem) (semesters s')).
Proof.
  exists (set_semesters (replaced l (semesters s)) s).
  split; [apply update_semester_list_eq|]. split.
  { rewrite update_semester_list_eq. cbn [semesters set_semesters].
    now rewrite replaced_idempotent. }
  cbn [semesters set_semesters]. split; [reflexivity|]. split; [|split; [|split]].
  - intros id. apply replaced_keeps_ids.
  - apply replaced_NoDup.
  - intros r. apply replaced_keeps_unlisted.
  - intros Hnd sem. now apply replaced_holds_listed.
Qed.

(** ** What every call keeps *)

Lemma fold_left_max_ge (xs : list Z) :
  forall x, x <= fold_left Z.max xs x /\ forall y, In y xs -> y <= fold_left Z.max xs x.
Proof.
  induction xs as [|a xs IH]; intros x; cbn.
  - split; [lia | contradiction].
  - destruct (IH (Z.max x a)) as [H1 H2]. split; [lia|].
    intros y [<-|Hy]; [lia | now apply H2].
Qed.

(** The rowid of a new row is above every rowid in use. *)
Lemma next_rowid_fresh (ids : list Z) (id : Z) : In id ids -> id < next_rowid ids.
Proof.
  destruct ids as [|x xs]; [contradiction|]. cbn [next_rowid].
  destruct (fold_left_max_ge xs x) as [H1 H2].
  intros [<-|H]; [lia | specialize (H2 _ H); lia].
Qed.

Lemma with_new_folder_NoDup (name : string) (par : option Z) (s : Store) :
  List.NoDup (map fo_id (folders s)) ->
  List.NoDup (map fo_id (folders (with_new_folder name par s))).
Proof.
  intros H. unfold with_new_folder. cbn [folders set_folders].
  apply NoDup_map_app_fresh; [exact H|]. intros r Hr. cbn.
  apply (in_map fo_id) in Hr. apply next_rowid_fresh in Hr. lia.
Qed.

(** However the walk ends, it has only appended folders, each under a
    new id. *)
Lemma walk_path_leaves (path : list string) :
  forall (par : option Z) (s : Store),
    folders_appended s (snd (walk_path path par s)) /\
    (List.NoDup (map fo_id (folders s)) ->
     List.NoDup (map fo_id (folders (snd (walk_path path par s))))).
Proof.
  induction path as [|folder rest IH]; intros par s.
  - cbn. split; [apply folders_appended_refl | auto].
  - rewrite walk_path_cons.
    destruct (subdirectories par folder (folders s)) as [|id ids]; [|apply IH].
    cbn zeta.
    destruct (subdirectories par folder (folders (with_new_folder folder par s)))
      as [|id ids].
    + cbn [snd]. split; [apply folders_appended_new|].
      apply with_new_folder_NoDup.
    + destruct (IH (Some id) (with_new_folder folder par s)) as [H1 H2]. split.
      * eapply folders_appended_trans; [apply folders_appended_new | exact H1].
      * intros H. apply H2. now apply with_new_folder_NoDup.
Qed.

Lemma create_parent_for_file_leaves (file : File) (s : Store) :
  folders_appended s (snd (create_parent_for_file file s)) /\
  (List.NoDup (map fo_id (folders s)) ->
   List.NoDup (map fo_id (folders (snd (create_parent_for_file file s))))).
Proof.
  rewrite create_parent_for_file_eq.
  destruct (map c_root _) as [|root roots].
  - cbn. split; [apply folders_appended_refl | auto].
  - apply walk_path_leaves.
Qed.

(** The store a keyword statement leaves behind [query_exec]. *)
Lemma query_exec_leaves {R} (sql : Store -> exec Store R) (s : Store) :
  snd (query_exec sql Keyword s)
  = match sql s with
    | Done _ s' => s'
    | Abort _ => s
    end.
Proof.
  unfold query_exec, bind, query.
  destruct (sql s) as [rows s'|e]; [reflexivity|]. now destruct e.
Qed.

Lemma update_file_eq (file : File) (s : Store) :
  update_file file s =
    match create_parent_for_file file s with
    | (Val par, s0) =>
        match query_exec (sql_update_file file par) Keyword s0 with
        | (Val _, s1) =>
            query_exec (sql_delete_checkouts_of_file (file_id file)) Keyword s1
        | (Exc e, s1) => (Exc e, s1)
        end
    | (Exc e, s0) => (Exc e, s0)
    end.
Proof. reflexivity. Qed.

Lemma add_file_eq (file : File) (s : Store) :
  add_file file s =
    match create_parent_for_file file s with
    | (Val par, s0) => query_exec (sql_insert_file file par) Keyword s0
    | (Exc e, s0) => (Exc e, s0)
    end.
Proof. reflexivity. Qed.

(** The store [add_file] and [update_file] leave, whatever happened. *)
Lemma add_file_leaves (file : File) (s : Store) :
  let s0 := snd (create_parent_for_file file s) in
  snd (add_file file s) = s0 \/
  ((forall r, In r (files s0) -> f_id r <> file_id file) /\
   exists row, f_id row = file_id file /\ f_version row = 0 /\
               snd (add_file file s) = set_files (files s0 ++ [row]) s0).
Proof.
  cbn zeta. rewrite add_file_eq.
  destruct (create_parent_for_file file s) as [[par|e] s0]; [|now left].
  cbn [snd]. rewrite query_exec_leaves. unfold sql_insert_file.
  destruct par as [p|]; [|now left].
  destruct (existsb _ (files s0)) eqn:E; [now left|]. right. split.
  - intros r Hr Hid. apply not_true_iff_false in E. apply E.
    apply existsb_exists. exists r. split; [exact Hr|]. now apply String.eqb_eq.
  - eexists. split; [|split]; [| |reflexivity]; reflexivity.
Qed.

Lemma update_file_leaves (file : File) (s : Store) :
  let s0 := snd (create_parent_for_file file s) in
  snd (update_file file s) = s0 \/
  exists fs',
    map f_id fs' = map f_id (files s0) /\
    snd (update_file file s)
    = set_checkouts
        (delete_where (fun r => String.eqb (co_file r) (file_id file)) (checkouts s0))
        (set_files fs' s0).
Proof.
  cbn zeta. rewrite update_file_eq.
  destruct (create_parent_for_file file s) as [[par|e] s0]; [|now left].
  cbn [snd]. right.
  assert (Hupd : exists fs',
             map f_id fs' = map f_id (files s0) /\
             query_exec (sql_update_file file par) Keyword s0
             = (Val tt, set_files fs' s0)).
  { destruct par as [p|].
    - eexists. split; [|eapply query_exec_done; reflexivity].
      apply map_update_where. reflexivity.
    - exists (files s0). split; [reflexivity|]. rewrite set_files_id.
      destruct (existsb (fun r => String.eqb (f_id r) (file_id file)) (files s0)) eqn:E.
      + apply query_exec_swallows. unfold sql_update_file. now rewrite E.
      + eapply query_exec_done. unfold sql_update_file. now rewrite E. }
  destruct Hupd as (fs' & Hids & Hrun). exists fs'. split; [exact Hids|].
  rewrite Hrun. rewrite query_exec_leaves. reflexivity.
Qed.

Lemma keys_unique_folders_appended (s s' : Store) :
  folders_appended s s' ->
  (List.NoDup (map fo_id (folders s)) -> List.NoDup (map fo_id (folders s'))) ->
  keys_unique s -> keys_unique s'.
Proof.
  intros [ext ->] Hfo (H1 & H2 & H3 & H4 & H5 & H6 & H7).
  unfold keys_unique. cbn [semesters courses files views checkouts set_folders].
  repeat split; try assumption. now apply Hfo.
Qed.

Lemma semesters_known_folders_appended (s s' : Store) :
  folders_appended s s' -> semesters_known s -> semesters_known s'.
Proof. intros [ext ->] H. exact H. Qed.

Lemma existsb_false_In {A} (p : A -> bool) (l : list A) (r : A) :
  existsb p l = false -> In r l -> p r = false.
Proof.
  intros E Hr. destruct (p r) eqn:Hp; [|reflexivity].
  rewrite (existsb_In p l r Hr Hp) in E. discriminate.
Qed.

(** X7.  Every writing method of [Database], whether it returns or
    raises, keeps the keys of the schema unique (the ids of semesters,
    courses, folders, files and views, the names of views, the pairs of
    checkouts) and keeps every course on a stored semester. *)
Theorem store_invariants_kept
    (abbreviate_course_name abbreviate_course_type : string -> string)
    (op : operation) (s : Store) :
  keys_unique s -> semesters_known s ->
  keys_unique (run_operation abbreviate_course_name abbreviate_course_type op s) /\
  semesters_known (run_operation abbreviate_course_name abbreviate_course_type op s).
Proof.
  intros Hk Hs. destruct op; cbn [run_operation].
  - rewrite update_semester_list_eq. cbn [snd].
    destruct Hk as (H1 & H2 & H3 & H4 & H5 & H6 & H7). split.
    + unfold keys_unique. cbn. repeat split; try assumption. now apply replaced_NoDup.
    + intros r Hr. cbn in *. apply replaced_keeps_ids. now apply Hs.
  - unfold add_course. rewrite query_exec_leaves. unfold sql_insert_course.
    destruct (select_where _ (semesters s)) as [|sem sems] eqn:E; [now split|].
    destruct (existsb _ (courses s)) eqn:Ex; [now split|].
    assert (Hsem : In sem (semesters s)).
    { assert (Hin : In sem (sem :: sems)) by now left.
      rewrite <- E in Hin. now apply List.filter_In in Hin. }
    destruct Hk as (H1 & H2 & H3 & H4 & H5 & H6 & H7). split.
    + unfold keys_unique. cbn. repeat split; try assumption.
      apply NoDup_map_app_fresh; [exact H2|]. intros r Hr. cbn.
      apply String.eqb_neq. exact (existsb_false_In _ _ r Ex Hr).
    + intros r Hr. cbn in Hr |- *. apply in_app_or in Hr.
      destruct Hr as [Hr|[<-|[]]]; [now apply Hs|]. cbn. now apply in_map.
  - unfold update_course. rewrite query_exec_leaves. cbn.
    destruct Hk as (H1 & H2 & H3 & H4 & H5 & H6 & H7). split.
    + unfold keys_unique. cbn. repeat split; try assumption.
      rewrite map_update_where; [exact H2 | reflexivity].
    + intros r Hr. cbn in Hr |- *. apply In_update_where in Hr.
      destruct Hr as (r0 & Hr0 & ->). specialize (Hs r0 Hr0).
      now destruct (String.eqb (c_id r0) (course_id c)).
  - unfold delete_course. rewrite query_exec_leaves. cbn.
    destruct Hk as (H1 & H2 & H3 & H4 & H5 & H6 & H7). split.
    + unfold keys_unique. cbn. repeat split; try assumption.
      now apply NoDup_map_filter.
    + intros r Hr. cbn in Hr |- *. apply In_delete_where in Hr. apply Hs. tauto.
  - destruct (create_parent_for_file_leaves file s) as [Happ Hfo].
    assert (Hk0 := keys_unique_folders_appended _ _ Happ Hfo Hk).
    assert (Hs0 := semesters_known_folders_appended _ _ Happ Hs).
    destruct (add_file_leaves file s) as [->|(Hfresh & row & Hid & _ & ->)];
      [now split|].
    destruct Hk0 as (H1 & H2 & H3 & H4 & H5 & H6 & H7). split; [|exact Hs0].
    unfold keys_unique. cbn. repeat split; try assumption.
    apply NoDup_map_app_fresh; [exact H4|]. intros r Hr. rewrite Hid.
    now apply Hfresh.
  - destruct (create_parent_for_file_leaves file s) as [Happ Hfo].
    assert (Hk0 := keys_unique_folders_appended _ _ Happ Hfo Hk).
    assert (Hs0 := semesters_known_folders_appended _ _ Happ Hs).
    destruct (update_file_leaves file s) as [->|(fs' & Hids & ->)]; [now split|].
    destruct Hk0 as (H1 & H2 & H3 & H4 & H5 & H6 & H7). split; [|exact Hs0].
    unfold keys_unique. cbn. repeat split; try assumption.
    + now rewrite Hids.
    + now apply NoDup_map_filter.
  - unfold update_file_local_date. rewrite query_exec_leaves. cbn.
    destruct Hk as (H1 & H2 & H3 & H4 & H5 & H6 & H7). split; [|exact Hs].
    unfold keys_unique. cbn. repeat split; try assumption.
    rewrite map_update_where; [exact H4 | reflexivity].
  - unfold add_view. rewrite query_exec_leaves. unfold sql_insert_view.
    destruct (existsb _ (views s)) eqn:Ex; [now split|].
    destruct Hk as (H1 & H2 & H3 & H4 & H5 & H6 & H7). split; [|exact Hs].
    unfold keys_unique. cbn. repeat split; try assumption.
    + apply NoDup_map_app_fresh; [exact H5|]. intros r Hr. cbn.
      apply (existsb_false_In _ _ r Ex) in Hr. apply orb_false_iff in Hr.
      apply Z.eqb_neq. tauto.
    + apply NoDup_map_app_fresh; [exact H6|]. intros r Hr. cbn.
      apply (existsb_false_In _ _ r Ex) in Hr. apply orb_false_iff in Hr.
      apply String.eqb_neq. tauto.
  - unfold remove_view. rewrite query_exec_leaves. cbn.
    destruct Hk as (H1 & H2 & H3 & H4 & H5 & H6 & H7). split; [|exact Hs].
    unfold keys_unique. cbn. repeat split; try assumption;
      now apply NoDup_map_filter.
  - unfold add_checkout. rewrite query_exec_leaves. unfold sql_insert_checkout.
    destruct (existsb _ (checkouts s)) eqn:Ex; [now split|].
    destruct Hk as (H1 & H2 & H3 & H4 & H5 & H6 & H7). split; [|exact Hs].
    unfold keys_unique. cbn. repeat split; try assumption.
    apply NoDup_map_app_fresh; [exact H7|]. intros r Hr. cbn.
    apply (existsb_false_In _ _ r Ex) in Hr. apply andb_false_iff in Hr.
    intros [= E1 E2]. destruct Hr as [Hr|Hr].
    + apply Z.eqb_neq in Hr. contradiction.
    + apply String.eqb_neq in Hr. contradiction.
  - unfold reset_checkouts. rewrite query_exec_leaves. cbn.
    destruct Hk as (H1 & H2 & H3 & H4 & H5 & H6 & H7). split; [|exact Hs].
    unfold keys_unique. cbn. repeat split; try assumption.
    now apply NoDup_map_filter.
Qed.

Lemma store_invariants_kept_witness :
  keys_unique
    (run_operation Samples.abbreviate Samples.abbreviate (UpdateFile Samples.sheet1)
       Samples.store1) /\
  semesters_known
    (run_operation Samples.abbreviate Samples.abbreviate (UpdateFile Samples.sheet1)
       Samples.store1).
Proof.
  apply store_invariants_kept.
  - unfold keys_unique. cbn.
    repeat split; repeat constructor; cbn; intuition (try discriminate; try lia).
  - intros r Hr. cbn in Hr |- *. destruct Hr as [<-|[<-|[]]]; left; reflexivity.
Defined.

Lemma reachable_store_invariants
    (abbreviate_course_name abbreviate_course_type : string -> string)
    (ops : list operation) :
  forall s, keys_unique s -> semesters_known s ->
    keys_unique (run_operations abbreviate_course_name abbreviate_course_type ops s) /\
    semesters_known (run_operations abbreviate_course_name abbreviate_course_type ops s).
Proof.
  induction ops as [|op ops IH]; intros s Hk Hs; [now split|].
  cbn [run_operations fold_left].
  destruct (store_invariants_kept abbreviate_course_name abbreviate_course_type
              op s Hk Hs) as [Hk' Hs'].
  now apply IH.
Qed.

Lemma empty_store_invariants : keys_unique empty_store /\ semesters_known empty_store.
Proof.
  split; [unfold keys_unique; cbn; repeat split; constructor | intros r []].
Qed.

(** X8.  In whatever store a sequence of calls of the writing methods
    leaves, started on the empty tables, every stored course can be read:
    [get_course_details] returns it with the fields of its row and the
    name of its semester, and [list_courses] with all sync modes returns
    the very same course in its full projection. *)
Theorem reachable_courses_can_be_read
    (abbreviate_course_name abbreviate_course_type : string -> string)
    (ops : list operation) :
  let s := run_operations abbreviate_course_name abbreviate_course_type ops
             empty_store in
  forall r, In r (courses s) ->
    exists c cs,
      get_course_details (c_id r) s = (Val c, s) /\
      course_id c = c_id r /\ course_number c = c_number r /\
      course_name c = c_name r /\ course_type c = c_type r /\
      course_sync c = c_sync r /\ course__abbrev c = c_abbrev r /\
      course__type_abbrev c = c_type_abbrev r /\
      list_courses true true true true s = (Val (inl cs), s) /\ In c cs.
Proof.
  intros s r Hr.
  destruct empty_store_invariants as [Hk0 Hs0].
  destruct (reachable_store_invariants abbreviate_course_name abbreviate_course_type
              ops empty_store Hk0 Hs0) as [Hk Hs].
  fold s in Hk, Hs. destruct Hk as (H1 & H2 & _).
  specialize (Hs r Hr). apply in_map_iff in Hs. destruct Hs as (sem & Hjoin & Hsem).
  exists (Course_of_row (r, sem)). eexists. split.
  { rewrite get_course_details_eq.
    destruct (course_details_row (c_id r) s r sem H2 H1 Hr eq_refl Hsem Hjoin)
      as [rest ->]. reflexivity. }
  do 7 (split; [reflexivity|]). split.
  - apply list_courses_full_eq.
  - apply in_map_iff. exists (r, sem). split; [reflexivity|].
    apply In_order_by, List.filter_In. split; [|apply sync_in_all].
    apply In_join_semesters. auto.
Qed.

Lemma reachable_courses_can_be_read_witness :
  let ops :=
    [UpdateSemesterList [{| semester_id := "s1"; semester_name := "WS 15/16";
                            semester_order := 1 |}];
     AddCourse Samples.analysis;
     AddCheckout 0 "f1"] in
  let s := run_operations Samples.abbreviate Samples.abbreviate ops empty_store in
  get_course_details "c1" s = (Val Samples.analysis, s).
Proof.
  intros ops s.
  destruct (reachable_courses_can_be_read Samples.abbreviate Samples.abbreviate ops
              (nth 0 (courses s) (mkCourseRow "" "" "" "" None "" None NoSync None)))
    as (c & cs & Hget & _).
  { left. reflexivity. }
  change (get_course_details "c1" s = (Val c, s)) in Hget.
  rewrite Hget. f_equal. f_equal. vm_compute in Hget. now injection Hget as <-.
Defined.

(** ** Folder resolution: where the folder lies, and when there is none *)

Lemma subdirectories_In (par : option Z) (name : string) (l : list FolderRow) (id : Z) :
  In id (subdirectories par name l) <->
  exists r, In r l /\ fo_id r = id /\
            eq_nullable_Z (fo_parent r) par = true /\
            eq_nullable_string (fo_name r) name = true.
Proof.
  unfold subdirectories, select_where. rewrite in_map_iff. split.
  - intros (r & Hid & Hr). apply List.filter_In in Hr. destruct Hr as [Hr E].
    apply andb_true_iff in E. exists r. tauto.
  - intros (r & Hr & Hid & E1 & E2). exists r. split; [exact Hid|].
    apply List.filter_In. split; [exact Hr|]. now rewrite E1, E2.
Qed.

Lemma eq_nullable_Z_true (col par : option Z) :
  eq_nullable_Z col par = true -> exists p, par = Some p /\ col = Some p.
Proof.
  destruct col as [a|], par as [b|]; cbn; try discriminate.
  intros E. apply Z.eqb_eq in E. subst. now exists b.
Qed.

Lemma eq_nullable_string_true (col : option string) (name : string) :
  eq_nullable_string col name = true -> col = Some name.
Proof.
  destruct col as [a|]; cbn; [|discriminate].
  intros E. apply String.eqb_eq in E. now subst.
Qed.

Lemma subdirectories_of_NULL (name : string) (l : list FolderRow) :
  subdirectories None name l = [].
Proof.
  destruct (subdirectories None name l) as [|id ids] eqn:E; [reflexivity|].
  assert (Hin : In id (subdirectories None name l)) by (rewrite E; now left).
  apply subdirectories_In in Hin. destruct Hin as (r & _ & _ & E1 & _).
  apply eq_nullable_Z_true in E1. destruct E1 as (p & Hp & _). discriminate.
Qed.

Lemma resolves_app (l ext : list FolderRow) (path : list string) :
  forall start p, resolves l start path p -> resolves (l ++ ext) start path p.
Proof.
  induction path as [|name rest IH]; intros start p H; [exact H|].
  destruct H as (r & Hr & Hpar & Hname & Hrest).
  exists r. repeat split; try assumption.
  - apply in_or_app. now left.
  - now apply IH.
Qed.

Lemma folders_appended_length (s s' : Store) :
  folders_appended s s' -> (length (folders s) <= length (folders s'))%nat.
Proof. intros [ext ->]. cbn. rewrite length_app. lia. Qed.

(** A walk that returns a folder: where the folder lies and how many
    rows were appended. *)
Lemma walk_path_resolves (path : list string) :
  forall (start : Z) (s s' : Store) (p : option Z),
    walk_path path (Some start) s = (Val p, s') ->
    exists q, p = Some q /\ resolves (folders s') start path q /\
              (length (folders s') <= length (folders s) + length path)%nat.
Proof.
  induction path as [|folder rest IH]; intros start s s' p H.
  - cbn in H. injection H as <- <-. exists start. repeat split. cbn. lia.
  - rewrite walk_path_cons in H.
    destruct (subdirectories (Some start) folder (folders s)) as [|id ids] eqn:E.
    + cbn zeta in H.
      destruct (subdirectories (Some start) folder
                  (folders (with_new_folder folder (Some start) s)))
        as [|id ids] eqn:E1; [discriminate|].
      destruct (walk_path_stable _ _ _ _ _ H) as [[ext Hext] _].
      destruct (IH _ _ _ _ H) as (q & -> & Hres & Hlen).
      exists q. split; [reflexivity|]. split.
      * assert (Hin : In id (subdirectories (Some start) folder
                               (folders (with_new_folder folder (Some start) s))))
          by (rewrite E1; now left).
        apply subdirectories_In in Hin. destruct Hin as (r & Hr & Hid & E2 & E3).
        apply eq_nullable_Z_true in E2. destruct E2 as (p0 & [= <-] & Hpar).
        apply eq_nullable_string_true in E3.
        exists r. repeat split; try assumption.
        -- rewrite Hext. cbn [folders set_folders]. apply in_or_app. now left.
        -- now rewrite Hid.
      * unfold with_new_folder in Hlen. cbn [folders set_folders] in Hlen.
        rewrite length_app in Hlen. cbn in Hlen |- *. lia.
    + destruct (walk_path_stable _ _ _ _ _ H) as [[ext Hext] _].
      destruct (IH _ _ _ _ H) as (q & -> & Hres & Hlen).
      exists q. split; [reflexivity|]. split; [|cbn; lia].
      assert (Hin : In id (subdirectories (Some start) folder (folders s)))
        by (rewrite E; now left).
      apply subdirectories_In in Hin. destruct Hin as (r & Hr & Hid & E2 & E3).
      apply eq_nullable_Z_true in E2. destruct E2 as (p0 & [= <-] & Hpar).
      apply eq_nullable_string_true in E3.
      exists r. repeat split; try assumption.
      * rewrite Hext. cbn [folders set_folders]. apply in_or_app. now left.
      * now rewrite Hid.
Qed.

(** X9.  With the file's course stored and its root folder set,
    [create_parent_for_file] returns a folder that lies at the file's path
    below the root folder: a chain of stored folders, each the parent of
    the next, named by the segments of the path in their order.  It has
    changed no existing row of any table, and appended at most one folder
    per segment. *)
Theorem create_parent_for_file_resolves
    (file : File) (s : Store) (c : CourseRow) (root : Z) :
  stored_course s (file_course file) = Some c -> c_root c = Some root ->
  exists (p : Z) (s' : Store) (new : list FolderRow),
    create_parent_for_file file s = (Val (Some p), s') /\
    s' = set_folders (folders s ++ new) s /\
    (length new <= length (file_path file))%nat /\
    resolves (folders s') root (file_path file) p.
Proof.
  intros Hc Hroot.
  destruct (create_parent_for_file_total file s c root Hc Hroot)
    as (p & s' & Hrun & [new Hnew]).
  exists p, s', new. split; [exact Hrun|]. split; [exact Hnew|].
  rewrite create_parent_for_file_eq in Hrun.
  destruct (select_root_of_stored _ _ _ Hc) as [roots E]. rewrite E, Hroot in Hrun.
  destruct (walk_path_resolves _ _ _ _ _ Hrun) as (q & [= <-] & Hres & Hlen).
  split; [|exact Hres].
  rewrite Hnew in Hlen. cbn [folders set_folders] in Hlen.
  rewrite length_app in Hlen. lia.
Qed.

Lemma create_parent_for_file_resolves_witness :
  exists s',
    create_parent_for_file Samples.sheet1 Samples.store1 = (Val (Some 4), s') /\
    resolves (folders s') 1 ["Exercises"; "Week 1"] 4 /\
    length (folders s') = 4%nat.
Proof.
  destruct (create_parent_for_file_resolves Samples.sheet1 Samples.store1
              (nth 0 (courses Samples.store1)
                 (mkCourseRow "" "" "" "" None "" None NoSync None))
              1 eq_refl eq_refl) as (p & s' & new & Hrun & _ & _ & Hres).
  assert (E : (Val (Some p), s')
              = (Val (Some 4), snd (create_parent_for_file Samples.sheet1 Samples.store1)))
    by (rewrite <- Hrun; vm_compute; reflexivity).
  injection E as -> ->.
  eexists. split; [exact Hrun|]. split; [exact Hres | reflexivity].
Defined.

(** X10.  [create_parent_for_file] for a course the store does not hold
    raises [IndexError] with the store as it was; for a stored course and
    an empty path it returns the root folder of the course, the store as
    it was; for a stored course without a root folder and a path that is
    not empty it raises [IndexError]: no folder has NULL for a parent it
    could be found under. *)
Theorem create_parent_for_file_edges (file : File) (s : Store) :
  ((forall r, In r (courses s) -> c_id r <> file_course file) ->
   create_parent_for_file file s = (Exc IndexError, s)) /\
  (forall c, stored_course s (file_course file) = Some c -> file_path file = [] ->
             create_parent_for_file file s = (Val (c_root c), s)) /\
  (forall c, stored_course s (file_course file) = Some c -> c_root c = None ->
             file_path file <> [] ->
             fst (create_parent_for_file file s) = Exc IndexError).
Proof.
  split; [|split].
  - intros H. rewrite create_parent_for_file_eq.
    rewrite (filter_nothing _ (courses s)); [reflexivity|].
    intros r Hr. apply String.eqb_neq. now apply H.
  - intros c Hc Hpath. rewrite create_parent_for_file_eq.
    destruct (select_root_of_stored _ _ _ Hc) as [roots ->]. now rewrite Hpath.
  - intros c Hc Hroot Hpath. rewrite create_parent_for_file_eq.
    destruct (select_root_of_stored _ _ _ Hc) as [roots ->]. rewrite Hroot.
    destruct (file_path file) as [|folder rest]; [contradiction|].
    rewrite walk_path_cons, subdirectories_of_NULL. cbn zeta.
    now rewrite subdirectories_of_NULL.
Qed.

(** ** Files: insert, update and what stays *)

Lemma find_app_fresh {A} (p : A -> bool) (l : list A) (a : A) :
  (forall r, In r l -> p r = false) -> p a = true -> find p (l ++ [a]) = Some a.
Proof.
  intros Hl Ha. induction l as [|b l IH]; cbn.
  - now rewrite Ha.
  - rewrite (Hl b (or_introl eq_refl)). apply IH. intros r Hr. apply Hl. now right.
Qed.

Lemma nth_error_app_left {A} (l ext : list A) (i : nat) (r : A) :
  nth_error l i = Some r -> nth_error (l ++ ext) i = Some r.
Proof.
  intros H. rewrite nth_error_app1; [exact H|].
  apply nth_error_Some. congruence.
Qed.

(** Folder resolution for a stored course with a root folder, as
    [add_file] and [update_file] start with it. *)
Lemma create_parent_for_file_run (file : File) (s : Store) (c : CourseRow) (root : Z) :
  stored_course s (file_course file) = Some c -> c_root c = Some root ->
  exists (p : Z) (new : list FolderRow),
    create_parent_for_file file s = (Val (Some p), set_folders (folders s ++ new) s) /\
    resolves (folders s ++ new) root (file_path file) p.
Proof.
  intros Hc Hroot.
  destruct (create_parent_for_file_total file s c root Hc Hroot)
    as (p & s' & Hrun & [new ->]).
  exists p, new. split; [exact Hrun|].
  rewrite create_parent_for_file_eq in Hrun.
  destruct (select_root_of_stored _ _ _ Hc) as [roots E]. rewrite E, Hroot in Hrun.
  destruct (walk_path_resolves _ _ _ _ _ Hrun) as (q & [= <-] & Hres & _).
  exact Hres.
Qed.

Lemma update_file_post (file : File) (s : Store) (c : CourseRow) (root : Z) :
  stored_course s (file_course file) = Some c -> c_root c = Some root ->
  exists (p : Z) (new : list FolderRow),
    resolves (folders s ++ new) root (file_path file) p /\
    update_file file s
    = (Val tt,
       set_checkouts
         (delete_where (fun r => String.eqb (co_file r) (file_id file)) (checkouts s))
         (set_files
            (update_where (fun r => String.eqb (f_id r) (file_id file))
               (updated_file_row file p) (files s))
            (set_folders (folders s ++ new) s))).
Proof.
  intros Hc Hroot.
  destruct (create_parent_for_file_run file s c root Hc Hroot) as (p & new & Hrun & Hres).
  exists p, new. split; [exact Hres|].
  rewrite update_file_eq, Hrun.
  rewrite (query_exec_done (sql_update_file file (Some p)) _ _ []) by reflexivity.
  eapply query_exec_done. reflexivity.
Qed.

(** X11.  What [update_file] leaves of the files table, for a file given
    with a stored course that has its root folder: every row keeps its
    place; a row with the file's id keeps its id, takes the name,
    extension, author, description, remote date, copyright flag and local
    date of the argument, a version one higher, and the folder that lies
    at the argument's path below the course root; every row with another
    id is unchanged.  Semesters, courses and views are unchanged. *)
Theorem update_file_rewrites_the_row
    (file : File) (s : Store) (c : CourseRow) (root : Z) :
  stored_course s (file_course file) = Some c -> c_root c = Some root ->
  exists (s' : Store) (p : Z),
    update_file file s = (Val tt, s') /\
    resolves (folders s') root (file_path file) p /\
    semesters s' = semesters s /\ courses s' = courses s /\ views s' = views s /\
    length (files s') = length (files s) /\
    forall i r, nth_error (files s) i = Some r ->
      nth_error (files s') i
      = Some (if String.eqb (f_id r) (file_id file)
              then updated_file_row file p r else r).
Proof.
  intros Hc Hroot.
  destruct (update_file_post file s c root Hc Hroot) as (p & new & Hres & Hrun).
  eexists. exists p. split; [exact Hrun|].
  cbn [folders files semesters courses views set_checkouts set_files set_folders].
  split; [exact Hres|]. do 3 (split; [reflexivity|]).
  split; [apply update_where_length|].
  intros i r Hr.
  exact (update_where_nth (fun r => String.eqb (f_id r) (file_id file))
           (updated_file_row file p) (files s) i r Hr).
Qed.

Lemma update_file_rewrites_the_row_witness :
  exists s',
    update_file Samples.sheet1 Samples.store1 = (Val tt, s') /\
    stored_file s' "f1"
    = Some {| f_id := "f1"; f_folder := 4; f_name := "sheet1"; f_extension := ".pdf";
              f_author := "Euler"; f_description := ""; f_remote_date := 1446000000;
              f_copyrighted := false; f_local_date := Some 1446500000;
              f_version := 5 |}.
Proof.
  destruct (update_file_rewrites_the_row Samples.sheet1 Samples.store1
              (nth 0 (courses Samples.store1)
                 (mkCourseRow "" "" "" "" None "" None NoSync None))
              1 eq_refl eq_refl) as (s' & p & Hrun & _).
  exists s'. split; [exact Hrun|].
  vm_compute in Hrun. injection Hrun as <-. reflexivity.
Defined.

Lemma update_file_effect (file : File) (s : Store) (c : CourseRow) (root : Z)
    (r : FileRow) :
  stored_course s (file_course file) = Some c -> c_root c = Some root ->
  stored_file s (file_id file) = Some r ->
  exists s' r',
    update_file file s = (Val tt, s') /\
    stored_course s' (file_course file) = Some c /\
    stored_file s' (file_id file) = Some r' /\
    f_version r' = f_version r + 1.
Proof.
  intros Hc Hroot Hr.
  destruct (update_file_post file s c root Hc Hroot) as (p & new & _ & Hrun).
  eexists. exists (updated_file_row file p r). split; [exact Hrun|].
  split; [exact Hc|]. split; [|reflexivity].
  unfold stored_file in *. cbn [files set_checkouts set_files].
  rewrite find_update_where; [now rewrite Hr | auto].
Qed.

(** X12.  The version of a file counts its updates, within the range of
    an SQLite INTEGER: [n] calls of [update_file] in a row, for a stored
    file given with a stored course that has its root folder, all return,
    and leave the stored version [n] higher than it was, when the version
    is an INTEGER before the calls and [n] more is one still; the version
    they leave is an INTEGER then. *)
Theorem update_file_n_times
    (n : nat) (file : File) (s : Store) (c : CourseRow) (root : Z) (r : FileRow) :
  stored_course s (file_course file) = Some c -> c_root c = Some root ->
  stored_file s (file_id file) = Some r ->
  sqlite_min_integer <= f_version r ->
  f_version r + Z.of_nat n <= sqlite_max_integer ->
  exists s' r',
    repeat_method n (update_file file) s = (Val tt, s') /\
    stored_file s' (file_id file) = Some r' /\
    f_version r' = f_version r + Z.of_nat n /\
    sqlite_min_integer <= f_version r' <= sqlite_max_integer.
Proof.
  revert s r. induction n as [|n IH]; intros s r Hc Hroot Hr Hmin Hmax.
  - exists s, r. split; [reflexivity|]. split; [exact Hr | lia].
  - destruct (update_file_effect file s c root r Hc Hroot Hr)
      as (s1 & r1 & Hrun & Hc1 & Hr1 & Hv1).
    destruct (IH s1 r1 Hc1 Hroot Hr1) as (s' & r' & Hrep & Hr' & Hv' & Hrange);
      [lia | lia |].
    exists s', r'. split; [|split; [exact Hr'|split; [lia | exact Hrange]]].
    cbn [repeat_method]. unfold bind. now rewrite Hrun.
Qed.

Lemma update_file_n_times_witness :
  exists s',
    repeat_method 3 (update_file Samples.sheet1) Samples.store1 = (Val tt, s') /\
    option_map f_version (stored_file Samples.store1 "f1") = Some 4 /\
    option_map f_version (stored_file s' "f1") = Some 7.
Proof.
  destruct (update_file_n_times 3 Samples.sheet1 Samples.store1
              (nth 0 (courses Samples.store1)
                 (mkCourseRow "" "" "" "" None "" None NoSync None))
              1 (nth 0 (files Samples.store1)
                   (mkFileRow "" 0 "" "" "" "" 0 false None 0))
              eq_refl eq_refl eq_refl
              ltac:(vm_compute; discriminate) ltac:(vm_compute; discriminate))
    as (s' & r' & Hrun & _).
  exists s'. split; [exact Hrun|]. split; [reflexivity|].
  vm_compute in Hrun. injection Hrun as <-. reflexivity.
Defined.

(** X13.  [add_file] with an id no stored file has, for a stored course
    with its root folder: the file is stored afterwards with version 0,
    the fields of the argument and the folder that lies at the argument's
    path below the course root; the rows the files table had are in
    their places, unchanged, and so are the checkouts. *)
Theorem add_file_stores_the_file
    (file : File) (s : Store) (c : CourseRow) (root : Z) :
  stored_course s (file_course file) = Some c -> c_root c = Some root ->
  (forall r, In r (files s) -> f_id r <> file_id file) ->
  exists (s' : Store) (p : Z),
    add_file file s = (Val tt, s') /\
    resolves (folders s') root (file_path file) p /\
    stored_file s' (file_id file) = Some (new_file_row file p) /\
    length (files s') = S (length (files s)) /\
    (forall i r, nth_error (files s) i = Some r -> nth_error (files s') i = Some r) /\
    checkouts s' = checkouts s.
Proof.
  intros Hc Hroot Hfresh.
  destruct (create_parent_for_file_run file s c root Hc Hroot) as (p & new & Hrun & Hres).
  assert (Hno : forall r, In r (files s) -> String.eqb (f_id r) (file_id file) = false)
    by (intros r Hr; apply String.eqb_neq; now apply Hfresh).
  exists (set_files (files s ++ [new_file_row file p]) (set_folders (folders s ++ new) s)), p.
  split.
  { rewrite add_file_eq, Hrun. eapply query_exec_done.
    unfold sql_insert_file. cbn [files set_folders].
    now rewrite (existsb_none _ _ Hno). }
  cbn [folders files checkouts set_files set_folders].
  split; [exact Hres|]. split; [|split; [|split]].
  - unfold stored_file. cbn [files set_files]. apply find_app_fresh; [exact Hno|].
    apply String.eqb_refl.
  - rewrite length_app. cbn. lia.
  - intros i r. apply nth_error_app_left.
  - reflexivity.
Qed.

Lemma add_file_stores_the_file_witness :
  let notes :=
    {| file_id := "f2"; file_course := "c2"; file_course_semester := "WS 15/16";
       file_course_name := "Algebra"; file__course_abbrev := None;
       file_course_type := "Seminar"; file__course_type_abbrev := None;
       file_path := ["Notes"]; file_name := "groups"; file_extension := ".txt";
       file_author := "Noether"; file_description := ""; file_description_url := None;
       file_remote_date := 1447000000; file_copyrighted := true;
       file_local_date := None; file_version := None |} in
  exists s',
    add_file notes Samples.store1 = (Val tt, s') /\
    option_map f_version (stored_file s' "f2") = Some 0 /\
    option_map f_folder (stored_file s' "f2") = Some 3 /\
    resolves (folders s') 2 ["Notes"] 3.
Proof.
  intros notes.
  destruct (add_file_stores_the_file notes Samples.store1
              (nth 1 (courses Samples.store1)
                 (mkCourseRow "" "" "" "" None "" None NoSync None))
              2 eq_refl eq_refl) as (s' & p & Hrun & Hres & Hst & _).
  { intros r Hr. cbn in Hr. destruct Hr as [<-|[]]. discriminate. }
  vm_compute in Hrun. injection Hrun as <-.
  vm_compute in Hst. injection Hst as <-.
  exists (snd (add_file notes Samples.store1)).
  split; [vm_compute; reflexivity|]. split; [reflexivity|]. split; [reflexivity|].
  exact Hres.
Defined.



(** ** Views *)

Lemma unique_key_of {A B} (key : A -> B) (l : list A) (a b : A) :
  List.NoDup (map key l) -> In a l -> In b l -> key a = key b -> a = b.
Proof.
  induction l as [|x l IH]; cbn; [contradiction|].
  intros Hnd Ha Hb E. inversion Hnd as [|k ks Hx Hl]; subst.
  destruct Ha as [->|Ha], Hb as [->|Hb].
  - reflexivity.
  - exfalso. apply Hx. rewrite E. now apply in_map.
  - exfalso. apply Hx. rewrite <- E. now apply in_map.
  - now apply IH.
Qed.

Lemma get_view_details_eq (id : Z) (s : Store) :
  get_view_details id s =
    match select_where (fun r => v_id r =? id) (views s) with
    | [] => (Exc QueryError, s)
    | row :: _ =>
        (Val {| vi_id := id; vi_name := v_name row; vi_format := v_format row;
                vi_base := EscapeModeValue (v_esc_mode row);
                vi_escape := CharsetValue (v_charset row);
                vi_charset := CharsetValue Unicode |}, s)
    end.
Proof.
  unfold get_view_details, bind, query. cbn.
  destruct (select_where _ (views s)); reflexivity.
Qed.

Lemma list_views_eq (full : bool) (s : Store) :
  list_views full s
  = (Val (if full then inl (map View_of_row (order_by le_view_name (views s)))
          else inr (map v_id (order_by le_view_name (views s)))), s).
Proof.
  unfold list_views, bind.
  rewrite (query_rows_done_noparams sql_select_views s s
             (order_by le_view_name (views s))) by reflexivity.
  now destruct full.
Qed.

(** X15.  [get_view_details] raises [QueryError] for an id no view has.
    For a stored view it returns, under the view's name and format, an
    instance whose [base] holds the stored escape mode, whose [escape]
    holds the stored charset and whose [charset] is [Charset.Unicode]
    whatever is stored: it is never the instance that [list_views] builds
    from the same row. *)
Theorem get_view_details_shifts_attributes (s : Store) :
  (forall id, (forall r, In r (views s) -> v_id r <> id) ->
              get_view_details id s = (Exc QueryError, s)) /\
  (List.NoDup (map v_id (views s)) ->
   forall r, In r (views s) ->
     exists vi,
       get_view_details (v_id r) s = (Val vi, s) /\
       vi_id vi = v_id r /\ vi_name vi = v_name r /\ vi_format vi = v_format r /\
       vi_base vi = EscapeModeValue (v_esc_mode r) /\
       vi_escape vi = CharsetValue (v_charset r) /\
       vi_charset vi = CharsetValue Unicode /\
       vi <> View_instance (View_of_row r)).
Proof.
  split.
  - intros id H. rewrite get_view_details_eq.
    rewrite (filter_nothing _ (views s)); [reflexivity|].
    intros r Hr. apply Z.eqb_neq. now apply H.
  - intros Hnd r Hr. rewrite get_view_details_eq.
    destruct (head_of_all_equal r (select_where (fun r0 => v_id r0 =? v_id r) (views s)))
      as [rest ->].
    + apply List.filter_In. split; [exact Hr | apply Z.eqb_refl].
    + intros y Hy. apply List.filter_In in Hy. destruct Hy as [Hy E].
      apply Z.eqb_eq in E. exact (unique_key_of v_id (views s) y r Hnd Hy Hr E).
    + eexists. split; [reflexivity|]. cbn. repeat split.
      intros E. apply (f_equal vi_escape) in E. cbn in E. discriminate.
Qed.

(** X16.  A view added under an id and a name no stored view has is
    listed afterwards: [list_views] returns its id and, in the full
    projection, the view exactly as it was given.  The views that were
    stored are still listed. *)
Theorem add_view_then_list_views (view : View) (s : Store) :
  (forall r, In r (views s) -> v_id r <> view_id view /\ v_name r <> view_name view) ->
  exists s' vs ids,
    add_view view s = (Val tt, s') /\
    list_views true s' = (Val (inl vs), s') /\
    list_views false s' = (Val (inr ids), s') /\
    In view vs /\ In (view_id view) ids /\
    forall r, In r (views s) -> In (View_of_row r) vs /\ In (v_id r) ids.
Proof.
  intros Hfresh. eexists. eexists. eexists. split.
  { unfold add_view. eapply query_exec_done. unfold sql_insert_view.
    rewrite existsb_none; [reflexivity|]. intros r Hr.
    destruct (Hfresh r Hr) as [H1 H2]. apply orb_false_iff.
    split; [now apply Z.eqb_neq | now apply String.eqb_neq]. }
  split; [apply (list_views_eq true)|]. split; [apply (list_views_eq false)|].
  cbn [views set_views]. split; [|split].
  - apply in_map_iff. eexists. split; [|apply In_order_by, in_or_app; right; now left].
    now destruct view.
  - apply in_map_iff. eexists. split; [|apply In_order_by, in_or_app; right; now left].
    reflexivity.
  - intros r Hr. split; apply in_map, In_order_by, in_or_app; now left.
Qed.

Lemma add_view_then_list_views_witness :
  exists s',
    add_view (View_default 2 "by-author") Samples.store1 = (Val tt, s') /\
    list_views false s' = (Val (inr [2; 0; 1]), s') /\
    exists vs, list_views true s' = (Val (inl vs), s') /\
               In (View_default 2 "by-author") vs.
Proof.
  destruct (add_view_then_list_views (View_default 2 "by-author") Samples.store1)
    as (s' & vs & ids & Hrun & Hfull & Hids & Hin & _).
  { intros r Hr. cbn in Hr. destruct Hr as [<-|[<-|[]]]; split; discriminate. }
  exists s'. split; [exact Hrun|]. split; [|exists vs; now split].
  rewrite Hids. vm_compute in Hrun. injection Hrun as <-.
  vm_compute in Hids. now injection Hids as <-.
Defined.

(** X17.  After [remove_view] the id is not among the ids [list_views]
    returns and [get_view_details] raises [QueryError] for it; every
    other view is still listed. *)
Theorem remove_view_then_read (id : Z) (s : Store) :
  exists s' ids,
    remove_view id s = (Val tt, s') /\
    list_views false s' = (Val (inr ids), s') /\
    ~ In id ids /\
    get_view_details id s' = (Exc QueryError, s') /\
    forall r, In r (views s) -> v_id r <> id -> In (v_id r) ids.
Proof.
  eexists. eexists. split.
  { unfold remove_view. eapply query_exec_done. reflexivity. }
  split; [apply (list_views_eq false)|]. cbn [views set_views].
  assert (Hgone : forall r, In r (delete_where (fun r => v_id r =? id) (views s)) ->
                            v_id r <> id).
  { intros r Hr. apply In_delete_where in Hr. now apply Z.eqb_neq. }
  split; [|split].
  - intros Hin. apply in_map_iff in Hin. destruct Hin as (r & E & Hr).
    apply In_order_by in Hr. now apply Hgone in Hr.
  - rewrite get_view_details_eq. cbn [views set_views].
    rewrite (filter_nothing _ (delete_where _ (views s))); [reflexivity|].
    intros r Hr. apply Z.eqb_neq. now apply Hgone.
  - intros r Hr Hid. apply in_map, In_order_by, In_delete_where.
    split; [exact Hr | now apply Z.eqb_neq].
Qed.

(** ** Checkouts *)

Lemma list_checkouts_eq (view : Z) (s : Store) :
  list_checkouts view s
  = (Val (map co_file (select_where (fun r => co_view r =? view) (checkouts s))), s).
Proof. unfold list_checkouts. now apply query_rows_done. Qed.

Lemma In_checked_out (view : Z) (file : string) (l : list CheckoutRow) :
  In file (map co_file (select_where (fun r => co_view r =? view) l)) <->
  In {| co_view := view; co_file := file |} l.
Proof.
  rewrite in_map_iff. split.
  - intros ([v f] & E & Hr). apply List.filter_In in Hr. destruct Hr as [Hr Hv].
    cbn in E, Hv. apply Z.eqb_eq in Hv. now subst.
  - intros H. eexists. split; [|apply List.filter_In; split; [exact H|]].
    + reflexivity.
    + apply Z.eqb_refl.
Qed.

(** X18.  After [add_checkout] of a file for a view, [list_checkouts] of
    that view lists the file, next to what it listed before; for every
    view it lists what it listed before and nothing else but this file
    for this view. *)
Theorem add_checkout_then_list_checkouts (view : Z) (file : string) (s : Store) :
  exists s',
    add_checkout view file s = (Val tt, s') /\
    forall w, exists before after,
      list_checkouts w s = (Val before, s) /\
      list_checkouts w s' = (Val after, s') /\
      forall g, In g after <-> In g before \/ (w = view /\ g = file).
Proof.
  destruct (existsb (fun r => (co_view r =? view) && String.eqb (co_file r) file)
              (checkouts s)) eqn:E.
  - exists s. split.
    { unfold add_checkout. apply query_exec_swallows.
      unfold sql_insert_checkout. now rewrite E. }
    intros w. eexists. eexists. split; [apply list_checkouts_eq|].
    split; [apply list_checkouts_eq|]. intros g. split; [now left|].
    intros [H|[-> ->]]; [exact H|]. apply In_checked_out.
    apply existsb_exists in E. destruct E as ([v f] & Hr & Hp).
    cbn in Hp. apply andb_true_iff in Hp. destruct Hp as [Hv Hf].
    apply Z.eqb_eq in Hv. apply String.eqb_eq in Hf. now subst.
  - eexists. split.
    { unfold add_checkout. eapply query_exec_done.
      unfold sql_insert_checkout. rewrite E. reflexivity. }
    intros w. eexists. eexists. split; [apply list_checkouts_eq|].
    split; [apply list_checkouts_eq|]. intros g. cbn [checkouts set_checkouts].
    rewrite !In_checked_out, in_app_iff. cbn. split.
    + intros [H|[[= -> ->]|[]]]; auto.
    + intros [H|[-> ->]]; auto.
Qed.

(** X19.  After [reset_checkouts] of a view, [list_checkouts] of that
    view is empty, and [list_checkouts] of every other view returns the
    list it returned before, in the same order. *)
Theorem reset_checkouts_then_list_checkouts (view : Z) (s : Store) :
  exists s',
    reset_checkouts view s = (Val tt, s') /\
    list_checkouts view s' = (Val [], s') /\
    forall w, w <> view ->
      exists ids, list_checkouts w s = (Val ids, s) /\
                  list_checkouts w s' = (Val ids, s').
Proof.
  eexists. split.
  { unfold reset_checkouts. eapply query_exec_done. reflexivity. }
  split.
  - rewrite list_checkouts_eq. cbn [checkouts set_checkouts].
    unfold select_where, delete_where. rewrite filter_filter.
    rewrite filter_nothing; [reflexivity|].
    intros r _. now destruct (co_view r =? view).
  - intros w Hw. eexists. split; [apply list_checkouts_eq|].
    rewrite list_checkouts_eq. cbn [checkouts set_checkouts].
    unfold select_where, delete_where. rewrite filter_filter.
    do 3 f_equal. apply List.filter_ext. intros r.
    destruct (Z.eqb_spec (co_view r) view) as [->|_]; cbn.
    + symmetry. now apply Z.eqb_neq.
    + reflexivity.
Qed.

(** ** Opening: the other versions, and failing scripts *)

(** The tests of [__init__] on a version that is known. *)
Ltac decide_version :=
  unfold init_after_version, open_after_version;
  cbn [Z.ltb Z.eqb Z.compare Pos.compare Pos.compare_cont schema_version
       orb negb Pos.eqb query_script_file];
  unfold bind.

Lemma on_file_after_backup {A} (file_name : string) (v : Z) (m : M DbFile A)
    (fs : World) (d d' : DbFile) (r : outcome A) :
  fs !! file_name = Some d -> m d = (r, d') ->
  on_file file_name m (<[backup_file_name file_name v := d]> fs)
  = (r, <[file_name := d']> (<[backup_file_name file_name v := d]> fs)).
Proof.
  intros Hd Hm. apply (on_file_run file_name m _ d d' r); [|exact Hm].
  rewrite lookup_insert_ne by apply backup_file_name_differs. now rewrite Hd.
Qed.

(** X20.  A file of schema 11 is copied to the backup named after 11,
    then only migrate-11-12.sql runs, whatever migrate-9-11.sql would do;
    when it returns, the file ends with what the script left and a
    [user_version] of 12. *)
Theorem open_migrates_schema_11
    (migrate_9_11 migrate_11_12 : M DbFile unit)
    (file_name : string) (fs : World) (d d2 : DbFile) :
  fs !! file_name = Some d -> user_version d = 11 ->
  migrate_11_12 d = (Val tt, d2) ->
  Database_init migrate_9_11 migrate_11_12 file_name fs
  = (Val tt,
     <[file_name := {| user_version := 12; tables := tables d2 |}]>
       (<[backup_file_name file_name 11 := d]> fs)).
Proof.
  intros Hd Hv H2.
  rewrite (Database_init_existing _ _ _ _ _ Hd), Hv. decide_version.
  rewrite (copyfile_existing _ _ _ _ Hd). cbn [ret].
  rewrite (on_file_after_backup file_name 11 _ fs d d2 (Val tt) Hd H2).
  rewrite (on_file_run_inserted file_name _ _ d2
             {| user_version := 12; tables := tables d2 |} (Val tt)) by reflexivity.
  reflexivity.
Qed.

Lemma open_migrates_schema_11_witness :
  Database_init MoreSamples.failing_script Samples.no_migration "cache.sqlite"
    MoreSamples.disk11
  = (Val tt,
     <["cache.sqlite" := {| user_version := 12; tables := Some Samples.store1 |}]>
       (<["cache.backup-schema11.sqlite" :=
            {| user_version := 11; tables := Some Samples.store1 |}]>
          MoreSamples.disk11)).
Proof.
  apply (open_migrates_schema_11 MoreSamples.failing_script Samples.no_migration
           "cache.sqlite" MoreSamples.disk11
           {| user_version := 11; tables := Some Samples.store1 |}
           {| user_version := 11; tables := Some Samples.store1 |});
    reflexivity.
Defined.

(** X21.  When a migration script raises, [Database.__init__] raises the
    same exception.  The backup written before holds the file as it was;
    the file holds what the failing script left, and [__init__] has not
    set its [user_version]: neither for a file of schema 9 whose first
    script fails, nor for a file of schema 11 whose script fails. *)
Theorem open_with_a_failing_script
    (migrate_9_11 migrate_11_12 : M DbFile unit)
    (file_name : string) (fs : World) (d d' : DbFile) (e : exn) :
  fs !! file_name = Some d ->
  (user_version d = 9 -> migrate_9_11 d = (Exc e, d') ->
   Database_init migrate_9_11 migrate_11_12 file_name fs
   = (Exc e, <[file_name := d']> (<[backup_file_name file_name 9 := d]> fs))) /\
  (user_version d = 11 -> migrate_11_12 d = (Exc e, d') ->
   Database_init migrate_9_11 migrate_11_12 file_name fs
   = (Exc e, <[file_name := d']> (<[backup_file_name file_name 11 := d]> fs))).
Proof.
  intros Hd. split; intros Hv Hm; rewrite (Database_init_existing _ _ _ _ _ Hd), Hv.
  - decide_version. rewrite (copyfile_existing _ _ _ _ Hd).
    now rewrite (on_file_after_backup file_name 9 _ fs d d' (Exc e) Hd Hm).
  - decide_version. rewrite (copyfile_existing _ _ _ _ Hd). cbn [ret].
    now rewrite (on_file_after_backup file_name 11 _ fs d d' (Exc e) Hd Hm).
Qed.

Lemma open_with_a_failing_script_witness :
  Database_init MoreSamples.failing_script Samples.no_migration "cache.sqlite"
    Samples.disk9
  = (Exc OperationalError,
     <["cache.sqlite" := {| user_version := 9; tables := Some Samples.store1 |}]>
       (<["cache.backup-schema9.sqlite" :=
            {| user_version := 9; tables := Some Samples.store1 |}]> Samples.disk9)).
Proof.
  apply (open_with_a_failing_script MoreSamples.failing_script Samples.no_migration
           "cache.sqlite" Samples.disk9
           {| user_version := 9; tables := Some Samples.store1 |}
           {| user_version := 9; tables := Some Samples.store1 |} OperationalError);
    reflexivity.
Defined.

Lemma on_file_lookup {A} (file_name : string) (m : M DbFile A) (fs fs' : World)
    (r : outcome A) :
  on_file file_name m fs = (r, fs') ->
  exists d d', default fresh_file (fs !! file_name) = d /\ m d = (r, d') /\
               fs' = <[file_name := d']> fs.
Proof.
  unfold on_file. destruct (m (default fresh_file (fs !! file_name))) as [r0 d'] eqn:E.
  intros [= <- <-]. eexists. eexists. split; [reflexivity|]. split; [exact E|reflexivity].
Qed.

Lemma set_user_version_run (d : DbFile) :
  query_exec (sql_pragma_set_user_version 12) NoParams d
  = (Val tt, {| user_version := 12; tables := tables d |}).
Proof. reflexivity. Qed.

(** A transaction left open has written nothing. *)
Lemma on_file_uncommitted_keeps_disk {A} (file_name : string) (m : M Store A)
    (fs : World) :
  snd (on_file_uncommitted file_name m fs) = fs.
Proof.
  unfold on_file_uncommitted.
  destruct (tables (default fresh_file (fs !! file_name))) as [t|]; [|reflexivity].
  now destruct (m t) as [[a|e] t'].
Qed.

Lemma setup_sql_keeps_version (d : DbFile) :
  fst (setup_sql d) = Val tt /\ user_version (snd (setup_sql d)) = user_version d.
Proof. unfold setup_sql. now destruct (tables d). Qed.

(** Whenever [__init__] has returned, the file is at version 12. *)
Lemma init_after_version_returns (m1 m2 : M DbFile unit) (file_name : string)
    (fs fs' : World) (d : DbFile) :
  fs !! file_name = Some d ->
  init_after_version m1 m2 file_name (user_version d) fs = (Val tt, fs') ->
  exists d', fs' !! file_name = Some d' /\ user_version d' = 12.
Proof.
  intros Hd H. unfold init_after_version, open_after_version, schema_version in H.
  destruct (Z.ltb_spec (user_version d) 12) as [Hlt|Hge].
  - destruct (Z.eqb_spec (user_version d) 9) as [E9|N9];
      [|destruct (Z.eqb_spec (user_version d) 11) as [E11|N11]].
    + rewrite E9 in H. cbn [orb Z.ltb Z.eqb Z.compare Pos.compare Pos.compare_cont
                             query_script_file] in H.
      unfold bind in H. rewrite (copyfile_existing _ _ _ _ Hd) in H.
      destruct (m1 d) as [[[]|e] d1] eqn:E1;
        rewrite (on_file_after_backup file_name 9 _ fs d d1 _ Hd E1) in H;
        [|discriminate].
      destruct (m2 d1) as [[[]|e] d2] eqn:E2;
        rewrite (on_file_run_inserted file_name _ _ d1 d2 _ E2) in H;
        [|discriminate].
      rewrite (on_file_run_inserted file_name _ _ d2 _ _ (set_user_version_run d2)) in H.
      cbn in H. injection H as <-. eexists. split; [apply lookup_insert_eq|reflexivity].
    + rewrite E11 in H. cbn [orb Z.ltb Z.eqb Z.compare Pos.compare Pos.compare_cont
                              query_script_file ret] in H.
      unfold bind in H. rewrite (copyfile_existing _ _ _ _ Hd) in H. cbn [ret] in H.
      destruct (m2 d) as [[[]|e] d2] eqn:E2;
        rewrite (on_file_after_backup file_name 11 _ fs d d2 _ Hd E2) in H;
        [|discriminate].
      rewrite (on_file_run_inserted file_name _ _ d2 _ _ (set_user_version_run d2)) in H.
      cbn in H. injection H as <-. eexists. split; [apply lookup_insert_eq|reflexivity].
    + cbn [orb] in H. destruct (Z.eqb_spec (user_version d) 0) as [E0|N0];
        [|discriminate].
      cbn [negb query_script_file] in H. unfold bind in H. cbn [ret] in H.
      rewrite (on_file_run file_name _ fs d _ _ ltac:(now rewrite Hd)
                 (set_user_version_run d)) in H.
      destruct (setup_sql_keeps_version {| user_version := 12; tables := tables d |})
        as [Hval Hver].
      destruct (setup_sql {| user_version := 12; tables := tables d |})
        as [r ds] eqn:Es. cbn [fst snd] in Hval, Hver. subst r.
      rewrite (on_file_run_inserted file_name _ _ _ ds _ Es) in H.
      assert (Hv := on_file_uncommitted_keeps_disk file_name
                      (add_view (View_default 0 "default")) (<[file_name := ds]> fs)).
      destruct (on_file_uncommitted file_name (add_view (View_default 0 "default"))
                  (<[file_name := ds]> fs)) as [r fsv].
      cbn [snd] in Hv. subst fsv.
      destruct r as [o|e]; [|discriminate].
      injection H as <-. eexists. split; [apply lookup_insert_eq|].
      now rewrite Hver.
  - destruct (Z.ltb_spec 12 (user_version d)); [discriminate|].
    injection H as <-. exists d. split; [exact Hd | lia].
Qed.

(** X22.  Whenever [Database.__init__] returns, whatever the file was
    (fresh, of schema 9 or 11 and migrated, or current), the file is at
    [user_version] 12 and a second [__init__] returns and changes nothing
    on disk: no second backup, no script run again, no row added. *)
Theorem open_then_open_again
    (migrate_9_11 migrate_11_12 : M DbFile unit) (file_name : string) (fs fs' : World) :
  Database_init migrate_9_11 migrate_11_12 file_name fs = (Val tt, fs') ->
  (exists d, fs' !! file_name = Some d /\ user_version d = 12) /\
  Database_init migrate_9_11 migrate_11_12 file_name fs' = (Val tt, fs').
Proof.
  intros H. rewrite Database_init_eq in H. cbn zeta in H.
  apply init_after_version_returns
    with (d := default fresh_file (fs !! file_name)) in H;
    [|apply lookup_insert_eq].
  destruct H as (d' & Hd' & Hv). split; [now exists d'|].
  rewrite (Database_init_existing _ _ _ _ _ Hd'), Hv. reflexivity.
Qed.

Lemma open_then_open_again_witness :
  exists fs',
    Database_init Samples.no_migration Samples.no_migration "cache.sqlite" Samples.disk9
      = (Val tt, fs') /\
    Database_init Samples.no_migration Samples.no_migration "cache.sqlite" fs'
      = (Val tt, fs').
Proof.
  exists (snd (Database_init Samples.no_migration Samples.no_migration
                 "cache.sqlite" Samples.disk9)).
  assert (H : Database_init Samples.no_migration Samples.no_migration
                "cache.sqlite" Samples.disk9
              = (Val tt, snd (Database_init Samples.no_migration Samples.no_migration
                                "cache.sqlite" Samples.disk9)))
    by (vm_compute; reflexivity).
  split; [exact H|].
  exact (proj2 (open_then_open_again _ _ _ _ _ H)).
Defined.

(** ** Where the backup of a sync directory's cache lies *)

Lemma string_app_assoc (a b c : string) :
  ((a ++ b) ++ c)%string = (a ++ (b ++ c))%string.
Proof.
  induction a as [|x a IH]; [reflexivity|].
  change (String x ((a ++ b) ++ c)%string = String x (a ++ (b ++ c))%string).
  f_equal. exact IH.
Qed.

Lemma rfind_from_app (c : ascii) (a b : string) :
  forall i last,
    rfind_from c (a ++ b)%string i last
    = rfind_from c b (i + Z.of_nat (String.length a)) (rfind_from c a i last).
Proof.
  induction a as [|x a IH]; intros i last.
  - change (rfind_from c b i last = rfind_from c b (i + 0) last). f_equal. lia.
  - change (rfind_from c (a ++ b)%string (i + 1) (if Ascii.eqb x c then i else last)
            = rfind_from c b (i + Z.of_nat (S (String.length a)))
                (rfind_from c a (i + 1) (if Ascii.eqb x c then i else last))).
    rewrite IH. f_equal. lia.
Qed.

Lemma str_take_app (a b : string) (k : nat) :
  str_take (String.length a + k) (a ++ b)%string = (a ++ str_take k b)%string.
Proof.
  induction a as [|x a IH]; [reflexivity|].
  change (String x (str_take (String.length a + k) (a ++ b)%string)
          = String x (a ++ str_take k b)%string).
  f_equal. exact IH.
Qed.

Lemma str_drop_app (a b : string) (k : nat) :
  str_drop (String.length a + k) (a ++ b)%string = str_drop k b.
Proof.
  induction a as [|x a IH]; [reflexivity|].
  change (str_drop (String.length a + k) (a ++ b)%string = str_drop k b). exact IH.
Qed.

Lemma splitext_of_cache (dir : string) :
  splitext (dir ++ "/.studip/cache.sqlite")%string
  = ((dir ++ "/.studip/cache")%string, ".sqlite").
Proof.
  unfold splitext, rfind. rewrite !rfind_from_app.
  set (n := String.length dir).
  set (lastsep := rfind_from "/" dir 0 (-1)).
  set (lastdot := rfind_from "." dir 0 (-1)).
  assert (Esep : rfind_from "/" "/.studip/cache.sqlite" (0 + Z.of_nat n) lastsep
                 = Z.of_nat n + 8) by (cbn; lia).
  assert (Edot : rfind_from "." "/.studip/cache.sqlite" (0 + Z.of_nat n) lastdot
                 = Z.of_nat n + 14) by (cbn; lia).
  rewrite Esep, Edot.
  replace (Z.of_nat n + 8 <? Z.of_nat n + 14) with true by (symmetry; apply Z.ltb_lt; lia).
  replace (Z.to_nat (Z.of_nat n + 8 + 1)) with (9 + n)%nat by lia.
  replace (Z.to_nat (Z.of_nat n + 14 - (Z.of_nat n + 8 + 1))) with 5%nat by lia.
  replace (Z.to_nat (Z.of_nat n + 14)) with (n + 14)%nat by lia.
  cbn [has_non_dot andb]. subst n.
  rewrite <- (String.append_correct2 dir "/.studip/cache.sqlite" 9).
  cbn [String.get Ascii.eqb Bool.eqb andb]. now rewrite str_take_app, str_drop_app.
Qed.

(** X23.  Whatever the sync directory is called, dots and slashes in its
    name included, the backup [Database.__init__] writes for its cache
    lies next to the cache: it is the file cache.backup-schema<version>.sqlite
    of the directory's .studip directory. *)
Theorem backup_of_the_cache (sync_dir : string) (db_version : Z) :
  backup_file_name (db_file_name sync_dir) db_version
  = (sync_dir ++ "/.studip/cache.backup-schema" ++ str db_version ++ ".sqlite")%string.
Proof.
  unfold db_file_name. rewrite string_app_assoc.
  change ("/.studip" ++ "/cache.sqlite")%string with "/.studip/cache.sqlite".
  unfold backup_file_name. rewrite splitext_of_cache.
  rewrite string_app_assoc. reflexivity.
Qed.

(** ** studip/application.py *)

(** X24.  [parse_command_line] accepts exactly the command lines of one
    or two arguments whose first argument is help, --help, -h, update,
    download, sync or clear-cache.  On acceptance the operation recorded
    is the first argument, with the three spellings of help recorded as
    help, and a sync directory is recorded exactly when a second argument
    is there, and is that argument. *)
Theorem parse_command_line_accepts (argv : list string) :
  let known := ["help"; "--help"; "-h"; "update"; "download"; "sync"; "clear-cache"] in
  (fst (parse_command_line argv) = true <->
   (length argv = 2%nat \/ length argv = 3%nat) /\ In (nth 1 argv "") known) /\
  (fst (parse_command_line argv) = true ->
   exists command_line : gmap string string,
     snd (parse_command_line argv) = Some command_line /\
     command_line !! "operation" = Some (recorded_operation (nth 1 argv "")) /\
     command_line !! "sync_dir" = nth_error argv 2 /\
     In (recorded_operation (nth 1 argv ""))
        ["help"; "update"; "download"; "sync"; "clear-cache"]).
Proof.
  cbn zeta. unfold parse_command_line, recorded_operation.
  destruct argv as [|a0 [|a1 [|a2 [|a3 argv]]]]; cbn [length Nat.ltb Nat.leb orb nth nth_error].
  - split; [split; [discriminate|intros [[H|H] _]; discriminate] | discriminate].
  - split; [split; [discriminate|intros [[H|H] _]; discriminate] | discriminate].
  - destruct (String.eqb_spec a1 "help") as [->|N1]; cbn [orb].
    { split; [split; [intros _; split; [now left|cbn; tauto] | reflexivity]|].
      intros _. eexists. split; [reflexivity|].
      split; [apply lookup_insert_eq|]. split; [reflexivity | cbn; tauto]. }
    destruct (String.eqb_spec a1 "--help") as [->|N2]; cbn [orb].
    { split; [split; [intros _; split; [now left|cbn; tauto] | reflexivity]|].
      intros _. eexists. split; [reflexivity|].
      split; [apply lookup_insert_eq|]. split; [reflexivity | cbn; tauto]. }
    destruct (String.eqb_spec a1 "-h") as [->|N3]; cbn [orb].
    { split; [split; [intros _; split; [now left|cbn; tauto] | reflexivity]|].
      intros _. eexists. split; [reflexivity|].
      split; [apply lookup_insert_eq|]. split; [reflexivity | cbn; tauto]. }
    cbn [existsb].
    destruct (String.eqb_spec a1 "update") as [->|N4];
      [|destruct (String.eqb_spec a1 "download") as [->|N5];
        [|destruct (String.eqb_spec a1 "sync") as [->|N6];
          [|destruct (String.eqb_spec a1 "clear-cache") as [->|N7]]]];
      cbn [orb negb fst snd].
    1-4: (split; [split; [intros _; split; [now left|cbn; tauto] | reflexivity]|];
          intros _; eexists; split; [reflexivity|];
          split; [apply lookup_insert_eq|]; split; [reflexivity | cbn; tauto]).
    split; [split; [discriminate|] | discriminate].
    intros [_ Hin]. cbn in Hin. intuition congruence.
  - destruct (String.eqb_spec a1 "help") as [->|N1]; cbn [orb].
    { split; [split; [intros _; split; [now right|cbn; tauto] | reflexivity]|].
      intros _. eexists. split; [reflexivity|].
      split; [now rewrite lookup_insert_ne, lookup_insert_eq|].
      split; [apply lookup_insert_eq | cbn; tauto]. }
    destruct (String.eqb_spec a1 "--help") as [->|N2]; cbn [orb].
    { split; [split; [intros _; split; [now right|cbn; tauto] | reflexivity]|].
      intros _. eexists. split; [reflexivity|].
      split; [now rewrite lookup_insert_ne, lookup_insert_eq|].
      split; [apply lookup_insert_eq | cbn; tauto]. }
    destruct (String.eqb_spec a1 "-h") as [->|N3]; cbn [orb].
    { split; [split; [intros _; split; [now right|cbn; tauto] | reflexivity]|].
      intros _. eexists. split; [reflexivity|].
      split; [now rewrite lookup_insert_ne, lookup_insert_eq|].
      split; [apply lookup_insert_eq | cbn; tauto]. }
    cbn [existsb].
    destruct (String.eqb_spec a1 "update") as [->|N4];
      [|destruct (String.eqb_spec a1 "download") as [->|N5];
        [|destruct (String.eqb_spec a1 "sync") as [->|N6];
          [|destruct (String.eqb_spec a1 "clear-cache") as [->|N7]]]];
      cbn [orb negb fst snd].
    1-4: (split; [split; [intros _; split; [now right|cbn; tauto] | reflexivity]|];
          intros _; eexists; split; [reflexivity|];
          split; [now rewrite lookup_insert_ne, lookup_insert_eq|];
          split; [apply lookup_insert_eq | cbn; tauto]).
    split; [split; [discriminate|] | discriminate].
    intros [_ Hin]. cbn in Hin. intuition congruence.
  - split; [split; [discriminate|intros [[H|H] _]; discriminate] | discriminate].
Qed.

Lemma list_remove_shorter (x : string) (history : list string) :
  existsb (String.eqb x) history = true ->
  S (length (list_remove x history)) = length history.
Proof.
  induction history as [|y l IH]; cbn; [discriminate|].
  rewrite String.eqb_sym. destruct (String.eqb y x); cbn; [reflexivity|].
  intros H. now rewrite IH.
Qed.

Lemma filter_list_remove (x : string) (history : list string) :
  List.filter (fun d => negb (String.eqb d x)) (list_remove x history)
  = List.filter (fun d => negb (String.eqb d x)) history.
Proof.
  induction history as [|y l IH]; cbn; [reflexivity|].
  destruct (String.eqb y x) eqn:E; cbn; [reflexivity|]. now rewrite E, IH.
Qed.

(** With a turn for each entry, the loop ends by its test and has removed
    every occurrence. *)
Lemma remove_while_in_filter (x : string) :
  forall fuel history, (length history <= fuel)%nat ->
    remove_while_in fuel x history
    = List.filter (fun d => negb (String.eqb d x)) history.
Proof.
  induction fuel as [|fuel IH]; intros history Hlen.
  - destruct history; [reflexivity | cbn in Hlen; lia].
  - cbn [remove_while_in]. destruct (existsb (String.eqb x) history) eqn:E.
    + rewrite IH, filter_list_remove; [reflexivity|].
      apply list_remove_shorter in E. lia.
    + symmetry. apply filter_all. intros d Hd.
      apply (existsb_false_In _ _ d E) in Hd. now rewrite String.eqb_sym, Hd.
Qed.

(** X25.  The history [setup_sync_dir] writes back, its loop given a
    turn for each entry: the loop has ended because the directory was no
    longer in the list; the new history starts with the sync directory,
    which occurs nowhere else in it, followed by the other entries of the
    old history in their old order.  A history that starts with the sync
    directory and holds it once is written back as it was. *)
Theorem new_history_moves_to_front
    (fuel : nat) (sync_dir : string) (history : list string) :
  (length history <= fuel)%nat ->
  existsb (String.eqb sync_dir) (remove_while_in fuel sync_dir history) = false /\
  new_history fuel sync_dir history
  = sync_dir :: List.filter (fun d => negb (String.eqb d sync_dir)) history /\
  ~ In sync_dir (tl (new_history fuel sync_dir history)) /\
  (forall rest, history = sync_dir :: rest -> ~ In sync_dir rest ->
                new_history fuel sync_dir history = history).
Proof.
  intros Hlen. unfold new_history. rewrite (remove_while_in_filter _ _ _ Hlen).
  assert (Hnot : ~ In sync_dir
                   (List.filter (fun d => negb (String.eqb d sync_dir)) history)).
  { intros H. apply List.filter_In in H. destruct H as [_ H].
    now rewrite String.eqb_refl in H. }
  split; [|split; [reflexivity|split; [exact Hnot|]]].
  - apply existsb_none. intros d Hd. apply String.eqb_neq. intros ->. now apply Hnot.
  - intros rest -> Hrest. cbn. rewrite String.eqb_refl. cbn. f_equal.
    apply filter_all. intros d Hd. apply negb_true_iff, String.eqb_neq.
    intros ->. contradiction.
Qed.

Lemma new_history_moves_to_front_witness :
  new_history 3 "/home/u/StudIP" ["/tmp/a"; "/home/u/StudIP"; "/tmp/b"]
  = ["/home/u/StudIP"; "/tmp/a"; "/tmp/b"].
Proof.
  destruct (new_history_moves_to_front 3 "/home/u/StudIP"
              ["/tmp/a"; "/home/u/StudIP"; "/tmp/b"]) as (_ & H & _).
  - cbn. lia.
  - exact H.
Defined.

(** X26.  [open_database] does not turn a refused schema version into
    [ApplicationExit]: for a file whose version [Database.__init__]
    refuses, the handler's [print_io_error] reads [e.strerror], which
    [DatabaseVersionError] does not have, and [AttributeError] leaves
    [open_database], with nothing on disk changed. *)
Theorem open_database_on_a_refused_version
    (migrate_9_11 migrate_11_12 : M DbFile unit)
    (db_file_name : string) (fs : World) (d : DbFile) :
  fs !! db_file_name = Some d ->
  schema_version < user_version d \/
  (user_version d < schema_version /\ user_version d <> 0 /\
   user_version d <> 9 /\ user_version d <> 11) ->
  open_database migrate_9_11 migrate_11_12 db_file_name fs
  = (Some AttributeError, fs).
Proof.
  intros Hd Hv. unfold open_database.
  rewrite (Database_init_existing _ _ _ _ _ Hd).
  unfold init_after_version, open_after_version, schema_version in *.
  destruct Hv as [Hgt | (Hlt & H0 & H9 & H11)].
  - destruct (Z.ltb_spec (user_version d) 12); [lia|].
    destruct (Z.ltb_spec 12 (user_version d)); [reflexivity | lia].
  - destruct (Z.ltb_spec (user_version d) 12); [|lia].
    destruct (Z.eqb_spec (user_version d) 9); [lia|].
    destruct (Z.eqb_spec (user_version d) 11); [lia|].
    destruct (Z.eqb_spec (user_version d) 0); [lia|].
    reflexivity.
Qed.

Lemma open_database_on_a_refused_version_witness :
  open_database Samples.no_migration Samples.no_migration "cache.sqlite" Samples.disk13
  = (Some AttributeError, Samples.disk13).
Proof.
  apply (open_database_on_a_refused_version _ _ _ _
           {| user_version := 13; tables := Some Samples.store1 |}).
  - reflexivity.
  - left. reflexivity.
Defined.

(** ** The order of the lists *)

Lemma insert_sorted_Sorted {A} (le : A -> A -> bool) (x : A) (l : list A) :
  (forall a b, le a b = true \/ le b a = true) ->
  Sorted (fun a b => le a b = true) l ->
  Sorted (fun a b => le a b = true) (insert_sorted le x l).
Proof.
  intros Htotal Hl. induction l as [|y l IH]; cbn.
  - repeat constructor.
  - destruct (le x y) eqn:E.
    + constructor; [exact Hl | now constructor].
    + inversion Hl as [|y' l' Hl' Hhd]; subst. constructor; [now apply IH|].
      destruct l as [|z l]; cbn.
      * constructor. destruct (Htotal x y) as [H|H]; [congruence | exact H].
      * destruct (le x z).
        -- constructor. destruct (Htotal x y) as [H|H]; [congruence | exact H].
        -- inversion Hhd; subst. now constructor.
Qed.

Lemma order_by_Sorted {A} (le : A -> A -> bool) (l : list A) :
  (forall a b, le a b = true \/ le b a = true) ->
  Sorted (fun a b => le a b = true) (order_by le l).
Proof.
  intros Htotal. induction l as [|a l IH]; cbn; [constructor|].
  now apply insert_sorted_Sorted.
Qed.

Lemma insert_sorted_Permutation {A} (le : A -> A -> bool) (x : A) (l : list A) :
  Permutation (insert_sorted le x l) (x :: l).
Proof.
  induction l as [|y l IH]; cbn; [reflexivity|].
  destruct (le x y); [reflexivity|].
  rewrite IH. apply perm_swap.
Qed.

Lemma order_by_Permutation {A} (le : A -> A -> bool) (l : list A) :
  Permutation (order_by le l) l.
Proof.
  induction l as [|a l IH]; cbn; [reflexivity|].
  rewrite insert_sorted_Permutation. now constructor.
Qed.

Lemma string_leb_total (a b : string) : String.leb a b = true \/ String.leb b a = true.
Proof.
  unfold String.leb. rewrite (String.compare_antisym a b).
  destruct (String.compare b a); cbn; auto.
Qed.

Lemma le_name_type_total (a b : CourseRow * SemesterRow) :
  le_name_type a b = true \/ le_name_type b a = true.
Proof.
  unfold le_name_type, String.ltb.
  rewrite (String.compare_antisym (c_name a.1) (c_name b.1)).
  destruct (String.compare (c_name b.1) (c_name a.1)) eqn:E; cbn; auto.
  apply String.compare_eq_iff in E. rewrite E, String.eqb_refl. cbn.
  apply string_leb_total.
Qed.

(** X27.  [list_courses] returns each course of the selected sync modes
    once per stored row, in the order of the course names: its ids are
    those of a rearrangement of the selected rows in which no name is
    followed by a smaller one; the full projection is ordered by name and,
    for equal names, by type.  [list_views] returns its ids in the order
    of the view names. *)
Theorem lists_are_ordered_by_name (s : Store) :
  (forall yes metadata_only no, exists rows,
      list_courses false yes metadata_only no s = (Val (inr (map c_id rows)), s) /\
      Permutation rows
        (select_where (sync_in (sync_modes yes metadata_only no)) (courses s)) /\
      Sorted (fun a b => String.leb (c_name a) (c_name b) = true) rows) /\
  (forall yes metadata_only no, exists rows,
      list_courses true yes metadata_only no s
      = (Val (inl (map Course_of_row rows)), s) /\
      Permutation rows
        (select_where (fun p => sync_in (sync_modes yes metadata_only no) (fst p))
           (join_semesters s)) /\
      Sorted (fun a b =>
                String.ltb (c_name (fst a)) (c_name (fst b))
                || (String.eqb (c_name (fst a)) (c_name (fst b))
                    && String.leb (c_type (fst a)) (c_type (fst b))) = true) rows) /\
  (exists rows,
      list_views false s = (Val (inr (map v_id rows)), s) /\
      Permutation rows (views s) /\
      Sorted (fun a b => String.leb (v_name a) (v_name b) = true) rows).
Proof.
  split; [|split].
  - intros yes metadata_only no. eexists. split; [apply list_courses_ids_eq|].
    split; [apply order_by_Permutation|].
    apply (order_by_Sorted le_name). intros a b. apply string_leb_total.
  - intros yes metadata_only no. eexists. split; [apply list_courses_full_eq|].
    split; [apply order_by_Permutation|].
    apply (order_by_Sorted le_name_type). apply le_name_type_total.
  - eexists. split; [apply (list_views_eq false)|].
    split; [apply order_by_Permutation|].
    apply (order_by_Sorted le_view_name). intros a b. apply string_leb_total.
Qed.
